(** * Calos AI assistant: intent dispatch and message-importance triage

    A shallow embedding of the decision logic of the services under
    [src/services], [src/services/actions], [src/config/gemini.ts] and the
    feedback and preferences routes of [src/routes/preferences.routes.ts],
    followed by the properties proved about it.

    Conventions of the embedding.
    - JavaScript values that reach the code untyped (the parsed model
      response and everything read out of it) are kept as [Js.value].
    - A JavaScript number is the rational it stands for; [Js.number] adds
      NaN.  The code only compares numbers with literals and with the
      quotient of two set sizes.  The literals 0, 0.5, 1, 4, 5, 7, 8, 10 and
      3650 are exact, and the quotients of word counts (fewer than 2^26
      words) compare as the fractions do.  The literal 0.6 denotes the
      binary64 number nearest to 6/10, which lies just below it; no binary64
      number lies from there up to 6/10, so on the numbers the program meets
      the test [> 0.6] is the comparison with 6/10.  The one product the
      code takes, of a random number and the size of the palette, is rounded
      to binary64 ([Js.round64]).
    - Strings are [string]; case folding and white space are those of
      ASCII, which are those of the language on texts of ASCII characters
      ([plain]).  Where a property depends on how other characters are
      folded or trimmed it is stated for such texts.
    - Exceptions are the [Throw] results of [Exc]; asynchronous code is
      sequential code in the monad [Io.M], whose state records the calls
      made to the outside world.
    - Logging has no influence on results and is left out. *)

From Stdlib Require Import String Ascii List Bool Arith ZArith QArith Qminmax Qround Qabs Lia.
From Stdlib Require Import DecimalString Lqa.
Import ListNotations.

Set Warnings "-register-all".

Close Scope Q_scope.
Local Open Scope string_scope.
Local Open Scope list_scope.

(* ================================================================== *)
(** * Part I: the embedding                                            *)
(* ================================================================== *)

(** ** JavaScript values, numbers and strings *)

Module Js.

(** Values produced by [JSON.parse], plus [undefined] for absent
    properties.  An object is its list of properties. *)
Inductive value : Type :=
| JUndefined
| JNull
| JBool (b : bool)
| JNum (q : Q)
| JStr (s : string)
| JArr (items : list value)
| JObj (props : list (string * value)).

(** A number as arithmetic and comparisons see it. *)
Inductive number : Type :=
| NaN
| Fin (q : Q).

(** Truthiness, as tested by [if (v)], [!v] and [v || w]. *)
Definition truthy (v : value) : bool :=
  match v with
  | JUndefined | JNull => false
  | JBool b => b
  | JNum q => negb (Qeq_bool q 0%Q)
  | JStr s => negb (s =? "")
  | JArr _ | JObj _ => true
  end.

(** [v || w] *)
Definition or_else (v w : value) : value := if truthy v then v else w.

Fixpoint lookup (k : string) (props : list (string * value)) : value :=
  match props with
  | [] => JUndefined
  | (k', v) :: rest => if k =? k' then v else lookup k rest
  end.

(** Property read [o.k].  Reading from [null] or [undefined] throws a
    TypeError ([None]).  None of the property names used by the code is
    defined on a primitive or an array, so those reads give [undefined]. *)
Definition get (o : value) (k : string) : option value :=
  match o with
  | JUndefined | JNull => None
  | JObj props => Some (lookup k props)
  | _ => Some JUndefined
  end.

(** ToNumber.  The conversion of strings, arrays and objects belongs to
    the runtime and is taken as the parameter [conv]. *)
Definition ToNumber (conv : value -> number) (v : value) : number :=
  match v with
  | JUndefined => NaN
  | JNull => Fin 0%Q
  | JBool b => Fin (if b then 1%Q else 0%Q)
  | JNum q => Fin q
  | _ => conv v
  end.

(** Relational operators on numbers: every comparison with NaN is false. *)
Definition ltb (a b : number) : bool :=
  match a, b with
  | Fin x, Fin y => negb (Qle_bool y x)
  | _, _ => false
  end.
Definition leb (a b : number) : bool :=
  match a, b with
  | Fin x, Fin y => Qle_bool x y
  | _, _ => false
  end.
Definition gtb (a b : number) : bool := ltb b a.
Definition geb (a b : number) : bool := leb b a.

Definition Math_min (a b : number) : number :=
  match a, b with
  | Fin x, Fin y => Fin (Qmin x y)
  | _, _ => NaN
  end.
Definition Math_max (a b : number) : number :=
  match a, b with
  | Fin x, Fin y => Fin (Qmax x y)
  | _, _ => NaN
  end.

(** *** Strings *)

Definition lower_ascii (c : ascii) : ascii :=
  let n := nat_of_ascii c in
  if (65 <=? n)%nat && (n <=? 90)%nat then ascii_of_nat (n + 32) else c.

Fixpoint toLowerCase (s : string) : string :=
  match s with
  | EmptyString => EmptyString
  | String c s' => String (lower_ascii c) (toLowerCase s')
  end.

(** Tab, line feed, vertical tab, form feed, carriage return, space. *)
Definition is_space (c : ascii) : bool :=
  let n := nat_of_ascii c in
  ((9 <=? n)%nat && (n <=? 13)%nat) || (n =? 32)%nat.

Fixpoint trimStart (s : string) : string :=
  match s with
  | EmptyString => EmptyString
  | String c s' => if is_space c then trimStart s' else s
  end.

Fixpoint trimEnd (s : string) : string :=
  match s with
  | EmptyString => EmptyString
  | String c s' =>
      match trimEnd s' with
      | EmptyString => if is_space c then EmptyString else String c EmptyString
      | t => String c t
      end
  end.

Definition trim (s : string) : string := trimEnd (trimStart s).

Definition startsWith (s p : string) : bool := prefix p s.

(** [s.includes(sub)] *)
Fixpoint includes (s sub : string) : bool :=
  prefix sub s ||
  match s with
  | EmptyString => false
  | String _ s' => includes s' sub
  end.

(** [s.split(sep)] for a one-character separator: the pieces between
    consecutive separators, empty pieces included. *)
Fixpoint split (sep : ascii) (s : string) : list string :=
  match s with
  | EmptyString => [EmptyString]
  | String c s' =>
      if Ascii.eqb c sep then EmptyString :: split sep s'
      else match split sep s' with
           | [] => [String c EmptyString]
           | w :: ws => String c w :: ws
           end
  end.

Fixpoint drop (n : nat) (s : string) : string :=
  match n, s with
  | O, _ => s
  | S n', String _ s' => drop n' s'
  | S _, EmptyString => EmptyString
  end.

Definition newline : string := String "010"%char EmptyString.

(** [s.replace(/p\n?/g, '')] for a literal, non-empty [p]: every
    occurrence of [p], together with a line feed that follows it, is
    deleted, scanning from the left.  [skip] counts the characters of the
    current occurrence still to be deleted. *)
Fixpoint delete_all (p : string) (skip : nat) (s : string) : string :=
  match s with
  | EmptyString => EmptyString
  | String c s' =>
      match skip with
      | S k => delete_all p k s'
      | O =>
          if prefix p s then
            let extra := if prefix newline (drop (String.length p) s) then 1 else 0 in
            delete_all p (String.length p + extra - 1) s'
          else String c (delete_all p 0 s')
      end
  end.

(** [new Set(items)]: the distinct items in order of first occurrence. *)
Definition Set_of (items : list string) : list string :=
  List.rev (nodup string_dec (List.rev items)).

(** [set.has(x)] *)
Definition has (set : list string) (x : string) : bool :=
  existsb (String.eqb x) set.

(** *** Rounded arithmetic *)

(** The integer nearest to a rational, the even one of two equally near. *)
Definition round_half_even (q : Q) : Z :=
  let f := Qfloor q in
  match Qcompare (q - inject_Z f) (1 # 2) with
  | Lt => f
  | Gt => (f + 1)%Z
  | Eq => if Z.even f then f else (f + 1)%Z
  end.

(** The binary64 number nearest to a rational, ties to the even
    significand: the result of an arithmetic operation whose exact value
    is the rational.  The value is counted in units of 2^-1074, the least
    positive binary64 number, and rounded to a multiple of 2^k units, where
    k leaves 53 significant bits and is 0 for subnormal numbers.  Overflow
    to Infinity is left out. *)
Definition round64 (x : Q) : Q :=
  let y := (Qabs x * inject_Z (2 ^ 1074))%Q in
  let k := Z.max 0 (Z.log2 (Qfloor y) - 52) in
  let m := round_half_even (y / inject_Z (2 ^ k)) in
  (inject_Z (Z.sgn (Qnum x) * (m * 2 ^ k)) / inject_Z (2 ^ 1074))%Q.

Arguments round64 : simpl never.

End Js.

(** ** Exceptions *)

(** A thrown error: the HTTP status it may carry and its message. *)
Record Error : Type := mkError {
  err_status : option Z;
  err_message : string
}.

Inductive Exc (A : Type) : Type :=
| Ok (a : A)
| Throw (e : Error).
Arguments Ok {A} a.
Arguments Throw {A} e.

(** [try { ... } catch (e) { ... }] around code without side effects. *)
Definition pure_catch {A : Type} (body : Exc A) (handler : Error -> A) : A :=
  match body with
  | Ok a => a
  | Throw e => handler e
  end.

(** Sequencing of code that may throw. *)
Definition and_then {A B : Type} (x : Exc A) (k : A -> Exc B) : Exc B :=
  match x with
  | Ok a => k a
  | Throw e => Throw e
  end.

Notation "x <-- c ;; k" := (and_then c (fun x => k))
  (at level 61, c at next level, right associativity).

(** A TypeError raised by the runtime. *)
Definition TypeError (msg : string) : Error := mkError None msg.

(** What the runtime and its libraries compute and the repository only
    calls: [JSON.parse] ([None] when it throws a SyntaxError), the numeric
    conversion of strings and objects, the text of a value inside a template
    literal, and the [en-US] rendering of a date. *)
Record Runtime : Type := mkRuntime {
  JSON_parse : string -> option Js.value;
  ToNumber_conv : Js.value -> Js.number;
  ToString : Js.value -> string;
  toLocaleDateString : Js.value -> string;
  toLocaleTimeString : Js.value -> string
}.

Definition toNumber (rt : Runtime) (v : Js.value) : Js.number :=
  Js.ToNumber (ToNumber_conv rt) v.

(** ** Data of the Goal-Tracker service ([dayTrackerAPI.ts]) *)

Record Goal : Type := mkGoal {
  goal_id : Z;
  title : string;
  description : option string;
  startDate : string;
  durationDays : Z;
  endDate : string;
  color : string;
  isActive : bool;
  loggedDays : Z;
  progress : Z;
  daysRemaining : Z
}.

Record FuturePlan : Type := mkFuturePlan {
  plan_title : Js.value;
  plan_description : Js.value;
  plan_plannedDate : Js.value
}.

Record CreateDailyLogData : Type := mkLogData {
  ld_goalId : Z;
  ld_logDate : Js.value;
  ld_notes : Js.value;
  ld_activities : option (list Js.value);
  ld_goodThings : option (list Js.value);
  ld_futurePlans : option (list FuturePlan);
  ld_clientId : string
}.

Record CreateGoalData : Type := mkGoalData {
  gd_title : Js.value;
  gd_description : Js.value;
  gd_startDate : Js.value;
  gd_durationDays : Js.value;
  gd_color : Js.value
}.

Record DailyLog : Type := mkDailyLog {
  log_id : Z;
  log_goalId : Z;
  log_logDate : string
}.

(** ** The outside world *)

Inductive Executor : Type := dailyLogCreator | goalCreator | reminderCreator.

Inductive Source : Type := gmail | twitter.

Inductive Request : Type :=
| GetGoals
| PostGoal (data : CreateGoalData)
| PostDailyLog (data : CreateDailyLogData).

(** What the program did to the outside world, oldest first:
    one call of [model.generateContent], one request to the Goal-Tracker,
    one fetch from a message source.  [Invoked] is a ghost mark left when an
    action executor is entered. *)
Inductive Event : Type :=
| Generated
| Http (r : Request)
| Fetched (src : Source) (userId : Z)
| Invoked (x : Executor).

(** One call of [model.generateContent]: it resolves to a result whose
    [response.text()] gives a text or throws, or it rejects. *)
Inductive Attempt : Type :=
| Answer (text : Exc string)
| Reject (e : Error).

(** An axios call: the payload of the response, or the rejection with
    [error.response.data.message] (when there is one) and [error.message]. *)
Inductive Reply (A : Type) : Type :=
| Replied (data : A)
| Failed (response_message : option string) (message : string).
Arguments Replied {A} data.
Arguments Failed {A} response_message message.

Record Email : Type := mkEmail {
  email_id : string;
  email_from : string;
  email_subject : string;
  email_snippet : string;
  email_body : string
}.

Record Mention : Type := mkMention {
  mention_id : string;
  mention_author : string;
  mention_text : string
}.

(** How the outside world answers, as a function of what has happened so
    far, and the readings of the clock and of the random sources. *)
Record Outside : Type := mkOutside {
  generateContent_result : list Event -> Attempt;
  getGoals_reply : list Event -> Reply (list Goal);
  postGoal_reply : list Event -> CreateGoalData -> Reply Goal;
  postDailyLog_reply : list Event -> CreateDailyLogData -> Reply DailyLog;
  fetchRecentUnreadEmails_result : list Event -> Exc (list Email);
  fetchRecentMentions_result : list Event -> Exc (list Mention);
  learningContext_result : list Event -> Exc string;
  today : string;
  time_text : string -> string;
  now_hours : nat;
  now_minutes : nat;
  uuidv4 : list Event -> string;
  Math_random : list Event -> Q
}.

(** ** Rows of the persistent store ([database/schema.sql]) *)

Inductive Category : Type := high | medium | low.

Record PreferencesRow : Type := mkPrefs {
  pref_user_id : Z;
  wake_time : string;
  sleep_time : string
}.

Record MessageRow : Type := mkMessageRow {
  msg_id : Z;
  msg_user_id : Z;
  msg_source : Source;
  msg_message_id : string;
  msg_sender : string;
  msg_content : string;
  importance_score : Js.number;
  classification : Category
}.

Record FeedbackRow : Type := mkFeedbackRow {
  fb_message_id : Z;
  fb_user_id : Z;
  original_score : Js.number;
  corrected_score : Js.number;
  feedback_text : option string
}.

(** ** The monad of asynchronous code *)

Module Io.

Record World : Type := mkWorld {
  authToken : option string;
  trace : list Event;
  ai_preferences : list PreferencesRow;
  monitored_messages : list MessageRow;
  message_feedback : list FeedbackRow
}.

Definition M (A : Type) : Type := World -> Exc A * World.

Definition ret {A : Type} (a : A) : M A := fun w => (Ok a, w).

Definition bind {A B : Type} (c : M A) (k : A -> M B) : M B :=
  fun w =>
    match c w with
    | (Ok a, w') => k a w'
    | (Throw e, w') => (Throw e, w')
    end.

Definition throw {A : Type} (e : Error) : M A := fun w => (Throw e, w).

(** [try { body } catch (e) { handler(e) }]: what [body] did before
    throwing stays done. *)
Definition try_catch {A : Type} (body : M A) (handler : Error -> M A) : M A :=
  fun w =>
    match body w with
    | (Ok a, w') => (Ok a, w')
    | (Throw e, w') => handler e w'
    end.

Definition lift {A : Type} (x : Exc A) : M A := fun w => (x, w).

Definition emit (ev : Event) : M unit :=
  fun w => (Ok tt, mkWorld (authToken w) (trace w ++ [ev]) (ai_preferences w)
                           (monitored_messages w) (message_feedback w)).

(** The answer of the outside world to the next call. *)
Definition ask {A : Type} (f : list Event -> A) : M A :=
  fun w => (Ok (f (trace w)), w).

Definition read {A : Type} (f : World -> A) : M A := fun w => (Ok (f w), w).

Definition write (f : World -> World) : M unit := fun w => (Ok tt, f w).

End Io.

Notation "x <- c ;; k" := (Io.bind c (fun x => k))
  (at level 61, c at next level, right associativity).
Notation "c ;;; k" := (Io.bind c (fun _ => k))
  (at level 61, right associativity).

(** ** The Language-Model Gateway ([config/gemini.ts]) *)

Module Gemini.

Definition maxRetries : nat := 3.

Definition transient (e : Error) : bool :=
  match err_status e with
  | Some s => (s =? 429)%Z || (s =? 503)%Z
  | None => false
  end.

Section WithOutside.
Variable out : Outside.

(** [model.generateContent(prompt)].  The prompt is text for the model and
    decides nothing in the program; what comes back is up to the outside. *)
Definition generateContent : Io.M Attempt :=
  a <- Io.ask (generateContent_result out) ;;
  Io.emit Generated ;;;
  Io.ret a.

(** The loop of [generateContentWithRetry]; [remaining] is
    [maxRetries - attempt].  The pause before a retry is not modelled. *)
Fixpoint retry (remaining : nat) : Io.M (Exc string) :=
  a <- generateContent ;;
  match a with
  | Answer result => Io.ret result
  | Reject error =>
      match remaining with
      | O => Io.throw error
      | S k => if transient error then retry k else Io.throw error
      end
  end.

Definition generateContentWithRetry : Io.M (Exc string) := retry maxRetries.

End WithOutside.

End Gemini.

(** ** The Intent Analyzer ([services/intentService.ts]) *)

Module IntentService.

Inductive Intent : Type :=
| CREATE_DAILY_LOG
| CREATE_GOAL
| UPDATE_GOAL
| CREATE_REMINDER
| GET_GOAL_STATUS
| GET_TODAY_SUMMARY
| CHAT_ONLY.

Definition Intent_value (i : Intent) : string :=
  match i with
  | CREATE_DAILY_LOG => "create_log"
  | CREATE_GOAL => "create_goal"
  | UPDATE_GOAL => "update_goal"
  | CREATE_REMINDER => "create_reminder"
  | GET_GOAL_STATUS => "get_status"
  | GET_TODAY_SUMMARY => "get_summary"
  | CHAT_ONLY => "chat"
  end.

(** The enumeration in declaration order, as [Object.values(Intent)]
    lists it. *)
Definition Intent_members : list Intent :=
  [CREATE_DAILY_LOG; CREATE_GOAL; UPDATE_GOAL; CREATE_REMINDER;
   GET_GOAL_STATUS; GET_TODAY_SUMMARY; CHAT_ONLY].

Definition Intent_eqb (a b : Intent) : bool :=
  Intent_value a =? Intent_value b.

(** [Object.values(Intent).includes(v)], giving the member found. *)
Definition Intent_of (v : Js.value) : option Intent :=
  match v with
  | Js.JStr s => find (fun i => Intent_value i =? s) Intent_members
  | _ => None
  end.

Record IntentAnalysisResult : Type := mkIntentResult {
  intent : Intent;
  entities : Js.value;
  confidence : Js.value;
  rawMessage : string
}.

(** The result both fallbacks return. *)
Definition chat_fallback (raw : string) : IntentAnalysisResult :=
  mkIntentResult CHAT_ONLY (Js.JObj []) (Js.JNum 1%Q) raw.

(** Removal of a Markdown code fence, shared with the classifier. *)
Definition strip_fences (response : string) : string :=
  let cleaned := Js.trim response in
  if Js.startsWith cleaned "```json" then
    Js.delete_all "```" 0 (Js.delete_all "```json" 0 cleaned)
  else if Js.startsWith cleaned "```" then
    Js.delete_all "```" 0 cleaned
  else cleaned.

Definition parse (rt : Runtime) (text : string) : Exc Js.value :=
  match JSON_parse rt text with
  | Some v => Ok v
  | None => Throw (mkError None "Unexpected token in JSON")
  end.

Definition get_prop (o : Js.value) (k : string) : Exc Js.value :=
  match Js.get o k with
  | Some v => Ok v
  | None => Throw (TypeError "Cannot read properties of null")
  end.

Section WithRuntime.
Variable rt : Runtime.

Definition parseIntentResponse (response : string) : IntentAnalysisResult :=
  pure_catch
    (parsed <-- parse rt (strip_fences response) ;;
     parsed_intent <-- get_prop parsed "intent" ;;
     match Intent_of parsed_intent with
     | None => Ok (chat_fallback response)
     | Some i =>
         parsed_entities <-- get_prop parsed "entities" ;;
         parsed_confidence <-- get_prop parsed "confidence" ;;
         Ok (mkIntentResult i
               (Js.or_else parsed_entities (Js.JObj []))
               (Js.or_else parsed_confidence (Js.JNum (1 # 2)))
               response)
     end)
    (fun _ => chat_fallback response).

Variable out : Outside.

(** [analyzeIntent] on the current date, which is how [chat] calls it;
    building the prompt from a valid date cannot throw. *)
Definition analyzeIntent (message : string) : Io.M IntentAnalysisResult :=
  Io.try_catch
    (result <- Gemini.generateContentWithRetry out ;;
     response <- Io.lift result ;;
     Io.ret (parseIntentResponse response))
    (fun _ => Io.ret (chat_fallback message)).

End WithRuntime.

End IntentService.

(** ** The Goal-Tracker client ([services/dayTrackerAPI.ts]) *)

Module DayTrackerAPI.

(** [error.response?.data?.message || error.message || fallback] *)
Definition failure_message (response_message : option string)
    (message fallback : string) : string :=
  match response_message with
  | Some m => if negb (m =? "") then m
              else if negb (message =? "") then message else fallback
  | None => if negb (message =? "") then message else fallback
  end.

Definition settle {A : Type} (fallback : string) (r : Reply A) : Io.M A :=
  match r with
  | Replied data => Io.ret data
  | Failed response_message message =>
      Io.throw (mkError None (failure_message response_message message fallback))
  end.

Definition setAuthToken (token : string) : Io.M unit :=
  Io.write (fun w => Io.mkWorld (Some token) (Io.trace w) (Io.ai_preferences w)
                                (Io.monitored_messages w) (Io.message_feedback w)).

(** [calculateSimilarity]: the sizes of the intersection and of the union
    of the two word sets, as the fraction the division yields.  The union is
    never empty, since [split] returns at least one piece. *)
Definition calculateSimilarity (str1 str2 : string) : Q :=
  let words1 := Js.Set_of (Js.split " " str1) in
  let words2 := Js.Set_of (Js.split " " str2) in
  let intersection := Js.Set_of (filter (Js.has words2) words1) in
  let union := Js.Set_of (words1 ++ words2) in
  (Z.of_nat (List.length intersection) # Pos.of_nat (List.length union))%Q.

(** [matches.sort((a, b) => b.similarity - a.similarity)]: a stable sort
    into descending similarity.  [insert] moves [m] to the right of every
    entry that is strictly more similar. *)
Fixpoint insert (m : Goal * Q) (sorted : list (Goal * Q)) : list (Goal * Q) :=
  match sorted with
  | [] => [m]
  | m' :: rest =>
      if negb (Qle_bool (snd m') (snd m)) then m' :: insert m rest
      else m :: sorted
  end.

Definition sort (matches : list (Goal * Q)) : list (Goal * Q) :=
  fold_right insert [] matches.

(** The body of [findGoalByKeyword] once the goals are fetched and known
    to be non-empty. *)
Definition matchGoal (goals : list Goal) (keyword : string) : option Goal :=
  let lowerKeyword := Js.trim (Js.toLowerCase keyword) in
  let exactMatch :=
    find (fun g => Js.includes (Js.toLowerCase (title g)) lowerKeyword
                   || Js.includes lowerKeyword (Js.toLowerCase (title g)))
         goals in
  match exactMatch with
  | Some g => Some g
  | None =>
      let matches :=
        map (fun goal => (goal, calculateSimilarity lowerKeyword
                                  (Js.toLowerCase (title goal)))) goals in
      match sort matches with
      | best :: _ =>
          if negb (Qle_bool (snd best) (1 # 2)) then Some (fst best) else None
      | [] => None
      end
  end.

Section WithOutside.
Variable out : Outside.

Definition getGoals : Io.M (list Goal) :=
  r <- Io.ask (getGoals_reply out) ;;
  Io.emit (Http GetGoals) ;;;
  settle "Failed to fetch goals" r.

Definition createGoal (data : CreateGoalData) : Io.M Goal :=
  r <- Io.ask (fun t => postGoal_reply out t data) ;;
  Io.emit (Http (PostGoal data)) ;;;
  settle "Failed to create goal" r.

Definition createDailyLog (data : CreateDailyLogData) : Io.M DailyLog :=
  r <- Io.ask (fun t => postDailyLog_reply out t data) ;;
  Io.emit (Http (PostDailyLog data)) ;;;
  settle "Failed to create daily log" r.

(** [keyword] is whatever the model put under [goalKeyword]; anything but
    a string has no [toLowerCase] and the call throws. *)
Definition findGoalByKeyword (keyword : Js.value) : Io.M (option Goal) :=
  goals <- getGoals ;;
  match goals with
  | [] => Io.ret None
  | _ :: _ =>
      match keyword with
      | Js.JStr k => Io.ret (matchGoal goals k)
      | _ => Io.throw (TypeError "keyword.toLowerCase is not a function")
      end
  end.

End WithOutside.

End DayTrackerAPI.

(** ** The Action Executors ([services/actions]) *)

(** The double-quote character, for the messages that quote a title. *)
Definition dq : string := String "034"%char EmptyString.

Record GoalChoice : Type := mkGoalChoice {
  choice_id : Z;
  choice_title : string;
  choice_progress : Z
}.

Definition choice_of (g : Goal) : GoalChoice :=
  mkGoalChoice (goal_id g) (title g) (progress g).

(** [new Date().toISOString().split('T')[0]] as the default of a
    destructured property: it replaces [undefined] only. *)
Definition default_date (out : Outside) (v : Js.value) : Js.value :=
  match v with
  | Js.JUndefined => Js.JStr (today out)
  | _ => v
  end.

Module DailyLogCreator.

Record CreateLogResult : Type := mkResult {
  success : bool;
  log : option DailyLog;
  goalTitle : option string;
  message : string;
  needsGoalSelection : bool;
  availableGoals : option (list GoalChoice)
}.

Record CreateLogParams : Type := mkParams {
  goalKeyword : Js.value;
  activity : Js.value;
  goodThing : Js.value;
  note : Js.value;
  logDate : Js.value;
  jwtToken : string
}.

Definition no_active_goals : CreateLogResult :=
  mkResult false None None
    "You don't have any active goals yet. Would you like to create one first?"
    false None.

Definition ask_which (msg : string) (activeGoals : list Goal) : CreateLogResult :=
  mkResult false None None msg true (Some (map choice_of activeGoals)).

Section WithWorld.
Variable rt : Runtime.
Variable out : Outside.

(** The block of [createLog] that settles which goal the log is for: the
    goal, or the result returned early in its place. *)
Definition resolveGoal (goalKeyword : Js.value) : Io.M (Goal + CreateLogResult) :=
  if Js.truthy goalKeyword then
    goal <- DayTrackerAPI.findGoalByKeyword out goalKeyword ;;
    match goal with
    | Some g => Io.ret (inl g)
    | None =>
        allGoals <- DayTrackerAPI.getGoals out ;;
        let activeGoals := filter isActive allGoals in
        match activeGoals with
        | [] => Io.ret (inr no_active_goals)
        | _ :: _ =>
            Io.ret (inr (ask_which
              ("I couldn't find a goal matching " ++ dq ++ ToString rt goalKeyword
                 ++ dq ++ ". Which goal did you mean?")
              activeGoals))
        end
    end
  else
    allGoals <- DayTrackerAPI.getGoals out ;;
    let activeGoals := filter isActive allGoals in
    match activeGoals with
    | [] => Io.ret (inr no_active_goals)
    | [g] => Io.ret (inl g)
    | _ :: _ :: _ =>
        Io.ret (inr (ask_which "Which goal should I log this for?" activeGoals))
    end.

(** [const xs = []; if (x) xs.push(x); ... xs.length > 0 ? xs : undefined] *)
Definition singleton_if_truthy (x : Js.value) : option (list Js.value) :=
  if Js.truthy x then Some [x] else None.

Definition createLog (params : CreateLogParams) : Io.M CreateLogResult :=
  let logDate := default_date out (logDate params) in
  Io.emit (Invoked dailyLogCreator) ;;;
  Io.try_catch
    (DayTrackerAPI.setAuthToken (jwtToken params) ;;;
     resolved <- resolveGoal (goalKeyword params) ;;
     match resolved with
     | inr early => Io.ret early
     | inl goal =>
         clientId <- Io.ask (uuidv4 out) ;;
         let logData :=
           mkLogData (goal_id goal) logDate (note params)
             (singleton_if_truthy (activity params))
             (singleton_if_truthy (goodThing params))
             None clientId in
         log <- DayTrackerAPI.createDailyLog out logData ;;
         Io.ret (mkResult true (Some log) (Some (title goal))
                   ("Logged successfully for " ++ dq ++ title goal ++ dq ++ "!")
                   false None)
     end)
    (fun error =>
       Io.ret (mkResult false None None
                 ("Failed to create log: " ++ err_message error) false None)).

End WithWorld.

End DailyLogCreator.

Module GoalCreator.

Record CreateGoalResult : Type := mkResult {
  success : bool;
  goal : option Goal;
  message : string
}.

Record CreateGoalParams : Type := mkParams {
  title : Js.value;
  description : Js.value;
  durationDays : Js.value;
  startDate : Js.value;
  color : Js.value;
  jwtToken : string
}.

Definition GOAL_COLORS : list string :=
  ["#FF6B6B"; "#4ECDC4"; "#45B7D1"; "#FFA07A"; "#98D8C8";
   "#F7DC6F"; "#BB8FCE"; "#85C1E2"; "#F8B195"; "#C06C84"].

Section WithWorld.
Variable rt : Runtime.
Variable out : Outside.

(** [GOAL_COLORS[Math.floor(Math.random() * GOAL_COLORS.length)]]; the
    product is the rounded one. *)
Definition getRandomColor : Io.M Js.value :=
  r <- Io.ask (Math_random out) ;;
  let i :=
    Qfloor (Js.round64 (r * inject_Z (Z.of_nat (List.length GOAL_COLORS)))%Q) in
  Io.ret (if (i <? 0)%Z then Js.JUndefined
          else match nth_error GOAL_COLORS (Z.to_nat i) with
               | Some c => Js.JStr c
               | None => Js.JUndefined
               end).

(** [durationDays <= 0 || durationDays > 3650] *)
Definition duration_rejected (durationDays : Js.value) : bool :=
  Js.leb (toNumber rt durationDays) (Js.Fin 0%Q)
  || Js.gtb (toNumber rt durationDays) (Js.Fin 3650%Q).

Definition createGoal (params : CreateGoalParams) : Io.M CreateGoalResult :=
  let startDate := default_date out (startDate params) in
  Io.emit (Invoked goalCreator) ;;;
  Io.try_catch
    (DayTrackerAPI.setAuthToken (jwtToken params) ;;;
     if duration_rejected (durationDays params) then
       Io.ret (mkResult false None
                 "Goal duration must be between 1 and 3650 days (10 years).")
     else
       goalColor <- (if Js.truthy (color params) then Io.ret (color params)
                     else getRandomColor) ;;
       let goalData :=
         mkGoalData (title params) (description params) startDate
           (durationDays params) goalColor in
       goal <- DayTrackerAPI.createGoal out goalData ;;
       Io.ret (mkResult true (Some goal)
                 ("Created " ++ dq ++ ToString rt (title params) ++ dq
                    ++ " goal for " ++ ToString rt (durationDays params)
                    ++ " days!")))
    (fun error =>
       Io.ret (mkResult false None
                 ("Failed to create goal: " ++ err_message error))).

End WithWorld.

End GoalCreator.

Module ReminderCreator.

Record CreateReminderResult : Type := mkResult {
  success : bool;
  reminder : option DailyLog;
  message : string
}.

Record CreateReminderParams : Type := mkParams {
  title : Js.value;
  description : Js.value;
  plannedDate : Js.value;
  goalKeyword : Js.value;
  jwtToken : string
}.

Definition no_active_goals : CreateReminderResult :=
  mkResult false None
    "You don't have any active goals. Create a goal first to add reminders to.".

Section WithWorld.
Variable rt : Runtime.
Variable out : Outside.

(** The block of [createReminder] that settles which goal carries the
    reminder. *)
Definition resolveGoal (goalKeyword : Js.value)
    : Io.M (Goal + CreateReminderResult) :=
  goal <- (if Js.truthy goalKeyword
           then DayTrackerAPI.findGoalByKeyword out goalKeyword
           else Io.ret None) ;;
  match goal with
  | Some g => Io.ret (inl g)
  | None =>
      allGoals <- DayTrackerAPI.getGoals out ;;
      let activeGoals := filter isActive allGoals in
      match activeGoals with
      | [] => Io.ret (inr no_active_goals)
      | first :: _ => Io.ret (inl first)
      end
  end.

Definition createReminder (params : CreateReminderParams)
    : Io.M CreateReminderResult :=
  Io.emit (Invoked reminderCreator) ;;;
  Io.try_catch
    (DayTrackerAPI.setAuthToken (jwtToken params) ;;;
     resolved <- resolveGoal (goalKeyword params) ;;
     match resolved with
     | inr early => Io.ret early
     | inl goal =>
         clientId <- Io.ask (uuidv4 out) ;;
         let logData :=
           mkLogData (goal_id goal) (Js.JStr (today out)) Js.JUndefined None None
             (Some [mkFuturePlan (title params) (description params)
                      (plannedDate params)])
             clientId in
         log <- DayTrackerAPI.createDailyLog out logData ;;
         Io.ret (mkResult true (Some log)
                   ("Reminder set for " ++ dq ++ ToString rt (title params) ++ dq
                      ++ " on " ++ toLocaleDateString rt (plannedDate params)
                      ++ " at " ++ toLocaleTimeString rt (plannedDate params)
                      ++ "!"))
     end)
    (fun error =>
       Io.ret (mkResult false None
                 ("Failed to create reminder: " ++ err_message error))).

End WithWorld.

End ReminderCreator.

(** ** The Action Dispatcher ([services/aiService.ts]) *)

Module AIService.

Import IntentService.

(** What [executeAction] can return: the result of an executor, the
    failure object built by its own [catch], or [null]. *)
Inductive ActionResult : Type :=
| LogResult (r : DailyLogCreator.CreateLogResult)
| GoalResult (r : GoalCreator.CreateGoalResult)
| ReminderResult (r : ReminderCreator.CreateReminderResult)
| ActionFailed (message : string)
| ActionNull.

Section WithWorld.
Variable rt : Runtime.
Variable out : Outside.

Definition executeAction (intentResult : IntentAnalysisResult)
    (jwtToken : string) : Io.M ActionResult :=
  let entities := entities intentResult in
  Io.try_catch
    (match intent intentResult with
     | CREATE_DAILY_LOG =>
         goalKeyword <- Io.lift (get_prop entities "goalKeyword") ;;
         activity <- Io.lift (get_prop entities "activity") ;;
         goodThing <- Io.lift (get_prop entities "goodThing") ;;
         logDate <- Io.lift (get_prop entities "logDate") ;;
         r <- DailyLogCreator.createLog rt out
                (DailyLogCreator.mkParams goalKeyword activity goodThing
                   Js.JUndefined logDate jwtToken) ;;
         Io.ret (LogResult r)
     | CREATE_GOAL =>
         title <- Io.lift (get_prop entities "title") ;;
         description <- Io.lift (get_prop entities "description") ;;
         durationDays <- Io.lift (get_prop entities "durationDays") ;;
         startDate <- Io.lift (get_prop entities "startDate") ;;
         r <- GoalCreator.createGoal rt out
                (GoalCreator.mkParams title description durationDays startDate
                   Js.JUndefined jwtToken) ;;
         Io.ret (GoalResult r)
     | CREATE_REMINDER =>
         title <- Io.lift (get_prop entities "title") ;;
         description <- Io.lift (get_prop entities "description") ;;
         plannedDate <- Io.lift (get_prop entities "plannedDate") ;;
         goalKeyword <- Io.lift (get_prop entities "goalKeyword") ;;
         r <- ReminderCreator.createReminder rt out
                (ReminderCreator.mkParams title description plannedDate
                   goalKeyword jwtToken) ;;
         Io.ret (ReminderResult r)
     | _ => Io.ret ActionNull
     end)
    (fun _ => Io.ret (ActionFailed "Failed to execute action")).

(** [if (jwtToken)] on an optional string. *)
Definition token_given (jwtToken : option string) : option string :=
  match jwtToken with
  | Some t => if negb (t =? "") then Some t else None
  | None => None
  end.

(** [intentResult.intent !== Intent.CHAT_ONLY && intentResult.confidence > 0.6] *)
Definition actionable (intentResult : IntentAnalysisResult) : bool :=
  negb (Intent_eqb (intent intentResult) CHAT_ONLY)
  && Js.gtb (toNumber rt (confidence intentResult)) (Js.Fin (6 # 10)).

(** The task-automation block of [chat]: the values of [intentResult] and
    [actionResult] when the block is left, [None] for a variable still
    [undefined].  [chat] is called without a reference date, so the analyzer
    runs on the current one. *)
Definition chat_automation (message : string) (jwtToken : option string)
    : Io.M (option IntentAnalysisResult * option ActionResult) :=
  match token_given jwtToken with
  | Some token =>
      intentResult <- analyzeIntent rt out message ;;
      if actionable intentResult then
        actionResult <- executeAction intentResult token ;;
        Io.ret (Some intentResult, Some actionResult)
      else Io.ret (Some intentResult, None)
  | None => Io.ret (None, None)
  end.

(** [if (actionResult)] in [buildSystemPrompt] and [!!actionResult] in the
    log line of [chat]: whether the turn carries an action result. *)
Definition actionExecuted (actionResult : option ActionResult) : bool :=
  match actionResult with
  | None | Some ActionNull => false
  | Some _ => true
  end.

End WithWorld.

End AIService.

(** ** The Message Importance Classifier ([services/messageClassifier.ts]) *)

Module MessageClassifier.

Import IntentService.

Record ClassificationResult : Type := mkResult {
  score : Js.number;
  category : Category;
  reasoning : Js.value
}.

(** [score >= 8 ? 'high' : score >= 5 ? 'medium' : 'low'], the expression
    used by the classifier and by the feedback route. *)
Definition band (score : Js.number) : Category :=
  if Js.geb score (Js.Fin 8%Q) then high
  else if Js.geb score (Js.Fin 5%Q) then medium
  else low.

(** The member of [['high', 'medium', 'low']] a value is, if any. *)
Definition Category_of (v : Js.value) : option Category :=
  match v with
  | Js.JStr s =>
      if s =? "high" then Some high
      else if s =? "medium" then Some medium
      else if s =? "low" then Some low
      else None
  | _ => None
  end.

Definition fallback (why : string) : ClassificationResult :=
  mkResult (Js.Fin 5%Q) medium (Js.JStr why).

Section WithWorld.
Variable rt : Runtime.

(** The statements of [parseClassificationResponse] after [JSON.parse]. *)
Definition classification_of (parsed : Js.value) : Exc ClassificationResult :=
  parsed_score <-- get_prop parsed "score" ;;
  let score := Js.Math_max (Js.Fin 1%Q)
                 (Js.Math_min (Js.Fin 10%Q) (toNumber rt parsed_score)) in
  parsed_category <-- get_prop parsed "category" ;;
  let category :=
    match (if Js.truthy parsed_category then Category_of parsed_category
           else None) with
    | Some c => c
    | None => band score
    end in
  parsed_reasoning <-- get_prop parsed "reasoning" ;;
  Ok (mkResult score category
        (Js.or_else parsed_reasoning (Js.JStr "No reasoning provided"))).

Definition parseClassificationResponse (response : string)
    : ClassificationResult :=
  pure_catch
    (parsed <-- parse rt (strip_fences response) ;;
     classification_of parsed)
    (fun _ => fallback "Failed to parse response").

Variable out : Outside.

(** The text built from past feedback on the sender.  It only feeds the
    prompt; obtaining it can fail when no store connection is to be had. *)
Definition getLearningContext : Io.M string :=
  r <- Io.ask (learningContext_result out) ;;
  Io.lift r.

Definition classify : Io.M ClassificationResult :=
  Io.try_catch
    (learningContext <- getLearningContext ;;
     result <- Gemini.generateContentWithRetry out ;;
     response <- Io.lift result ;;
     Io.ret (parseClassificationResponse response))
    (fun _ =>
       Io.ret (fallback "Classification error, defaulting to medium importance")).

End WithWorld.

Definition storeFeedback (messageId userId : Z)
    (originalScore correctedScore : Js.number) (feedbackText : option string)
    : Io.M unit :=
  Io.write (fun w =>
    Io.mkWorld (Io.authToken w) (Io.trace w) (Io.ai_preferences w)
      (Io.monitored_messages w)
      (Io.message_feedback w
         ++ [mkFeedbackRow messageId userId originalScore correctedScore
               feedbackText])).

End MessageClassifier.

(** ** The feedback route ([routes/preferences.routes.ts]) *)

Module FeedbackRoute.

(** The outcome of [feedbackSchema.validate(req.body)]. *)
Inductive Validation : Type :=
| Invalid (detail : string)
| Valid (correctedScore : Q) (feedbackText : option string).

Inductive Response : Type :=
| BadRequest (message : string)
| NotFound
| Forbidden
| Recorded (updatedScore : Q) (updatedCategory : Category).

(** [UPDATE monitored_messages SET importance_score = $1,
    classification = $2 WHERE id = $3] *)
Definition update_message (score : Js.number) (cat : Category) (messageId : Z)
    (rows : list MessageRow) : list MessageRow :=
  map (fun m =>
         if (msg_id m =? messageId)%Z
         then mkMessageRow (msg_id m) (msg_user_id m) (msg_source m)
                (msg_message_id m) (msg_sender m) (msg_content m) score cat
         else m)
      rows.

Definition post_feedback (userId messageId : Z) (body : Validation)
    : Io.M Response :=
  match body with
  | Invalid detail => Io.ret (BadRequest detail)
  | Valid correctedScore feedbackText =>
      rows <- Io.read Io.monitored_messages ;;
      match find (fun m => (msg_id m =? messageId)%Z) rows with
      | None => Io.ret NotFound
      | Some message =>
          if negb (msg_user_id message =? userId)%Z then Io.ret Forbidden
          else
            MessageClassifier.storeFeedback messageId userId
              (importance_score message) (Js.Fin correctedScore) feedbackText ;;;
            let newCategory := MessageClassifier.band (Js.Fin correctedScore) in
            Io.write (fun w =>
              Io.mkWorld (Io.authToken w) (Io.trace w) (Io.ai_preferences w)
                (update_message (Js.Fin correctedScore) newCategory messageId
                   (Io.monitored_messages w))
                (Io.message_feedback w)) ;;;
            Io.ret (Recorded correctedScore newCategory)
      end
  end.

End FeedbackRoute.

(** ** The Monitoring Scheduler ([services/monitoringScheduler.ts]) *)

Module MonitoringScheduler.

Definition Source_eqb (a b : Source) : bool :=
  match a, b with
  | gmail, gmail | twitter, twitter => true
  | _, _ => false
  end.

(** [n.toString().padStart(2, '0')] *)
Definition pad2 (n : nat) : string :=
  let s := NilZero.string_of_uint (Nat.to_uint n) in
  if (String.length s <? 2)%nat then ("0" ++ s)%string else s.

(** What is to be stored for one fetched item. *)
Record Item : Type := mkItem {
  item_id : string;
  item_sender : string;
  item_content : string
}.

Definition item_of_email (e : Email) : Item :=
  mkItem (email_id e) (email_from e) (email_snippet e).

Definition item_of_mention (m : Mention) : Item :=
  mkItem (mention_id m) ("@" ++ mention_author m)%string (mention_text m).

Definition next_id (rows : list MessageRow) : Z :=
  Z.succ (fold_right Z.max 0%Z (map msg_id rows)).

(** [for (const x of xs) { ... }] *)
Fixpoint for_each {A : Type} (body : A -> Io.M unit) (xs : list A) : Io.M unit :=
  match xs with
  | [] => Io.ret tt
  | x :: rest => body x ;;; for_each body rest
  end.

Section WithWorld.
Variable rt : Runtime.
Variable out : Outside.

(** With no preferences row every time of day counts as active; otherwise
    the clock reading [HH:MM] is compared, as text, with the row's times. *)
Definition isWithinActiveHours (userId : Z) : Io.M bool :=
  rows <- Io.read Io.ai_preferences ;;
  match filter (fun r => (pref_user_id r =? userId)%Z) rows with
  | [] => Io.ret true
  | row :: _ =>
      let currentTime :=
        (pad2 (now_hours out) ++ ":" ++ pad2 (now_minutes out))%string in
      Io.ret (String.leb (wake_time row) currentTime
              && String.leb currentTime (sleep_time row))
  end.

Definition isMessageStored (userId : Z) (source : Source) (messageId : string)
    : Io.M bool :=
  rows <- Io.read Io.monitored_messages ;;
  Io.ret (existsb (fun m => (msg_user_id m =? userId)%Z
                            && Source_eqb (msg_source m) source
                            && (msg_message_id m =? messageId))
                  rows).

Definition storeMessage (userId : Z) (source : Source) (item : Item)
    (c : MessageClassifier.ClassificationResult) : Io.M unit :=
  Io.write (fun w =>
    Io.mkWorld (Io.authToken w) (Io.trace w) (Io.ai_preferences w)
      (Io.monitored_messages w
         ++ [mkMessageRow (next_id (Io.monitored_messages w)) userId source
               (item_id item) (item_sender item) (item_content item)
               (MessageClassifier.score c) (MessageClassifier.category c)])
      (Io.message_feedback w)).

(** The upsert of the last-sync time.  A user without a row gets one, with
    the wake and sleep times the schema declares as defaults. *)
Definition updateLastSync (userId : Z) (source : Source) : Io.M unit :=
  Io.write (fun w =>
    if existsb (fun r => (pref_user_id r =? userId)%Z) (Io.ai_preferences w)
    then w
    else Io.mkWorld (Io.authToken w) (Io.trace w)
           (Io.ai_preferences w
              ++ [mkPrefs userId (time_text out "08:00") (time_text out "21:00")])
           (Io.monitored_messages w) (Io.message_feedback w)).

(** The body of the loop over the fetched items, with its own [try]. *)
Definition process (userId : Z) (source : Source) (item : Item) : Io.M unit :=
  Io.try_catch
    (existing <- isMessageStored userId source (item_id item) ;;
     if existing then Io.ret tt
     else
       classification <- MessageClassifier.classify rt out ;;
       storeMessage userId source item classification)
    (fun _ => Io.ret tt).

(** One cycle for one user; [fetch] is the call to the source. *)
Definition check (source : Source) (fetch : Io.M (list Item)) (userId : Z)
    : Io.M unit :=
  Io.try_catch
    (active <- isWithinActiveHours userId ;;
     if negb active then Io.ret tt
     else
       items <- fetch ;;
       for_each (process userId source) items ;;;
       updateLastSync userId source)
    (fun _ => Io.ret tt).

Definition fetchRecentUnreadEmails (userId : Z) : Io.M (list Item) :=
  r <- Io.ask (fetchRecentUnreadEmails_result out) ;;
  Io.emit (Fetched gmail userId) ;;;
  emails <- Io.lift r ;;
  Io.ret (map item_of_email emails).

Definition fetchRecentMentions (userId : Z) : Io.M (list Item) :=
  r <- Io.ask (fetchRecentMentions_result out) ;;
  Io.emit (Fetched twitter userId) ;;;
  mentions <- Io.lift r ;;
  Io.ret (map item_of_mention mentions).

Definition checkGmailForUser (userId : Z) : Io.M unit :=
  check gmail (fetchRecentUnreadEmails userId) userId.

Definition checkXForUser (userId : Z) : Io.M unit :=
  check twitter (fetchRecentMentions userId) userId.

End WithWorld.

End MonitoringScheduler.

(** ** The matcher as the specification words it *)

(** Two phases over the goal list: the first goal whose title contains the
    keyword or is contained in it; failing that, the goal of greatest
    Jaccard similarity, kept when the similarity exceeds one half.  The
    tokenizer is a parameter, so that the description can be read with the
    words of a text and with the pieces between single spaces. *)
Module Described.

(** The maximal runs of characters other than white space. *)
Fixpoint whitespace_tokens (word : string) (s : string) : list string :=
  match s with
  | EmptyString => if word =? "" then [] else [word]
  | String c s' =>
      if Js.is_space c then
        (if word =? "" then whitespace_tokens "" s'
         else word :: whitespace_tokens "" s')
      else whitespace_tokens (word ++ String c EmptyString) s'
  end.

Definition words : string -> list string := whitespace_tokens "".

Definition pieces : string -> list string := Js.split " ".

Definition word_set (tokens : string -> list string) (s : string) : list string :=
  nodup string_dec (tokens s).

Definition member (x : string) (set : list string) : bool :=
  if in_dec string_dec x set then true else false.

(** |intersection of the word sets| / |union of the word sets| *)
Definition jaccard (tokens : string -> list string) (a b : string) : Q :=
  let A := word_set tokens a in
  let B := word_set tokens b in
  (Z.of_nat (List.length (filter (fun x => member x B) A))
     # Pos.of_nat (List.length (nodup string_dec (A ++ B))))%Q.

Definition substring_match (keyword title : string) : bool :=
  Js.includes title keyword || Js.includes keyword title.

(** The first goal, in list order, among those of greatest score. *)
Fixpoint best (f : Goal -> Q) (goals : list Goal) : option Goal :=
  match goals with
  | [] => None
  | g :: rest =>
      match best f rest with
      | Some b => if negb (Qle_bool (f b) (f g)) then Some b else Some g
      | None => Some g
      end
  end.

Definition twoPhase (tokens : string -> list string) (goals : list Goal)
    (keyword : string) : option Goal :=
  let k := Js.trim (Js.toLowerCase keyword) in
  match find (fun g => substring_match k (Js.toLowerCase (title g))) goals with
  | Some g => Some g
  | None =>
      let similarity g := jaccard tokens k (Js.toLowerCase (title g)) in
      match best similarity goals with
      | Some g => if negb (Qle_bool (similarity g) (1 # 2)) then Some g else None
      | None => None
      end
  end.

End Described.

(** ** Vocabulary of the properties *)

(** A text of ASCII characters only.  On such a text [toLowerCase] and
    [trim] of the language are [Js.toLowerCase] and [Js.trim]: the letters
    folded are A to Z and the white space removed is tab, line feed,
    vertical tab, form feed, carriage return and space. *)
Definition plain (s : string) : bool :=
  forallb (fun c => (nat_of_ascii c <? 128)%nat) (list_ascii_of_string s).

Definition plain_titles (goals : list Goal) : bool :=
  forallb (fun g => plain (title g)) goals.


(** The category the model itself supplied, when its response parses and
    carries one of the three known categories. *)
Definition model_category (rt : Runtime) (response : string) : option Category :=
  match JSON_parse rt (IntentService.strip_fences response) with
  | Some parsed =>
      match Js.get parsed "category" with
      | Some v => if Js.truthy v then MessageClassifier.Category_of v else None
      | None => None
      end
  | None => None
  end.

(** The result the analyzer degrades to. *)
Definition degraded (r : IntentService.IntentAnalysisResult) : Prop :=
  IntentService.intent r = IntentService.CHAT_ONLY
  /\ IntentService.entities r = Js.JObj []
  /\ IntentService.confidence r = Js.JNum 1%Q.

(** A response the analyzer cannot use: its text does not parse, or what it
    parses to has no recognized intent. *)
Definition unusable (rt : Runtime) (response : string) : Prop :=
  match JSON_parse rt (IntentService.strip_fences response) with
  | None => True
  | Some parsed =>
      match Js.get parsed "intent" with
      | None => True
      | Some v => IntentService.Intent_of v = None
      end
  end.

(** The executors entered and the requests sent, read off a trace. *)
Fixpoint invocations (t : list Event) : list Executor :=
  match t with
  | [] => []
  | Invoked x :: rest => x :: invocations rest
  | _ :: rest => invocations rest
  end.

Fixpoint requests (t : list Event) : list Request :=
  match t with
  | [] => []
  | Http r :: rest => r :: requests rest
  | _ :: rest => requests rest
  end.

(** The executor the dispatcher has for an intent. *)
Definition executor_for (i : IntentService.Intent) : list Executor :=
  match i with
  | IntentService.CREATE_DAILY_LOG => [dailyLogCreator]
  | IntentService.CREATE_GOAL => [goalCreator]
  | IntentService.CREATE_REMINDER => [reminderCreator]
  | _ => []
  end.

(** An action that only adds to the trace, and only events allowed by [ok]. *)
Definition appends {A : Type} (ok : Event -> Prop) (c : Io.M A) : Prop :=
  forall w, exists evs,
    Io.trace (snd (c w)) = Io.trace w ++ evs /\ Forall ok evs.

(** An action that enters exactly the executors [xs], whether or not it
    throws. *)
Definition marks {A : Type} (xs : list Executor) (c : Io.M A) : Prop :=
  forall w, invocations (Io.trace (snd (c w))) = invocations (Io.trace w) ++ xs.

Definition not_invocation (ev : Event) : Prop :=
  match ev with
  | Invoked _ => False
  | _ => True
  end.


Definition only_generated (ev : Event) : Prop := ev = Generated.

(** One monitoring cycle of a source for a user. *)
Definition cycle (rt : Runtime) (out : Outside) (source : Source) (userId : Z)
    : Io.M unit :=
  match source with
  | gmail => MonitoringScheduler.checkGmailForUser rt out userId
  | twitter => MonitoringScheduler.checkXForUser rt out userId
  end.

(** The reading of the clock as [isWithinActiveHours] writes it. *)
Definition currentTime (out : Outside) : string :=
  (MonitoringScheduler.pad2 (now_hours out) ++ ":"
     ++ MonitoringScheduler.pad2 (now_minutes out))%string.

(** The preferences rows of a user. *)
Definition preferences_of (userId : Z) (w : Io.World) : list PreferencesRow :=
  filter (fun r => (pref_user_id r =? userId)%Z) (Io.ai_preferences w).

(** The world in which the body of an executor runs: the ghost mark is
    left and the token is set. *)
Definition entered (x : Executor) (token : string) (w : Io.World) : Io.World :=
  Io.mkWorld (Some token) (Io.trace w ++ [Invoked x]) (Io.ai_preferences w)
    (Io.monitored_messages w) (Io.message_feedback w).

(** The dispatch condition in the words of the specification: the intent
    is not ChatOnly and the confidence is a number strictly greater than
    0.6. *)
Definition dispatch_condition (rt : Runtime) (r : IntentService.IntentAnalysisResult)
    : Prop :=
  IntentService.intent r <> IntentService.CHAT_ONLY
  /\ exists q, toNumber rt (IntentService.confidence r) = Js.Fin q
               /\ (6 # 10 < q)%Q.

(** ** Concrete scenarios *)

(** A runtime, an outside world and stores small enough to run the code
    on.  The parser knows the handful of model responses listed in
    [responses]; everything else is a syntax error to it. *)
Module Scenario.

Definition quoted (s : string) : string := dq ++ s ++ dq.

(** [{"intent":"get_status","entities":{"goalKeyword":"AI project"},"confidence":0.875}] *)
Definition status_text : string :=
  "{" ++ quoted "intent" ++ ":" ++ quoted "get_status" ++ ","
      ++ quoted "entities" ++ ":{" ++ quoted "goalKeyword" ++ ":"
      ++ quoted "AI project" ++ "}," ++ quoted "confidence" ++ ":0.875}".

Definition status_json : Js.value :=
  Js.JObj [("intent", Js.JStr "get_status");
           ("entities", Js.JObj [("goalKeyword", Js.JStr "AI project")]);
           ("confidence", Js.JNum (7 # 8))].

(** [{"intent":"create_goal","entities":{"title":"Nap","durationDays":0.5},"confidence":0.875}] *)
Definition nap_text : string :=
  "{" ++ quoted "intent" ++ ":" ++ quoted "create_goal" ++ ","
      ++ quoted "entities" ++ ":{" ++ quoted "title" ++ ":" ++ quoted "Nap"
      ++ "," ++ quoted "durationDays" ++ ":0.5},"
      ++ quoted "confidence" ++ ":0.875}".

Definition nap_json : Js.value :=
  Js.JObj [("intent", Js.JStr "create_goal");
           ("entities", Js.JObj [("title", Js.JStr "Nap");
                                 ("durationDays", Js.JNum (1 # 2))]);
           ("confidence", Js.JNum (7 # 8))].

(** [{"intent":"chat","entities":{},"confidence":1}] *)
Definition chat_text : string :=
  "{" ++ quoted "intent" ++ ":" ++ quoted "chat" ++ ","
      ++ quoted "entities" ++ ":{}," ++ quoted "confidence" ++ ":1}".

Definition chat_json : Js.value :=
  Js.JObj [("intent", Js.JStr "chat"); ("entities", Js.JObj []);
           ("confidence", Js.JNum 1%Q)].

(** [{"score":9,"category":"low","reasoning":"newsletter"}] *)
Definition urgent_low_text : string :=
  "{" ++ quoted "score" ++ ":9," ++ quoted "category" ++ ":" ++ quoted "low"
      ++ "," ++ quoted "reasoning" ++ ":" ++ quoted "newsletter" ++ "}".

Definition urgent_low_json : Js.value :=
  Js.JObj [("score", Js.JNum 9%Q); ("category", Js.JStr "low");
           ("reasoning", Js.JStr "newsletter")].

(** [{"score":15,"category":"urgent"}] *)
Definition fifteen_text : string :=
  "{" ++ quoted "score" ++ ":15," ++ quoted "category" ++ ":"
      ++ quoted "urgent" ++ "}".

Definition fifteen_json : Js.value :=
  Js.JObj [("score", Js.JNum 15%Q); ("category", Js.JStr "urgent")].

Definition responses : list (string * Js.value) :=
  [(status_text, status_json); (nap_text, nap_json); (chat_text, chat_json);
   (urgent_low_text, urgent_low_json); (fifteen_text, fifteen_json)].

Fixpoint parse_known (known : list (string * Js.value)) (text : string)
    : option Js.value :=
  match known with
  | [] => None
  | (t, v) :: rest => if text =? t then Some v else parse_known rest text
  end.

Definition text_of (v : Js.value) : string :=
  match v with
  | Js.JStr s => s
  | _ => "?"
  end.

Definition runtime : Runtime :=
  mkRuntime (parse_known responses) (fun _ => Js.NaN) text_of
    (fun _ => "Tuesday") (fun _ => "2:00 PM").

Definition goal (id : Z) (t : string) (active : bool) : Goal :=
  mkGoal id t None "2025-01-01" 90 "2025-04-01" "#FF6B6B" active 0 0 90.

Definition three_goals : list Goal :=
  [goal 1 "Learn Guitar" true; goal 2 "AI Assistant Project" true;
   goal 3 "Fitness Challenge" true].

(** The model answers [answer] at once, the tracker holds [goals] and
    accepts what is posted, the sources are empty, and the clock reads
    [hours]:[minutes]. *)
Definition outside (answer : Attempt) (goals : list Goal) (hours minutes : nat)
    : Outside :=
  mkOutside (fun _ => answer) (fun _ => Replied goals)
    (fun _ _ => Replied (goal 9 "Nap" true))
    (fun _ d => Replied (mkDailyLog 1 (ld_goalId d) "2025-01-01"))
    (fun _ => Ok []) (fun _ => Ok []) (fun _ => Ok "")
    "2025-01-01" (fun t => (t ++ ":00")%string)
    hours minutes (fun _ => "0000-uuid") (fun _ => 0%Q).

Definition says (text : string) : Attempt := Answer (Ok text).

Definition unavailable : Attempt := Reject (mkError (Some 503%Z) "overloaded").

Definition fresh : Io.World := Io.mkWorld None [] [] [] [].

(** The world once the model has been asked one question. *)
Definition asked : Io.World := Io.mkWorld None [Generated] [] [] [].

Definition status_result : IntentService.IntentAnalysisResult :=
  IntentService.mkIntentResult IntentService.GET_GOAL_STATUS
    (Js.JObj [("goalKeyword", Js.JStr "AI project")]) (Js.JNum (7 # 8))
    status_text.

Definition nap_result : IntentService.IntentAnalysisResult :=
  IntentService.mkIntentResult IntentService.CREATE_GOAL
    (Js.JObj [("title", Js.JStr "Nap"); ("durationDays", Js.JNum (1 # 2))])
    (Js.JNum (7 # 8)) nap_text.

(** A store holding one message of user 1, scored 4 and filed low. *)
Definition one_message : Io.World :=
  Io.mkWorld None [] []
    [mkMessageRow 7 1 gmail "m-1" "boss@co.com" "see me" (Js.Fin 4%Q) low] [].

(** The same store once user 1 has corrected that score to 9. *)
Definition after_feedback : Io.World :=
  Io.mkWorld None [] []
    [mkMessageRow 7 1 gmail "m-1" "boss@co.com" "see me" (Js.Fin 9%Q) high]
    [mkFeedbackRow 7 1 (Js.Fin 4%Q) (Js.Fin 9%Q) None].

(** A store in which user 1 keeps the hours 08:00 to 21:00. *)
Definition with_hours : Io.World :=
  Io.mkWorld None [] [mkPrefs 1 "08:00:00" "21:00:00"] [] [].

End Scenario.

(** ** Further functions of the same files *)

Module IntentPolicy.

Import IntentService.

Section WithRuntime.
Variable rt : Runtime.

(** [shouldAutoExecute] and [needsConfirmation] of [intentService.ts].
    [threshold] is the number [parseFloat] made of the environment variable
    or of the default text, NaN when that text is no number. *)
Definition shouldAutoExecute (threshold : Js.number)
    (result : IntentAnalysisResult) : bool :=
  Js.geb (toNumber rt (confidence result)) threshold.

Definition needsConfirmation (minThreshold : Js.number)
    (result : IntentAnalysisResult) : bool :=
  Js.ltb (toNumber rt (confidence result)) minThreshold
  && Js.geb (toNumber rt (confidence result)) (Js.Fin (1 # 2)).

End WithRuntime.

End IntentPolicy.

Module DailyLogForGoal.

Import DailyLogCreator.

Section WithWorld.
Variable out : Outside.

(** [createLogForGoal] of the daily-log creator: the log is posted first,
    the goals are fetched afterwards to name the goal in the message. *)
Definition createLogForGoal (goalId : Z)
    (activity goodThing note logDate : Js.value) (jwtToken : string)
    : Io.M CreateLogResult :=
  Io.emit (Invoked dailyLogCreator) ;;;
  Io.try_catch
    (DayTrackerAPI.setAuthToken jwtToken ;;;
     let logDate := default_date out logDate in
     clientId <- Io.ask (uuidv4 out) ;;
     let logData :=
       mkLogData goalId logDate note (singleton_if_truthy activity)
         (singleton_if_truthy goodThing) None clientId in
     log <- DayTrackerAPI.createDailyLog out logData ;;
     goals <- DayTrackerAPI.getGoals out ;;
     match find (fun g => (goal_id g =? goalId)%Z) goals with
     | Some goal =>
         Io.ret (mkResult true (Some log) (Some (title goal))
                   ("Logged successfully for " ++ dq ++ title goal ++ dq ++ "!")
                   false None)
     | None =>
         Io.ret (mkResult true (Some log) None "Logged successfully!" false None)
     end)
    (fun error =>
       Io.ret (mkResult false None None
                 ("Failed to create log: " ++ err_message error) false None)).

End WithWorld.

End DailyLogForGoal.

Module AllUsers.

Import MonitoringScheduler.

Section WithWorld.
Variable rt : Runtime.

(** The outside world during the turn of each user: the clock is read
    anew in every turn. *)
Variable turn : Z -> Outside.

(** [checkGmailForAllUsers] and [checkXForAllUsers]; [rows] is what
    [pool.connect] and the query of the function give: the ids in the order
    of the rows, or the error thrown, which no [catch] of the function
    takes. *)
Definition checkGmailForAllUsers (rows : Exc (list Z)) : Io.M unit :=
  users <- Io.lift rows ;;
  for_each (fun user_id =>
              Io.try_catch (checkGmailForUser rt (turn user_id) user_id)
                           (fun _ => Io.ret tt))
           users.

Definition checkXForAllUsers (rows : Exc (list Z)) : Io.M unit :=
  users <- Io.lift rows ;;
  for_each (fun id =>
              Io.try_catch (checkXForUser rt (turn id) id) (fun _ => Io.ret tt))
           users.

End WithWorld.

End AllUsers.

(** The handler of the feedback route with what the database refuses. *)

Module FeedbackHandler.

Import FeedbackRoute.

(** What the handler sends: a response of the route, or 500 from its own
    [catch]. *)
Inductive Answer : Type :=
| Responded (response : Response)
| ServerError.

(** A number an INTEGER column takes as it is. *)
Definition whole (n : Js.number) : bool :=
  match n with
  | Js.Fin q => Qeq_bool q (inject_Z (Qfloor q))
  | Js.NaN => false
  end.

(** The range of INTEGER. *)
Definition int4 (z : Z) : bool :=
  (-2147483648 <=? z)%Z && (z <=? 2147483647)%Z.

(** [router.post('/feedback/:id', ...)].  [id] is
    [parseInt(req.params.id)], [None] when that is NaN.  The SELECT is
    refused for an id that is no INTEGER and the INSERT of the feedback for
    a score, the stored one or the corrected one, that is no whole number;
    the error reaches the [catch] of the handler before anything is
    written.  Past these, the route goes as [post_feedback] has it. *)
Definition handle (userId : Z) (id : option Z) (body : Validation)
    : Io.M Answer :=
  match body with
  | Invalid detail => Io.ret (Responded (BadRequest detail))
  | Valid correctedScore feedbackText =>
      match id with
      | None => Io.ret ServerError
      | Some messageId =>
          if negb (int4 messageId) then Io.ret ServerError
          else
            rows <- Io.read Io.monitored_messages ;;
            match find (fun m => (msg_id m =? messageId)%Z) rows with
            | None => Io.ret (Responded NotFound)
            | Some message =>
                if negb (msg_user_id message =? userId)%Z
                then Io.ret (Responded Forbidden)
                else if whole (importance_score message)
                        && whole (Js.Fin correctedScore)
                then
                  response <- post_feedback userId messageId body ;;
                  Io.ret (Responded response)
                else Io.ret ServerError
            end
      end
  end.

End FeedbackHandler.

(** The routes [GET /preferences] and [PUT /preferences]
    ([routes/preferences.routes.ts]), on the two columns of the row that the
    scheduler reads.  A time put into the store comes back as the store
    writes it ([time_text]). *)
Module PreferencesRoute.

Inductive Validation : Type :=
| Invalid (detail : string)
| Valid (wakeTime sleepTime : option string) (importantContacts : option (list string)).

Inductive Response : Type :=
| BadRequest (message : string)
| Updated.

(** [if (t)] on an optional string of the validated body. *)
Definition given (t : option string) : option string :=
  match t with
  | Some s => if negb (s =? "") then Some s else None
  | None => None
  end.

Section WithOutside.
Variable out : Outside.

(** The wake and sleep times of the response. *)
Definition get_preferences (userId : Z) : Io.M (string * string) :=
  rows <- Io.read Io.ai_preferences ;;
  match filter (fun r => (pref_user_id r =? userId)%Z) rows with
  | [] =>
      Io.write (fun w =>
        Io.mkWorld (Io.authToken w) (Io.trace w)
          (Io.ai_preferences w
             ++ [mkPrefs userId (time_text out "08:00") (time_text out "21:00")])
          (Io.monitored_messages w) (Io.message_feedback w)) ;;;
      Io.ret ("08:00", "21:00")
  | prefs :: _ => Io.ret (wake_time prefs, sleep_time prefs)
  end.

(** [UPDATE ai_preferences SET ... WHERE user_id = $1] with the columns
    for which a value was given. *)
Definition update_preferences (userId : Z) (wakeTime sleepTime : option string)
    (rows : list PreferencesRow) : list PreferencesRow :=
  map (fun r =>
         if (pref_user_id r =? userId)%Z
         then mkPrefs (pref_user_id r)
                (match given wakeTime with
                 | Some t => time_text out t
                 | None => wake_time r
                 end)
                (match given sleepTime with
                 | Some t => time_text out t
                 | None => sleep_time r
                 end)
         else r)
      rows.

Definition put_preferences (userId : Z) (body : Validation) : Io.M Response :=
  match body with
  | Invalid detail => Io.ret (BadRequest detail)
  | Valid wakeTime sleepTime importantContacts =>
      Io.write (fun w =>
        Io.mkWorld (Io.authToken w) (Io.trace w)
          (update_preferences userId wakeTime sleepTime (Io.ai_preferences w))
          (Io.monitored_messages w) (Io.message_feedback w)) ;;;
      Io.ret Updated
  end.

End WithOutside.

End PreferencesRoute.

(** ** Vocabulary of the further properties *)

(** The key under which a monitored message is looked up before it is
    stored. *)
Definition message_key (m : MessageRow) : Z * Source * string :=
  (msg_user_id m, msg_source m, msg_message_id m).

Definition keys_unique (rows : list MessageRow) : Prop :=
  NoDup (map message_key rows).

(** The tables of the store. *)
Definition store (w : Io.World)
    : list PreferencesRow * list MessageRow * list FeedbackRow :=
  (Io.ai_preferences w, Io.monitored_messages w, Io.message_feedback w).

(** An action under which a property of the world, once true, stays true. *)
Definition keeps {A : Type} (I : Io.World -> Prop) (c : Io.M A) : Prop :=
  forall w, I w -> I (snd (c w)).

(** The users fetched for, read off a trace. *)
Fixpoint fetches (t : list Event) : list (Source * Z) :=
  match t with
  | [] => []
  | Fetched src u :: rest => (src, u) :: fetches rest
  | _ :: rest => fetches rest
  end.

(** A time of day as the text [HH:MM]. *)
Definition hhmm (hours minutes : nat) : string :=
  (MonitoringScheduler.pad2 hours ++ ":" ++ MonitoringScheduler.pad2 minutes)%string.

Definition minute_of_day (hours minutes : nat) : nat := hours * 60 + minutes.

(** What a call hands back for the attempt that ended it. *)
Definition outcome (a : Attempt) : Exc (Exc string) :=
  match a with
  | Answer result => Ok result
  | Reject error => Throw error
  end.

(** An attempt after which no retry is made whatever remains. *)
Definition final (a : Attempt) : bool :=
  match a with
  | Answer _ => true
  | Reject error => negb (Gemini.transient error)
  end.

(** No backtick in a text. *)
Fixpoint tick_free (s : string) : bool :=
  match s with
  | EmptyString => true
  | String c s' => negb (Ascii.eqb c "`"%char) && tick_free s'
  end.

(** Rows of one user and one source were added at the end of the table,
    and nothing else was done to it. *)
Definition messages_added (userId : Z) (source : Source)
    (before after : list MessageRow) : Prop :=
  exists added,
    after = before ++ added
    /\ Forall (fun m => msg_user_id m = userId /\ msg_source m = source) added.

(** The row a user gets from the defaults of the schema. *)
Definition default_preferences (out : Outside) (userId : Z) : PreferencesRow :=
  mkPrefs userId (time_text out "08:00") (time_text out "21:00").

(** Whether the clock reading is active for a user, given the store. *)
Definition active_now (out : Outside) (w : Io.World) (userId : Z) : bool :=
  match preferences_of userId w with
  | [] => true
  | row :: _ => String.leb (wake_time row) (currentTime out)
                && String.leb (currentTime out) (sleep_time row)
  end.

(** ** Further scenarios *)

Module Situation.

(** A tracker that accepts logs but turns down, as unauthorized, the
    listing and the creation of goals. *)
Definition refusing : Outside :=
  mkOutside (fun _ => Scenario.unavailable)
    (fun _ => Failed (Some "Unauthorized") "Request failed with status code 401")
    (fun _ _ => Failed (Some "Unauthorized") "Request failed with status code 401")
    (fun _ d => Replied (mkDailyLog 1 (ld_goalId d) "2025-01-01"))
    (fun _ => Ok []) (fun _ => Ok []) (fun _ => Ok "")
    "2025-01-01" (fun t => (t ++ ":00")%string)
    12 0 (fun _ => "0000-uuid") (fun _ => 0%Q).

(** A random source that gives the binary64 number nearest to 7/10, which
    lies below it: the exact product with 10 lies below 7, the rounded
    product is 7. *)
Definition seven_tenths : Outside :=
  mkOutside (fun _ => Scenario.unavailable) (fun _ => Replied [])
    (fun _ _ => Replied (Scenario.goal 9 "Nap" true))
    (fun _ d => Replied (mkDailyLog 1 (ld_goalId d) "2025-01-01"))
    (fun _ => Ok []) (fun _ => Ok []) (fun _ => Ok "")
    "2025-01-01" (fun t => (t ++ ":00")%string)
    12 0 (fun _ => "0000-uuid")
    (fun _ => (6305039478318694 # 9007199254740992)%Q).

(** A model that is overloaded twice and answers the third call. *)
Definition recovering : Outside :=
  mkOutside
    (fun t => if (List.length t <? 2)%nat then Scenario.unavailable
              else Scenario.says Scenario.status_text)
    (fun _ => Replied []) (fun _ _ => Replied (Scenario.goal 9 "Nap" true))
    (fun _ d => Replied (mkDailyLog 1 (ld_goalId d) "2025-01-01"))
    (fun _ => Ok []) (fun _ => Ok []) (fun _ => Ok "")
    "2025-01-01" (fun t => (t ++ ":00")%string)
    12 0 (fun _ => "0000-uuid") (fun _ => 0%Q).

Definition ninety_days : GoalCreator.CreateGoalParams :=
  GoalCreator.mkParams (Js.JStr "Learn Python") Js.JUndefined (Js.JNum 90%Q)
    Js.JUndefined Js.JUndefined "jwt".

Definition practiced : DailyLogCreator.CreateLogParams :=
  DailyLogCreator.mkParams Js.JUndefined
    (Js.JStr "practiced guitar for 30 minutes") Js.JUndefined Js.JUndefined
    Js.JUndefined "jwt".

Definition guitar : Goal := Scenario.goal 1 "Guitar Practice" true.

(** A store in which user 1 keeps the hours 22:00 to 06:00. *)
Definition night_owl : Io.World :=
  Io.mkWorld None [] [mkPrefs 1 "22:00" "06:00"] [] [].

(** A mailbox that returns the same new mail twice, after one that is
    stored already, and a model that scores every mail 9. *)
Definition echoing : Outside :=
  mkOutside (fun _ => Scenario.says Scenario.urgent_low_text)
    (fun _ => Replied []) (fun _ _ => Replied (Scenario.goal 9 "Nap" true))
    (fun _ d => Replied (mkDailyLog 1 (ld_goalId d) "2025-01-01"))
    (fun _ => Ok [mkEmail "m-1" "boss@co.com" "Meeting" "see me" "see me";
                  mkEmail "m-2" "news@co.com" "Weekly" "this week" "this week";
                  mkEmail "m-2" "news@co.com" "Weekly" "this week" "this week"])
    (fun _ => Ok []) (fun _ => Ok "")
    "2025-01-01" (fun t => (t ++ ":00")%string)
    12 0 (fun _ => "0000-uuid") (fun _ => 0%Q).

(** A store in which users 1 and 2 keep the hours 08:00 to 21:00. *)
Definition two_sleepers : Io.World :=
  Io.mkWorld None []
    [mkPrefs 1 "08:00:00" "21:00:00"; mkPrefs 2 "08:00:00" "21:00:00"] [] [].

(** The run of 21:00: the turn of user 1 comes at 21:00, every later turn
    at 21:01. *)
Definition late_run (userId : Z) : Outside :=
  Scenario.outside Scenario.unavailable [] 21 (if (userId =? 1)%Z then 0 else 1).

End Situation.

(* ================================================================== *)
(** * Part II: properties                                              *)
(* ================================================================== *)

(** ** Sets of words *)

Section WordSets.

Lemma same_members_same_size (l1 l2 : list string) :
  NoDup l1 -> NoDup l2 -> (forall x, In x l1 <-> In x l2) ->
  List.length l1 = List.length l2.
Proof.
  intros N1 N2 same.
  apply Nat.le_antisymm; apply NoDup_incl_length; trivial;
    intros x Hx; apply same; exact Hx.
Qed.

Lemma Set_of_NoDup (l : list string) : NoDup (Js.Set_of l).
Proof. unfold Js.Set_of. apply NoDup_rev, NoDup_nodup. Qed.

Lemma Set_of_In (l : list string) (x : string) : In x (Js.Set_of l) <-> In x l.
Proof.
  unfold Js.Set_of.
  rewrite <- in_rev, nodup_In, <- in_rev. reflexivity.
Qed.

Lemma has_In (set : list string) (x : string) : Js.has set x = true <-> In x set.
Proof.
  unfold Js.has. rewrite existsb_exists. split.
  - intros [y [Hy e]]. apply String.eqb_eq in e. subst. exact Hy.
  - intros Hx. exists x. split; [exact Hx | apply String.eqb_refl].
Qed.

Lemma member_In (set : list string) (x : string) :
  Described.member x set = true <-> In x set.
Proof.
  unfold Described.member. destruct (in_dec string_dec x set); split;
    intros; trivial; try discriminate; contradiction.
Qed.

(** The size of a [Set] only depends on which words the list holds. *)
Lemma Set_of_size (l1 l2 : list string) :
  (forall x, In x l1 <-> In x l2) ->
  List.length (Js.Set_of l1) = List.length (Js.Set_of l2).
Proof.
  intros same. apply same_members_same_size; try apply Set_of_NoDup.
  intros x. rewrite !Set_of_In. apply same.
Qed.

Lemma Set_of_nodup_size (l : list string) :
  List.length (Js.Set_of l) = List.length (nodup string_dec l).
Proof.
  apply same_members_same_size;
    [apply Set_of_NoDup | apply NoDup_nodup |].
  intros x. rewrite Set_of_In, nodup_In. reflexivity.
Qed.

End WordSets.

(** ** Similarity and the matcher *)

(** C9.  The similarity of the fuzzy matcher is symmetric: for all strings
    [a] and [b], [calculateSimilarity a b] is [calculateSimilarity b a]. *)
Theorem calculateSimilarity_symmetric (a b : string) :
  DayTrackerAPI.calculateSimilarity a b = DayTrackerAPI.calculateSimilarity b a.
Proof.
  unfold DayTrackerAPI.calculateSimilarity.
  set (W1 := Js.Set_of (Js.split " " a)).
  set (W2 := Js.Set_of (Js.split " " b)).
  assert (inter : List.length (Js.Set_of (filter (Js.has W2) W1))
                  = List.length (Js.Set_of (filter (Js.has W1) W2))).
  { apply Set_of_size. intros x. rewrite !filter_In, !has_In. tauto. }
  assert (union : List.length (Js.Set_of (W1 ++ W2))
                  = List.length (Js.Set_of (W2 ++ W1))).
  { apply Set_of_size. intros x. rewrite !in_app_iff. tauto. }
  rewrite inter, union. reflexivity.
Qed.

Section Matcher.

(** The similarity of the code is the Jaccard index of the description
    when the words of a text are the pieces between its single spaces. *)
Lemma calculateSimilarity_jaccard (a b : string) :
  DayTrackerAPI.calculateSimilarity a b
  = Described.jaccard Described.pieces a b.
Proof.
  unfold DayTrackerAPI.calculateSimilarity, Described.jaccard,
    Described.word_set, Described.pieces.
  set (la := Js.split " " a). set (lb := Js.split " " b).
  assert (inter :
    List.length (Js.Set_of (filter (Js.has (Js.Set_of lb)) (Js.Set_of la)))
    = List.length (filter (fun x => Described.member x (nodup string_dec lb))
                          (nodup string_dec la))).
  { apply same_members_same_size.
    - apply Set_of_NoDup.
    - apply NoDup_filter, NoDup_nodup.
    - intros x.
      rewrite Set_of_In, !filter_In, has_In, member_In, !Set_of_In, !nodup_In.
      reflexivity. }
  assert (union :
    List.length (Js.Set_of (Js.Set_of la ++ Js.Set_of lb))
    = List.length (nodup string_dec (nodup string_dec la ++ nodup string_dec lb))).
  { rewrite Set_of_nodup_size.
    apply same_members_same_size; try apply NoDup_nodup.
    intros x. rewrite !nodup_In, !in_app_iff, !Set_of_In, !nodup_In.
    reflexivity. }
  rewrite inter, union. reflexivity.
Qed.

Variable f : Goal -> Q.

(** The head of the list sorted by the code is the first goal of greatest
    score. *)
Lemma sort_head (goals : list Goal) :
  hd_error (DayTrackerAPI.sort (map (fun g => (g, f g)) goals))
  = option_map (fun g => (g, f g)) (Described.best f goals).
Proof.
  induction goals as [| g rest IH]; [reflexivity |].
  simpl.
  destruct (DayTrackerAPI.sort (map (fun g0 => (g0, f g0)) rest)) as [| m tl];
    destruct (Described.best f rest) as [b |]; simpl in IH; try discriminate.
  - reflexivity.
  - injection IH as ->. simpl.
    destruct (negb (Qle_bool (f b) (f g))); reflexivity.
Qed.

Lemma best_none (goals : list Goal) :
  Described.best f goals = None -> goals = [].
Proof.
  destruct goals as [| g rest]; [reflexivity |]. simpl.
  destruct (Described.best f rest) as [b |];
    [destruct (negb (Qle_bool (f b) (f g))) |]; discriminate.
Qed.

(** [best] does pick a goal of the list whose score no other exceeds. *)
Lemma best_is_greatest (goals : list Goal) (g : Goal) :
  Described.best f goals = Some g ->
  In g goals /\ forall g', In g' goals -> (f g' <= f g)%Q.
Proof.
  revert g. induction goals as [| x rest IH]; [discriminate |].
  intros g. simpl.
  destruct (Described.best f rest) as [b |] eqn:Hb.
  - destruct (IH b eq_refl) as [Hin Hmax].
    destruct (Qle_bool (f b) (f x)) eqn:cmp; simpl; intros [= <-].
    + apply Qle_bool_iff in cmp. split; [now left |].
      intros g' [<- | Hg']; [apply Qle_refl |].
      eapply Qle_trans; [apply Hmax, Hg' | exact cmp].
    + assert (f x < f b)%Q as lt.
      { apply Qnot_le_lt. intros le. apply Qle_bool_iff in le. congruence. }
      split; [now right |].
      intros g' [<- | Hg']; [apply Qlt_le_weak, lt | apply Hmax, Hg'].
  - intros [= <-]. apply best_none in Hb. subst rest.
    split; [now left |]. intros g' [<- | []]. apply Qle_refl.
Qed.

End Matcher.

Lemma best_ext (f f' : Goal -> Q) (goals : list Goal) :
  (forall g, f g = f' g) -> Described.best f goals = Described.best f' goals.
Proof.
  intros same. induction goals as [| g rest IH]; [reflexivity |].
  simpl. rewrite IH. destruct (Described.best f' rest) as [b |]; [| reflexivity].
  rewrite !same. reflexivity.
Qed.

Lemma matchGoal_twoPhase (goals : list Goal) (keyword : string) :
  DayTrackerAPI.matchGoal goals keyword
  = Described.twoPhase Described.pieces goals keyword.
Proof.
  unfold DayTrackerAPI.matchGoal, Described.twoPhase, Described.substring_match.
  set (k := Js.trim (Js.toLowerCase keyword)).
  destruct (find _ goals) as [g |]; [reflexivity |].
  set (sim := fun g => DayTrackerAPI.calculateSimilarity k (Js.toLowerCase (title g))).
  rewrite <- (best_ext sim) by (intros g; apply calculateSimilarity_jaccard).
  pose proof (sort_head sim goals) as H. cbv zeta in H. fold sim.
  change (map (fun goal => (goal, DayTrackerAPI.calculateSimilarity k
                                    (Js.toLowerCase (title goal)))) goals)
    with (map (fun g => (g, sim g)) goals).
  destruct (DayTrackerAPI.sort _) as [| m tl];
    destruct (Described.best sim goals) as [b |]; simpl in H; try discriminate.
  - reflexivity.
  - injection H as ->. simpl.
    rewrite <- calculateSimilarity_jaccard. reflexivity.
Qed.

(** ** What an action leaves in the trace *)

Section Appends.
Context {A : Type} (ok : Event -> Prop).

Lemma appends_ret (a : A) : appends ok (Io.ret a).
Proof. intros w. exists []. simpl. rewrite app_nil_r. auto. Qed.

Lemma appends_throw (e : Error) : appends ok (@Io.throw A e).
Proof. intros w. exists []. simpl. rewrite app_nil_r. auto. Qed.

Lemma appends_lift (x : Exc A) : appends ok (Io.lift x).
Proof. intros w. exists []. simpl. rewrite app_nil_r. auto. Qed.

Lemma appends_ask (f : list Event -> A) : appends ok (Io.ask f).
Proof. intros w. exists []. simpl. rewrite app_nil_r. auto. Qed.

Lemma appends_read (f : Io.World -> A) : appends ok (Io.read f).
Proof. intros w. exists []. simpl. rewrite app_nil_r. auto. Qed.

Lemma appends_bind {B : Type} (c : Io.M B) (k : B -> Io.M A) :
  appends ok c -> (forall b, appends ok (k b)) -> appends ok (Io.bind c k).
Proof.
  intros Hc Hk w. unfold Io.bind.
  destruct (Hc w) as [evs [E F]]. destruct (c w) as [[b | e] w1]; simpl in E.
  - destruct (Hk b w1) as [evs' [E' F']].
    exists (evs ++ evs'). rewrite E', E, app_assoc. split; [reflexivity |].
    apply Forall_app. auto.
  - exists evs. auto.
Qed.

Lemma appends_try_catch (body : Io.M A) (handler : Error -> Io.M A) :
  appends ok body -> (forall e, appends ok (handler e)) ->
  appends ok (Io.try_catch body handler).
Proof.
  intros Hb Hh w. unfold Io.try_catch.
  destruct (Hb w) as [evs [E F]]. destruct (body w) as [[a | e] w1]; simpl in E.
  - exists evs. auto.
  - destruct (Hh e w1) as [evs' [E' F']].
    exists (evs ++ evs'). rewrite E', E, app_assoc. split; [reflexivity |].
    apply Forall_app. auto.
Qed.

Lemma appends_weaken (ok' : Event -> Prop) (c : Io.M A) :
  (forall ev, ok' ev -> ok ev) -> appends ok' c -> appends ok c.
Proof.
  intros imp H w. destruct (H w) as [evs [E F]]. exists evs. split; [exact E |].
  eapply Forall_impl; [exact imp | exact F].
Qed.

End Appends.

Lemma appends_emit (ok : Event -> Prop) (ev : Event) :
  ok ev -> appends ok (Io.emit ev).
Proof. intros H w. exists [ev]. simpl. auto. Qed.

Lemma appends_write (ok : Event -> Prop) (f : Io.World -> Io.World) :
  (forall w, Io.trace (f w) = Io.trace w) -> appends ok (Io.write f).
Proof. intros H w. exists []. simpl. rewrite H, app_nil_r. auto. Qed.

(** Takes an action apart along its binds, handlers and case analyses. *)
Ltac appends_step :=
  first
    [ assumption
    | match goal with H : _ |- _ => apply H end
    | apply appends_ret | apply appends_throw | apply appends_lift
    | apply appends_ask | apply appends_read
    | apply appends_emit; first [exact I | reflexivity]
    | apply appends_write; intros ?; reflexivity
    | apply appends_bind; [| intros ?]
    | apply appends_try_catch; [| intros ?]
    | match goal with
      | |- appends _ (match ?x with _ => _ end) => destruct x
      end ].

Ltac appends_all := repeat appends_step.

Section Traces.
Variable rt : Runtime.
Variable out : Outside.

Lemma invocations_app (t1 t2 : list Event) :
  invocations (t1 ++ t2) = invocations t1 ++ invocations t2.
Proof.
  induction t1 as [| ev t1 IH]; [reflexivity |].
  destruct ev; simpl; rewrite IH; reflexivity.
Qed.

Lemma invocations_quiet (evs : list Event) :
  Forall not_invocation evs -> invocations evs = [].
Proof.
  induction 1 as [| ev evs H _ IH]; [reflexivity |].
  destruct ev; simpl in *; [exact IH .. | contradiction].
Qed.

(** An action that enters no executor leaves the list of invocations as
    it was. *)
Lemma quiet_invocations {A : Type} (c : Io.M A) (w : Io.World) :
  appends not_invocation c ->
  invocations (Io.trace (snd (c w))) = invocations (Io.trace w).
Proof.
  intros H. destruct (H w) as [evs [E F]].
  rewrite E, invocations_app, (invocations_quiet evs F), app_nil_r. reflexivity.
Qed.

Lemma requests_app (t1 t2 : list Event) :
  requests (t1 ++ t2) = requests t1 ++ requests t2.
Proof.
  induction t1 as [| ev t1 IH]; [reflexivity |].
  destruct ev; simpl; rewrite IH; reflexivity.
Qed.

Lemma generated_no_request (evs : list Event) :
  Forall only_generated evs -> requests evs = [].
Proof.
  induction 1 as [| ev evs H _ IH]; [reflexivity |].
  rewrite H. exact IH.
Qed.

Lemma generated_quiet {A : Type} (c : Io.M A) :
  appends only_generated c -> appends not_invocation c.
Proof.
  apply appends_weaken. intros ev ->. exact I.
Qed.

Lemma retry_generates (n : nat) : appends only_generated (Gemini.retry out n).
Proof. induction n; simpl; unfold Gemini.generateContent; appends_all. Qed.

Lemma analyzeIntent_generates (message : string) :
  appends only_generated (IntentService.analyzeIntent rt out message).
Proof.
  unfold IntentService.analyzeIntent, Gemini.generateContentWithRetry.
  pose proof retry_generates. appends_all.
Qed.

Lemma analyzeIntent_quiet (message : string) :
  appends not_invocation (IntentService.analyzeIntent rt out message).
Proof. apply generated_quiet, analyzeIntent_generates. Qed.

Lemma settle_quiet {A : Type} (fallback : string) (r : Reply A) :
  appends not_invocation (DayTrackerAPI.settle fallback r).
Proof. unfold DayTrackerAPI.settle. appends_all. Qed.

Lemma getGoals_quiet : appends not_invocation (DayTrackerAPI.getGoals out).
Proof.
  unfold DayTrackerAPI.getGoals. pose proof @settle_quiet. appends_all.
Qed.

Lemma createGoal_request_quiet (data : CreateGoalData) :
  appends not_invocation (DayTrackerAPI.createGoal out data).
Proof.
  unfold DayTrackerAPI.createGoal. pose proof @settle_quiet. appends_all.
Qed.

Lemma createDailyLog_quiet (data : CreateDailyLogData) :
  appends not_invocation (DayTrackerAPI.createDailyLog out data).
Proof.
  unfold DayTrackerAPI.createDailyLog. pose proof @settle_quiet. appends_all.
Qed.

Lemma findGoalByKeyword_quiet (keyword : Js.value) :
  appends not_invocation (DayTrackerAPI.findGoalByKeyword out keyword).
Proof.
  unfold DayTrackerAPI.findGoalByKeyword. pose proof getGoals_quiet.
  appends_all.
Qed.

End Traces.

(** ** The retries of the gateway *)

Section Retries.
Variable out : Outside.

(** A model that keeps answering 429 or 503 is called four times, after
    which the error is thrown. *)
Lemma generateContentWithRetry_gives_up (e : Error) (w : Io.World) :
  (forall t, generateContent_result out t = Reject e) ->
  Gemini.transient e = true ->
  Gemini.generateContentWithRetry out w
  = (Throw e,
     Io.mkWorld (Io.authToken w)
       (Io.trace w ++ [Generated; Generated; Generated; Generated])
       (Io.ai_preferences w) (Io.monitored_messages w) (Io.message_feedback w)).
Proof.
  intros always again.
  unfold Gemini.generateContentWithRetry, Gemini.maxRetries. simpl.
  unfold Gemini.generateContent, Io.bind, Io.ask, Io.emit, Io.ret, Io.throw.
  simpl. repeat (rewrite always; try rewrite again; simpl).
  rewrite <- !app_assoc. reflexivity.
Qed.

(** Any other error is thrown at once. *)
Lemma generateContentWithRetry_no_retry (e : Error) (w : Io.World) :
  generateContent_result out (Io.trace w) = Reject e ->
  Gemini.transient e = false ->
  Gemini.generateContentWithRetry out w
  = (Throw e,
     Io.mkWorld (Io.authToken w) (Io.trace w ++ [Generated])
       (Io.ai_preferences w) (Io.monitored_messages w) (Io.message_feedback w)).
Proof.
  intros first final.
  unfold Gemini.generateContentWithRetry, Gemini.maxRetries. simpl.
  unfold Gemini.generateContent, Io.bind, Io.ask, Io.emit, Io.ret, Io.throw.
  simpl. rewrite first, final. reflexivity.
Qed.

End Retries.

(** ** The Intent Analyzer *)

Section Analyzer.
Variable rt : Runtime.
Variable out : Outside.

Import IntentService.

Lemma chat_fallback_degraded (raw : string) : degraded (chat_fallback raw).
Proof. repeat split. Qed.

Lemma parseIntentResponse_unusable (response : string) :
  unusable rt response ->
  parseIntentResponse rt response = chat_fallback response.
Proof.
  unfold unusable, parseIntentResponse, parse, get_prop.
  destruct (JSON_parse rt (strip_fences response)) as [parsed |]; simpl;
    [| reflexivity].
  destruct (Js.get parsed "intent") as [v |]; simpl; [| reflexivity].
  intros ->. reflexivity.
Qed.

(** What the analyzer returns is decided by how the gateway call ended. *)
Lemma analyzeIntent_cases (message : string) (w : Io.World) :
  IntentService.analyzeIntent rt out message w
  = match Gemini.generateContentWithRetry out w with
    | (Ok (Ok response), w1) => (Ok (parseIntentResponse rt response), w1)
    | (_, w1) => (Ok (chat_fallback message), w1)
    end.
Proof.
  unfold IntentService.analyzeIntent, Io.try_catch, Io.bind, Io.lift, Io.ret.
  destruct (Gemini.generateContentWithRetry out w) as [[[response | e] | e] w1];
    reflexivity.
Qed.

Lemma analyzeIntent_never_throws (message : string) (w : Io.World) :
  exists r w1, IntentService.analyzeIntent rt out message w = (Ok r, w1).
Proof.
  rewrite analyzeIntent_cases.
  destruct (Gemini.generateContentWithRetry out w) as [[[response | e] | e] w1];
    eauto.
Qed.

Lemma or_else_truthy (v d : Js.value) :
  Js.truthy d = true -> Js.truthy (Js.or_else v d) = true.
Proof. unfold Js.or_else. destruct (Js.truthy v) eqn:E; auto. Qed.

Lemma parseIntentResponse_entities (response : string) :
  Js.truthy (entities (parseIntentResponse rt response)) = true.
Proof.
  unfold parseIntentResponse, parse, get_prop.
  destruct (JSON_parse rt (strip_fences response)) as [parsed |]; simpl;
    [| reflexivity].
  destruct (Js.get parsed "intent") as [v |] eqn:G; simpl; [| reflexivity].
  destruct (Intent_of v); simpl; [| reflexivity].
  destruct parsed; simpl in *; try discriminate;
    first [reflexivity | apply or_else_truthy; reflexivity].
Qed.

(** The analyzer never hands on [null] or [undefined] entities. *)
Lemma analyzeIntent_entities (message : string) (w w1 : Io.World)
    (r : IntentAnalysisResult) :
  IntentService.analyzeIntent rt out message w = (Ok r, w1) ->
  Js.truthy (entities r) = true.
Proof.
  rewrite analyzeIntent_cases.
  destruct (Gemini.generateContentWithRetry out w) as [[[response | e] | e] w'];
    intros [= <- _]; try reflexivity.
  apply parseIntentResponse_entities.
Qed.

(** C2.  When the model's response does not parse as JSON or carries an
    intent outside the enumeration, and when the gateway call fails after
    its retries (or yields no text), [analyzeIntent] returns the result
    with intent [CHAT_ONLY], entities [{}] and confidence 1; and on every
    input it returns a result rather than throwing. *)
Theorem analyzeIntent_degrades (message : string) (w w1 : Io.World)
    (reply : Exc (Exc string))
    (gateway : Gemini.generateContentWithRetry out w = (reply, w1))
    (bad : match reply with
           | Ok (Ok response) => unusable rt response
           | _ => True
           end) :
  (exists r,
      IntentService.analyzeIntent rt out message w = (Ok r, w1) /\ degraded r)
  /\ (forall message' w0,
        exists r' w', IntentService.analyzeIntent rt out message' w0 = (Ok r', w')).
Proof.
  split; [| intros; apply analyzeIntent_never_throws].
  rewrite analyzeIntent_cases, gateway.
  destruct reply as [[response | e] | e].
  - rewrite (parseIntentResponse_unusable response bad).
    eexists. split; [reflexivity | apply chat_fallback_degraded].
  - eexists. split; [reflexivity | apply chat_fallback_degraded].
  - eexists. split; [reflexivity | apply chat_fallback_degraded].
Qed.

End Analyzer.

Lemma analyzeIntent_degrades_witness :
  exists w1 r,
    IntentService.analyzeIntent Scenario.runtime
      (Scenario.outside (Scenario.says "Sorry, I did not get that") [] 12 0)
      "hello" Scenario.fresh = (Ok r, w1)
    /\ degraded r.
Proof.
  eexists.
  refine (proj1 (analyzeIntent_degrades Scenario.runtime _ "hello" Scenario.fresh
                   _ (Ok (Ok "Sorry, I did not get that")) _ _)).
  - reflexivity.
  - exact I.
Defined.

(** With the model unavailable the analyzer still answers, after four
    calls. *)
Example analyzeIntent_model_unavailable :
  IntentService.analyzeIntent Scenario.runtime
    (Scenario.outside Scenario.unavailable [] 12 0) "hello" Scenario.fresh
  = (Ok (IntentService.chat_fallback "hello"),
     Io.mkWorld None [Generated; Generated; Generated; Generated] [] [] []).
Proof. reflexivity. Qed.

(** ** The executors and the dispatcher *)

Section Marks.
Context {A : Type}.

Lemma marks_quiet (c : Io.M A) : appends not_invocation c -> marks [] c.
Proof. intros H w. rewrite app_nil_r. apply quiet_invocations, H. Qed.

Lemma marks_entry (x : Executor) (c : Io.M A) :
  appends not_invocation c -> marks [x] (Io.emit (Invoked x) ;;; c).
Proof.
  intros H w. unfold Io.bind, Io.emit.
  rewrite (quiet_invocations c _ H). simpl. rewrite invocations_app. reflexivity.
Qed.

Lemma marks_bind_quiet {B : Type} (xs : list Executor) (c : Io.M B)
    (k : B -> Io.M A) :
  marks xs c -> (forall b, appends not_invocation (k b)) -> marks xs (Io.bind c k).
Proof.
  intros Hc Hk w. unfold Io.bind. specialize (Hc w).
  destruct (c w) as [[b | e] w1]; simpl in Hc; [| exact Hc].
  rewrite (quiet_invocations (k b) w1 (Hk b)). exact Hc.
Qed.

Lemma marks_try_catch (xs : list Executor) (body : Io.M A)
    (handler : Error -> Io.M A) :
  marks xs body -> (forall e, appends not_invocation (handler e)) ->
  marks xs (Io.try_catch body handler).
Proof.
  intros Hb Hh w. unfold Io.try_catch. specialize (Hb w).
  destruct (body w) as [[a | e] w1]; simpl in Hb; [exact Hb |].
  rewrite (quiet_invocations (handler e) w1 (Hh e)). exact Hb.
Qed.

End Marks.

Section Executors.
Variable rt : Runtime.
Variable out : Outside.

Lemma log_resolveGoal_quiet (goalKeyword : Js.value) :
  appends not_invocation (DailyLogCreator.resolveGoal rt out goalKeyword).
Proof.
  unfold DailyLogCreator.resolveGoal.
  pose proof (getGoals_quiet out). pose proof (findGoalByKeyword_quiet out).
  appends_all.
Qed.

Lemma reminder_resolveGoal_quiet (goalKeyword : Js.value) :
  appends not_invocation (ReminderCreator.resolveGoal out goalKeyword).
Proof.
  unfold ReminderCreator.resolveGoal.
  pose proof (getGoals_quiet out). pose proof (findGoalByKeyword_quiet out).
  appends_all.
Qed.

Lemma createLog_marks (params : DailyLogCreator.CreateLogParams) :
  marks [dailyLogCreator] (DailyLogCreator.createLog rt out params).
Proof.
  unfold DailyLogCreator.createLog. apply marks_entry.
  pose proof log_resolveGoal_quiet. pose proof (createDailyLog_quiet out).
  unfold DayTrackerAPI.setAuthToken. appends_all.
Qed.

Lemma createGoal_marks (params : GoalCreator.CreateGoalParams) :
  marks [goalCreator] (GoalCreator.createGoal rt out params).
Proof.
  unfold GoalCreator.createGoal. apply marks_entry.
  pose proof (createGoal_request_quiet out).
  unfold DayTrackerAPI.setAuthToken, GoalCreator.getRandomColor. appends_all.
Qed.

Lemma createReminder_marks (params : ReminderCreator.CreateReminderParams) :
  marks [reminderCreator] (ReminderCreator.createReminder rt out params).
Proof.
  unfold ReminderCreator.createReminder. apply marks_entry.
  pose proof reminder_resolveGoal_quiet. pose proof (createDailyLog_quiet out).
  unfold DayTrackerAPI.setAuthToken. appends_all.
Qed.

Import IntentService.

Lemma get_prop_truthy (o : Js.value) (k : string) :
  Js.truthy o = true -> exists v, get_prop o k = Ok v.
Proof.
  unfold get_prop. destruct o; simpl; try discriminate; eauto.
Qed.

(** The dispatcher enters the executor of the intent and no other. *)
Lemma executeAction_marks (r : IntentAnalysisResult) (token : string) :
  Js.truthy (entities r) = true ->
  marks (executor_for (intent r)) (AIService.executeAction rt out r token).
Proof.
  intros T. unfold AIService.executeAction.
  apply marks_try_catch; [| intros; appends_all].
  destruct (intent r); simpl;
    try (apply marks_quiet; appends_all).
  - destruct (get_prop_truthy _ "goalKeyword" T) as [v1 ->].
    destruct (get_prop_truthy _ "activity" T) as [v2 ->].
    destruct (get_prop_truthy _ "goodThing" T) as [v3 ->].
    destruct (get_prop_truthy _ "logDate" T) as [v4 ->].
    intros w. unfold Io.bind at 1 2 3 4. simpl.
    revert w. apply marks_bind_quiet; [apply createLog_marks |].
    intros; appends_all.
  - destruct (get_prop_truthy _ "title" T) as [v1 ->].
    destruct (get_prop_truthy _ "description" T) as [v2 ->].
    destruct (get_prop_truthy _ "durationDays" T) as [v3 ->].
    destruct (get_prop_truthy _ "startDate" T) as [v4 ->].
    intros w. unfold Io.bind at 1 2 3 4. simpl.
    revert w. apply marks_bind_quiet; [apply createGoal_marks |].
    intros; appends_all.
  - destruct (get_prop_truthy _ "title" T) as [v1 ->].
    destruct (get_prop_truthy _ "description" T) as [v2 ->].
    destruct (get_prop_truthy _ "plannedDate" T) as [v3 ->].
    destruct (get_prop_truthy _ "goalKeyword" T) as [v4 ->].
    intros w. unfold Io.bind at 1 2 3 4. simpl.
    revert w. apply marks_bind_quiet; [apply createReminder_marks |].
    intros; appends_all.
Qed.

Lemma executeAction_never_throws (r : IntentAnalysisResult) (token : string)
    (w : Io.World) :
  exists a w', AIService.executeAction rt out r token w = (Ok a, w').
Proof.
  unfold AIService.executeAction, Io.try_catch.
  match goal with |- context [match ?c w with _ => _ end] =>
    destruct (c w) as [[a | e] w'] end; unfold Io.ret; eauto.
Qed.

End Executors.

Section Dispatch.
Variable rt : Runtime.
Variable out : Outside.

Import IntentService.

Lemma Intent_eqb_chat (i : Intent) :
  Intent_eqb i CHAT_ONLY = false <-> i <> CHAT_ONLY.
Proof. destruct i; unfold Intent_eqb; simpl; split; congruence. Qed.

(** The test made by [chat] is the condition of the specification. *)
Lemma actionable_iff (r : IntentAnalysisResult) :
  AIService.actionable rt r = true <-> dispatch_condition rt r.
Proof.
  unfold AIService.actionable, dispatch_condition, Js.gtb, Js.ltb.
  rewrite andb_true_iff, negb_true_iff, Intent_eqb_chat.
  split; intros [ne H]; (split; [exact ne |]).
  - destruct (toNumber rt (confidence r)) as [| q]; [discriminate |].
    exists q. split; [reflexivity |].
    apply Qnot_le_lt. intros le. apply Qle_bool_iff in le.
    rewrite le in H. discriminate.
  - destruct H as [q [-> lt]]. apply negb_true_iff.
    destruct (Qle_bool q (6 # 10)) eqn:le; [| reflexivity].
    apply Qle_bool_iff in le. exfalso. exact (Qlt_not_le _ _ lt le).
Qed.

Lemma not_actionable_iff (r : IntentAnalysisResult) :
  AIService.actionable rt r = false <-> ~ dispatch_condition rt r.
Proof.
  rewrite <- actionable_iff. destruct (AIService.actionable rt r);
    split; congruence.
Qed.

(** C3, as the code has it.  Given a credential, the dispatcher runs if
    and only if the analyzed intent is not ChatOnly and the confidence is
    strictly greater than 0.6; when it runs, the executor entered is the one
    of the intent, which exists for create_log, create_goal and
    create_reminder only; when it does not run, nothing is executed and the
    turn carries no action result. *)
Theorem chat_dispatch (message : string) (jwtToken : option string)
    (token : string) (w w1 : Io.World) (r : IntentAnalysisResult)
    (credential : AIService.token_given jwtToken = Some token)
    (analyzed : analyzeIntent rt out message w = (Ok r, w1)) :
  exists actionResult w',
    AIService.chat_automation rt out message jwtToken w
      = (Ok (Some r, actionResult), w')
    /\ (actionResult <> None <-> dispatch_condition rt r)
    /\ (dispatch_condition rt r ->
        invocations (Io.trace w')
          = invocations (Io.trace w1) ++ executor_for (intent r))
    /\ (~ dispatch_condition rt r ->
        w' = w1 /\ AIService.actionExecuted actionResult = false).
Proof.
  unfold AIService.chat_automation. rewrite credential.
  unfold Io.bind at 1. rewrite analyzed.
  destruct (AIService.actionable rt r) eqn:test.
  - destruct (executeAction_never_throws rt out r token w1) as [a [w' run]].
    exists (Some a), w'. unfold Io.bind, Io.ret. rewrite run.
    apply actionable_iff in test.
    split; [reflexivity |]. split; [split; [auto | discriminate] |].
    split; [| contradiction].
    intros _.
    pose proof (executeAction_marks rt out r token
                  (analyzeIntent_entities rt out message w w1 r analyzed) w1) as M.
    rewrite run in M. exact M.
  - exists None, w1. unfold Io.ret. apply not_actionable_iff in test.
    repeat split; try reflexivity; try contradiction.
Qed.

(** C10.  An analyzed intent among update_goal, get_status and get_summary
    that passes the dispatch condition makes [executeAction] return [null]:
    no executor is entered, no request goes to the Goal-Tracker, and the
    turn goes on without an action result. *)
Theorem unhandled_intents_return_null (message : string)
    (jwtToken : option string) (token : string) (w w1 : Io.World)
    (r : IntentAnalysisResult)
    (credential : AIService.token_given jwtToken = Some token)
    (analyzed : analyzeIntent rt out message w = (Ok r, w1))
    (unhandled : In (intent r) [UPDATE_GOAL; GET_GOAL_STATUS; GET_TODAY_SUMMARY])
    (passes : dispatch_condition rt r) :
  AIService.executeAction rt out r token w1 = (Ok AIService.ActionNull, w1)
  /\ AIService.chat_automation rt out message jwtToken w
     = (Ok (Some r, Some AIService.ActionNull), w1)
  /\ invocations (Io.trace w1) = invocations (Io.trace w)
  /\ requests (Io.trace w1) = requests (Io.trace w)
  /\ AIService.actionExecuted (Some AIService.ActionNull) = false.
Proof.
  assert (run : AIService.executeAction rt out r token w1
                = (Ok AIService.ActionNull, w1)).
  { unfold AIService.executeAction.
    destruct unhandled as [<- | [<- | [<- | []]]]; reflexivity. }
  split; [exact run |]. split.
  - unfold AIService.chat_automation. rewrite credential.
    unfold Io.bind at 1. rewrite analyzed.
    apply actionable_iff in passes. rewrite passes.
    unfold Io.bind, Io.ret. rewrite run. reflexivity.
  - destruct (analyzeIntent_generates rt out message w) as [evs [E F]].
    rewrite analyzed in E. simpl in E.
    rewrite E, invocations_app, requests_app.
    rewrite (generated_no_request evs F).
    rewrite (invocations_quiet evs).
    + rewrite !app_nil_r. auto.
    + eapply Forall_impl; [| exact F]. intros ev ->. exact I.
Qed.

End Dispatch.

(** A question about progress passes the dispatch condition, yet no
    executor is entered: none exists for get_status. *)
Lemma status_question_enters_no_executor :
  exists w',
    AIService.chat_automation Scenario.runtime
      (Scenario.outside (Scenario.says Scenario.status_text)
         Scenario.three_goals 12 0)
      "How is my AI project going?" (Some "jwt") Scenario.fresh
    = (Ok (Some Scenario.status_result, Some AIService.ActionNull), w')
    /\ IntentService.intent Scenario.status_result <> IntentService.CHAT_ONLY
    /\ IntentService.confidence Scenario.status_result = Js.JNum (7 # 8)
    /\ (6 # 10 < 7 # 8)%Q
    /\ invocations (Io.trace w') = [].
Proof.
  eexists. repeat split.
  - discriminate.
Qed.

Lemma chat_dispatch_witness :
  exists actionResult w',
    AIService.chat_automation Scenario.runtime
      (Scenario.outside (Scenario.says Scenario.nap_text)
         Scenario.three_goals 12 0)
      "Start a nap goal" (Some "jwt") Scenario.fresh
      = (Ok (Some Scenario.nap_result, actionResult), w')
    /\ (actionResult <> None <-> dispatch_condition Scenario.runtime Scenario.nap_result)
    /\ (dispatch_condition Scenario.runtime Scenario.nap_result ->
        invocations (Io.trace w')
          = invocations (Io.trace Scenario.asked)
              ++ executor_for (IntentService.intent Scenario.nap_result))
    /\ (~ dispatch_condition Scenario.runtime Scenario.nap_result ->
        w' = Scenario.asked /\ AIService.actionExecuted actionResult = false).
Proof.
  apply (chat_dispatch Scenario.runtime _ "Start a nap goal" (Some "jwt") "jwt"
           Scenario.fresh Scenario.asked Scenario.nap_result);
    reflexivity.
Defined.

Lemma unhandled_intents_return_null_witness :
  AIService.chat_automation Scenario.runtime
    (Scenario.outside (Scenario.says Scenario.status_text)
       Scenario.three_goals 12 0)
    "How is my AI project going?" (Some "jwt") Scenario.fresh
  = (Ok (Some Scenario.status_result, Some AIService.ActionNull), Scenario.asked).
Proof.
  refine (proj1 (proj2 (unhandled_intents_return_null Scenario.runtime _
            "How is my AI project going?" (Some "jwt") "jwt" Scenario.fresh
            Scenario.asked Scenario.status_result _ _ _ _))).
  - reflexivity.
  - reflexivity.
  - simpl. auto.
  - split; [discriminate |]. exists (7 # 8)%Q. split; reflexivity.
Defined.

(** ** CreateGoal and the duration check *)

Section Duration.
Variable rt : Runtime.
Variable out : Outside.

Lemma duration_rejected_number (q : Q) :
  GoalCreator.duration_rejected rt (Js.JNum q) = true <-> (q <= 0 \/ 3650 < q)%Q.
Proof.
  unfold GoalCreator.duration_rejected, toNumber, Js.gtb, Js.ltb, Js.leb. simpl.
  rewrite orb_true_iff, negb_true_iff, Qle_bool_iff.
  split; intros [H | H]; auto; right.
  - apply Qnot_le_lt. intros le. apply Qle_bool_iff in le. congruence.
  - destruct (Qle_bool q 3650) eqn:le; [| reflexivity].
    apply Qle_bool_iff in le. exfalso. exact (Qlt_not_le _ _ H le).
Qed.

(** A whole number of days outside 1..3650 is rejected, one inside is not. *)
Lemma duration_rejected_integer (d : Z) :
  GoalCreator.duration_rejected rt (Js.JNum (inject_Z d)) = true
  <-> (d < 1 \/ 3650 < d)%Z.
Proof.
  rewrite duration_rejected_number.
  change 0%Q with (inject_Z 0). change 3650%Q with (inject_Z 3650).
  rewrite <- Zle_Qle, <- Zlt_Qlt. lia.
Qed.

(** A rejected duration ends the call before any request: the result is
    the failure with the explanatory message, nothing is thrown, and the
    only things done are the ghost mark and the setting of the token. *)
Lemma createGoal_rejected (params : GoalCreator.CreateGoalParams) (w : Io.World) :
  GoalCreator.duration_rejected rt (GoalCreator.durationDays params) = true ->
  exists w',
    GoalCreator.createGoal rt out params w
    = (Ok (GoalCreator.mkResult false None
             "Goal duration must be between 1 and 3650 days (10 years)."), w')
    /\ requests (Io.trace w') = requests (Io.trace w).
Proof.
  intros rejected. unfold GoalCreator.createGoal.
  unfold Io.bind, Io.try_catch, Io.emit, DayTrackerAPI.setAuthToken, Io.write,
    Io.ret. simpl. rewrite rejected. simpl.
  eexists. split; [reflexivity |]. simpl.
  rewrite requests_app. simpl. apply app_nil_r.
Qed.

(** C4, at the input where the code parts from it.  A duration of half a
    day lies outside 1..3650, yet it passes the check [durationDays <= 0 ||
    durationDays > 3650]: the goal-creation request is sent. *)
Theorem createGoal_posts_half_day (title : Js.value) (jwtToken : string)
    (w : Io.World) :
  exists data,
    requests (Io.trace (snd (GoalCreator.createGoal rt out
                (GoalCreator.mkParams title Js.JUndefined (Js.JNum (1 # 2))
                   Js.JUndefined Js.JUndefined jwtToken) w)))
    = requests (Io.trace w) ++ [PostGoal data]
    /\ gd_durationDays data = Js.JNum (1 # 2).
Proof.
  unfold GoalCreator.createGoal, GoalCreator.getRandomColor,
    DayTrackerAPI.createGoal.
  unfold Io.bind, Io.try_catch, Io.emit, DayTrackerAPI.setAuthToken, Io.write,
    Io.ask, Io.ret. simpl.
  eexists. split.
  - match goal with |- context [DayTrackerAPI.settle ?m ?r] =>
      destruct r as [g | rm m'] end; simpl;
      rewrite !requests_app; simpl; rewrite app_nil_r; reflexivity.
  - reflexivity.
Qed.

End Duration.

Lemma half_day_goal_reaches_tracker :
  exists result w',
    AIService.chat_automation Scenario.runtime
      (Scenario.outside (Scenario.says Scenario.nap_text) [] 12 0)
      "Start a goal to nap for half a day" (Some "jwt") Scenario.fresh
    = (Ok (Some Scenario.nap_result, Some (AIService.GoalResult result)), w')
    /\ GoalCreator.success result = true
    /\ requests (Io.trace w')
       = [PostGoal (mkGoalData (Js.JStr "Nap") Js.JUndefined
                      (Js.JStr "2025-01-01") (Js.JNum (1 # 2))
                      (Js.JStr "#FF6B6B"))].
Proof. eexists. eexists. split; [reflexivity |]. split; reflexivity. Qed.

(** ** The classifier *)

Section Classifier.
Variable rt : Runtime.
Variable out : Outside.

Import IntentService MessageClassifier.





(** The two ways a parsed response yields its category. *)
Lemma parseClassificationResponse_category (response : string) :
  match model_category rt response with
  | Some c => category (parseClassificationResponse rt response) = c
  | None =>
      category (parseClassificationResponse rt response)
      = band (score (parseClassificationResponse rt response))
  end.
Proof.
  unfold model_category, parseClassificationResponse, parse.
  destruct (JSON_parse rt (strip_fences response)) as [parsed |]; simpl;
    [| reflexivity].
  unfold classification_of, get_prop.
  destruct parsed; simpl; try reflexivity.
  destruct (Js.truthy (Js.lookup "category" props));
    [destruct (Category_of (Js.lookup "category" props)) |]; reflexivity.
Qed.

(** [classify] returns what the parse of the response gives, or the
    fallback; it never throws. *)
Lemma classify_cases (w : Io.World) :
  exists r w',
    classify rt out w = (Ok r, w')
    /\ (r = fallback "Classification error, defaulting to medium importance"
        \/ exists response, r = parseClassificationResponse rt response).
Proof.
  unfold classify, getLearningContext.
  unfold Io.try_catch, Io.bind, Io.ask, Io.lift, Io.ret.
  destruct (learningContext_result out (Io.trace w)) as [ctx | e]; [| eauto].
  destruct (Gemini.generateContentWithRetry out w) as [[[response | e] | e] w1];
    eauto 6.
Qed.

(** C8.  When the model's response carries a numeric score, the score of
    the classification result is that score clamped to 1..10: 1 for a score
    below 1, 10 for a score above 10, the score itself otherwise. *)
Theorem score_is_clamped (response : string) (parsed : Js.value) (q : Q)
    (parses : JSON_parse rt (strip_fences response) = Some parsed)
    (numeric : Js.get parsed "score" = Some (Js.JNum q)) :
  exists s,
    score (parseClassificationResponse rt response) = Js.Fin s
    /\ (q < 1 -> s == 1)%Q
    /\ (10 < q -> s == 10)%Q
    /\ (1 <= q <= 10 -> s == q)%Q.
Proof.
  unfold parseClassificationResponse, parse. rewrite parses. simpl.
  unfold classification_of, get_prop.
  destruct parsed; simpl in numeric; try discriminate.
  injection numeric as numeric. simpl. rewrite numeric. simpl.
  exists (Qmax 1 (Qmin 10 q)). split; [reflexivity |].
  destruct (Q.max_spec 1 (Qmin 10 q)) as [[? ->] | [? ->]];
    destruct (Q.min_spec 10 q) as [[? E] | [? E]];
    repeat split; intros; try rewrite E in *; try lra; try reflexivity.
Qed.

End Classifier.

Section Agreement.
Variable rt : Runtime.
Variable out : Outside.

Import IntentService MessageClassifier.




End Agreement.



Lemma score_is_clamped_witness :
  exists s,
    MessageClassifier.score
      (MessageClassifier.parseClassificationResponse Scenario.runtime
         Scenario.fifteen_text) = Js.Fin s
    /\ (15 < 1 -> s == 1)%Q
    /\ (10 < 15 -> s == 10)%Q
    /\ (1 <= 15 <= 10 -> s == 15)%Q.
Proof.
  apply (score_is_clamped Scenario.runtime Scenario.fifteen_text
           Scenario.fifteen_json 15%Q); reflexivity.
Defined.

(** ** The scheduler and the active hours *)

(** *** The order of texts and the hours of the day *)

Section TextOrder.

Lemma ascii_compare_refl (c : ascii) : Ascii.compare c c = Eq.
Proof. unfold Ascii.compare. apply N.compare_refl. Qed.

Lemma string_compare_refl (s : string) : String.compare s s = Eq.
Proof.
  induction s as [| c s IH]; simpl; [reflexivity |].
  rewrite ascii_compare_refl. exact IH.
Qed.

Lemma ascii_compare_trans (a b c : ascii) (r : comparison) :
  Ascii.compare a b = r -> Ascii.compare b c = r -> Ascii.compare a c = r.
Proof.
  unfold Ascii.compare. intros H1 H2. destruct r.
  - apply N.compare_eq_iff in H1, H2. apply N.compare_eq_iff. congruence.
  - apply N.compare_lt_iff in H1. apply N.compare_lt_iff in H2.
    apply N.compare_lt_iff. eapply N.lt_trans; eassumption.
  - apply N.compare_gt_iff in H1. apply N.compare_gt_iff in H2.
    apply N.compare_gt_iff. eapply N.lt_trans; eassumption.
Qed.

Lemma string_compare_lt_trans (a b c : string) :
  String.compare a b <> Gt -> String.compare b c <> Gt ->
  String.compare a c <> Gt.
Proof.
  revert b c. induction a as [| x a IH]; intros [| y b] [| z c]; simpl;
    try congruence.
  destruct (Ascii.compare x y) eqn:xy; try congruence;
    destruct (Ascii.compare y z) eqn:yz; try congruence.
  - apply Ascii.compare_eq_iff in xy, yz. subst.
    rewrite ascii_compare_refl. apply IH.
  - apply Ascii.compare_eq_iff in xy. subst. rewrite yz. congruence.
  - apply Ascii.compare_eq_iff in yz. subst. rewrite xy. congruence.
  - rewrite (ascii_compare_trans x y z Lt xy yz). congruence.
Qed.

Lemma string_leb_iff (a b : string) :
  String.leb a b = true <-> String.compare a b <> Gt.
Proof.
  unfold String.leb. destruct (String.compare a b); split; congruence.
Qed.

Lemma string_leb_trans (a b c : string) :
  String.leb a b = true -> String.leb b c = true -> String.leb a c = true.
Proof. rewrite !string_leb_iff. apply string_compare_lt_trans. Qed.

Lemma string_append_empty (s : string) : (s ++ "")%string = s.
Proof. induction s as [| c s IH]; simpl; [| rewrite IH]; reflexivity. Qed.

Lemma string_append_assoc (a b c : string) :
  ((a ++ b) ++ c)%string = (a ++ (b ++ c))%string.
Proof. induction a as [| x a IH]; simpl; [| rewrite IH]; reflexivity. Qed.

(** Texts that begin with parts of equal length are ordered by those
    parts first. *)
Lemma string_compare_append (a b x y : string) :
  String.length a = String.length b ->
  String.compare (a ++ x) (b ++ y)
  = match String.compare a b with
    | Eq => String.compare x y
    | other => other
    end.
Proof.
  revert b. induction a as [| c a IH]; intros [| d b]; simpl; try discriminate.
  - reflexivity.
  - intros [= len]. destruct (Ascii.compare c d); [apply IH, len | |];
      reflexivity.
Qed.

(** Two digits order numbers below one hundred as the numbers are. *)
Lemma pad2_facts (n1 n2 : nat) :
  (n1 < 100)%nat -> (n2 < 100)%nat ->
  String.length (MonitoringScheduler.pad2 n1) = 2%nat
  /\ String.compare (MonitoringScheduler.pad2 n1) (MonitoringScheduler.pad2 n2)
     = Nat.compare n1 n2.
Proof.
  intros b1 b2.
  assert (all : forallb (fun a =>
            forallb (fun b =>
              (String.length (MonitoringScheduler.pad2 a) =? 2)%nat
              && match String.compare (MonitoringScheduler.pad2 a)
                         (MonitoringScheduler.pad2 b),
                       Nat.compare a b with
                 | Eq, Eq | Lt, Lt | Gt, Gt => true
                 | _, _ => false
                 end) (seq 0 100)) (seq 0 100) = true).
  { vm_compute. reflexivity. }
  rewrite forallb_forall in all.
  specialize (all n1 ltac:(apply in_seq; lia)).
  rewrite forallb_forall in all.
  specialize (all n2 ltac:(apply in_seq; lia)).
  apply andb_true_iff in all as [len cmp]. apply Nat.eqb_eq in len.
  split; [exact len |].
  destruct (String.compare _ _), (Nat.compare n1 n2); congruence.
Qed.

Lemma minute_of_day_compare (h1 m1 h2 m2 : nat) :
  (m1 < 60)%nat -> (m2 < 60)%nat ->
  Nat.compare (minute_of_day h1 m1) (minute_of_day h2 m2)
  = match Nat.compare h1 h2 with
    | Eq => Nat.compare m1 m2
    | other => other
    end.
Proof.
  intros b1 b2. unfold minute_of_day.
  destruct (Nat.compare_spec h1 h2) as [-> | lt | gt].
  - destruct (Nat.compare_spec m1 m2) as [-> | lt | gt].
    + apply Nat.compare_refl.
    + apply Nat.compare_lt_iff. lia.
    + apply Nat.compare_gt_iff. lia.
  - apply Nat.compare_lt_iff. lia.
  - apply Nat.compare_gt_iff. lia.
Qed.

(** Times of day written [HH:MM], with whatever follows, are ordered as
    texts the way they are as times; between equal times what follows
    decides. *)
Lemma hhmm_compare (h1 m1 h2 m2 : nat) (x y : string) :
  (h1 < 24)%nat -> (m1 < 60)%nat -> (h2 < 24)%nat -> (m2 < 60)%nat ->
  String.compare (hhmm h1 m1 ++ x) (hhmm h2 m2 ++ y)
  = match Nat.compare (minute_of_day h1 m1) (minute_of_day h2 m2) with
    | Eq => String.compare x y
    | other => other
    end.
Proof.
  intros bh1 bm1 bh2 bm2. unfold hhmm.
  destruct (pad2_facts h1 h2) as [lh ch]; [lia | lia |].
  destruct (pad2_facts m1 m2) as [lm cm]; [lia | lia |].
  destruct (pad2_facts h2 m2) as [lh2 _]; [lia | lia |].
  destruct (pad2_facts m2 m2) as [lm2 _]; [lia | lia |].
  rewrite !string_append_assoc.
  rewrite string_compare_append by congruence.
  rewrite ch, minute_of_day_compare by assumption.
  destruct (Nat.compare h1 h2); try reflexivity.
  simpl. rewrite string_compare_append by congruence.
  rewrite cm. reflexivity.
Qed.

End TextOrder.

Section ActiveHours.
Variable rt : Runtime.
Variable out : Outside.

Import MonitoringScheduler.

Lemma isWithinActiveHours_value (userId : Z) (w : Io.World) :
  isWithinActiveHours out userId w
  = (Ok match preferences_of userId w with
        | [] => true
        | row :: _ => String.leb (wake_time row) (currentTime out)
                      && String.leb (currentTime out) (sleep_time row)
        end, w).
Proof.
  unfold isWithinActiveHours, preferences_of, Io.bind, Io.read, Io.ret.
  destruct (filter _ (Io.ai_preferences w)); reflexivity.
Qed.

(** For times written [HH:MM], with or without something after the
    minutes, the comparison of texts is a comparison of minutes of the
    day. *)
Lemma isWithinActiveHours_minutes (userId : Z) (w : Io.World)
    (row : PreferencesRow) (rest : list PreferencesRow) (wh wm sh sm : nat)
    (after_wake after_sleep : string) :
  preferences_of userId w = row :: rest ->
  wake_time row = (hhmm wh wm ++ after_wake)%string ->
  sleep_time row = (hhmm sh sm ++ after_sleep)%string ->
  (wh < 24 /\ wm < 60)%nat ->
  (sh < 24 /\ sm < 60)%nat ->
  (now_hours out < 24 /\ now_minutes out < 60)%nat ->
  isWithinActiveHours out userId w
  = (Ok ((if (after_wake =? "")%string
          then (minute_of_day wh wm
                <=? minute_of_day (now_hours out) (now_minutes out))%nat
          else (minute_of_day wh wm
                <? minute_of_day (now_hours out) (now_minutes out))%nat)
         && (minute_of_day (now_hours out) (now_minutes out)
             <=? minute_of_day sh sm)%nat), w).
Proof.
  intros has_row wake sleep wake_ok sleep_ok clock_ok.
  rewrite isWithinActiveHours_value, has_row, wake, sleep.
  destruct wake_ok, sleep_ok, clock_ok.
  change (currentTime out) with (hhmm (now_hours out) (now_minutes out)).
  rewrite <- (string_append_empty (hhmm (now_hours out) (now_minutes out))).
  unfold String.leb. rewrite !hhmm_compare by assumption.
  generalize (minute_of_day wh wm) as W.
  generalize (minute_of_day sh sm) as S'.
  generalize (minute_of_day (now_hours out) (now_minutes out)) as N.
  intros N S' W.
  assert (first : match match Nat.compare W N with
                        | Eq => String.compare after_wake ""
                        | other => other
                        end with
                  | Gt => false
                  | _ => true
                  end
                  = if (after_wake =? "")%string
                    then (W <=? N)%nat else (W <? N)%nat).
  { destruct (Nat.compare_spec W N) as [same | lt | gt].
    - subst N. rewrite Nat.leb_refl, Nat.ltb_irrefl.
      destruct after_wake; reflexivity.
    - apply Nat.ltb_lt in lt as lt'. apply Nat.lt_le_incl, Nat.leb_le in lt.
      rewrite lt, lt'. destruct (after_wake =? ""); reflexivity.
    - apply Nat.ltb_ge in gt as ge.
      assert (ge' : (W <? N)%nat = false) by (apply Nat.ltb_ge; lia).
      apply Nat.leb_gt in gt. rewrite gt, ge'.
      destruct (after_wake =? ""); reflexivity. }
  assert (second : match match Nat.compare N S' with
                         | Eq => String.compare "" after_sleep
                         | other => other
                         end with
                   | Gt => false
                   | _ => true
                   end = (N <=? S')%nat).
  { destruct (Nat.compare_spec N S') as [same | lt | gt].
    - subst S'. rewrite Nat.leb_refl. destruct after_sleep; reflexivity.
    - apply Nat.lt_le_incl, Nat.leb_le in lt. rewrite lt. reflexivity.
    - apply Nat.leb_gt in gt. rewrite gt. reflexivity. }
  rewrite first, second. reflexivity.
Qed.





(** An item not yet stored is stored with the score and the category of
    its classification. *)
Lemma process_stores_classification (userId : Z) (source : Source) (item : Item)
    (w w1 : Io.World) (c : MessageClassifier.ClassificationResult) :
  isMessageStored userId source (item_id item) w = (Ok false, w) ->
  MessageClassifier.classify rt out w = (Ok c, w1) ->
  exists w' row,
    process rt out userId source item w = (Ok tt, w')
    /\ Io.monitored_messages w' = Io.monitored_messages w1 ++ [row]
    /\ importance_score row = MessageClassifier.score c
    /\ classification row = MessageClassifier.category c.
Proof.
  intros fresh classified.
  unfold process, Io.try_catch. unfold Io.bind at 1. rewrite fresh.
  unfold Io.bind. rewrite classified.
  unfold storeMessage, Io.write. simpl.
  eexists. eexists. split; [reflexivity |]. simpl. auto.
Qed.





End ActiveHours.



(** ** Which goal a log or a reminder is for *)

Section Resolution.
Variable rt : Runtime.
Variable out : Outside.

Lemma createReminder_never_throws
    (params : ReminderCreator.CreateReminderParams) (w : Io.World) :
  exists result w',
    ReminderCreator.createReminder rt out params w = (Ok result, w').
Proof.
  unfold ReminderCreator.createReminder.
  unfold Io.bind at 1. unfold Io.emit. unfold Io.try_catch.
  match goal with |- context [match ?c ?x with _ => _ end] =>
    destruct (c x) as [[a | e] w'] end; unfold Io.ret; eauto.
Qed.

(** C7, as the code has it.  When the supplied keyword matches a goal,
    CreateReminder and CreateLog both take that goal.  When no keyword is
    supplied, or the keyword matches no goal, CreateReminder takes the first
    active goal if there is one, however many there are, where CreateLog
    asks which goal is meant (for an unmatched keyword, and for no keyword
    with more than one active goal); with no active goal CreateReminder
    returns, without throwing, the failure that asks for a goal to be
    created first. *)
Theorem reminder_goal_resolution (keyword : Js.value) (w w1 w2 : Io.World)
    (allGoals : list Goal) :
  (forall g,
      Js.truthy keyword = true ->
      DayTrackerAPI.findGoalByKeyword out keyword w = (Ok (Some g), w1) ->
      ReminderCreator.resolveGoal out keyword w = (Ok (inl g), w1)
      /\ DailyLogCreator.resolveGoal rt out keyword w = (Ok (inl g), w1))
  /\ ((Js.truthy keyword = false /\ w1 = w)
      \/ (Js.truthy keyword = true
          /\ DayTrackerAPI.findGoalByKeyword out keyword w = (Ok None, w1)) ->
      DayTrackerAPI.getGoals out w1 = (Ok allGoals, w2) ->
      ReminderCreator.resolveGoal out keyword w
      = (Ok match filter isActive allGoals with
            | [] => inr ReminderCreator.no_active_goals
            | first :: _ => inl first
            end, w2)
      /\ (forall first second others,
            filter isActive allGoals = first :: second :: others ->
            exists ask,
              DailyLogCreator.resolveGoal rt out keyword w = (Ok (inr ask), w2)
              /\ DailyLogCreator.needsGoalSelection ask = true)
      /\ (forall first others,
            Js.truthy keyword = true ->
            filter isActive allGoals = first :: others ->
            exists ask,
              DailyLogCreator.resolveGoal rt out keyword w = (Ok (inr ask), w2)
              /\ DailyLogCreator.needsGoalSelection ask = true))
  /\ (forall title description plannedDate token w0 w',
        ReminderCreator.resolveGoal out keyword
          (entered reminderCreator token w0)
        = (Ok (inr ReminderCreator.no_active_goals), w') ->
        ReminderCreator.createReminder rt out
          (ReminderCreator.mkParams title description plannedDate keyword token)
          w0
        = (Ok ReminderCreator.no_active_goals, w')
        /\ ReminderCreator.success ReminderCreator.no_active_goals = false)
  /\ (forall params w0, exists result w',
        ReminderCreator.createReminder rt out params w0 = (Ok result, w')).
Proof.
  split; [| split; [| split]].
  - intros g given found.
    unfold ReminderCreator.resolveGoal, DailyLogCreator.resolveGoal.
    rewrite given. unfold Io.bind. rewrite found. split; reflexivity.
  - intros lookup fetched.
    assert (first_step :
      (if Js.truthy keyword
       then DayTrackerAPI.findGoalByKeyword out keyword
       else Io.ret None) w = (Ok None, w1)).
    { destruct lookup as [[-> ->] | [-> ->]]; reflexivity. }
    split; [| split].
    + unfold ReminderCreator.resolveGoal. unfold Io.bind at 1.
      rewrite first_step. unfold Io.bind. rewrite fetched.
      destruct (filter isActive allGoals); reflexivity.
    + intros first second others several.
      unfold DailyLogCreator.resolveGoal.
      destruct lookup as [[-> ->] | [-> unmatched]].
      * unfold Io.bind. rewrite fetched, several. eexists. split; reflexivity.
      * unfold Io.bind at 1. rewrite unmatched. unfold Io.bind.
        rewrite fetched, several. eexists. split; reflexivity.
    + intros first others given some.
      unfold DailyLogCreator.resolveGoal. rewrite given.
      destruct lookup as [[no _] | [_ unmatched]]; [congruence |].
      unfold Io.bind at 1. rewrite unmatched. unfold Io.bind.
      rewrite fetched, some. eexists. split; reflexivity.
  - intros title description plannedDate token w0 w' none.
    split; [| reflexivity].
    unfold ReminderCreator.createReminder. simpl.
    unfold Io.bind at 1. unfold Io.emit. unfold Io.try_catch.
    unfold Io.bind at 1. unfold DayTrackerAPI.setAuthToken, Io.write. simpl.
    unfold Io.bind at 1. unfold entered in none. rewrite none. reflexivity.
  - intros. apply createReminder_never_throws.
Qed.

End Resolution.

(** A keyword that matches no goal: CreateLog asks which goal is meant,
    CreateReminder takes the first active goal. *)
Lemma unmatched_keyword_resolved_differently :
  exists w',
    DayTrackerAPI.findGoalByKeyword
      (Scenario.outside Scenario.unavailable Scenario.three_goals 12 0)
      (Js.JStr "piano") Scenario.fresh
    = (Ok None, w')
    /\ (exists ask w'',
          DailyLogCreator.resolveGoal Scenario.runtime
            (Scenario.outside Scenario.unavailable Scenario.three_goals 12 0)
            (Js.JStr "piano") Scenario.fresh
          = (Ok (inr ask), w'')
          /\ DailyLogCreator.needsGoalSelection ask = true)
    /\ (exists w'',
          ReminderCreator.resolveGoal
            (Scenario.outside Scenario.unavailable Scenario.three_goals 12 0)
            (Js.JStr "piano") Scenario.fresh
          = (Ok (inl (Scenario.goal 1 "Learn Guitar" true)), w'')).
Proof.
  eexists. split; [reflexivity |]. split.
  - eexists. eexists. split; reflexivity.
  - eexists. reflexivity.
Qed.

Lemma reminder_goal_resolution_witness :
  ReminderCreator.resolveGoal
    (Scenario.outside Scenario.unavailable Scenario.three_goals 12 0)
    (Js.JStr "guitar") Scenario.fresh
  = (Ok (inl (Scenario.goal 1 "Learn Guitar" true)),
     Io.mkWorld None [Http GetGoals] [] [] [])
  /\ DailyLogCreator.resolveGoal Scenario.runtime
       (Scenario.outside Scenario.unavailable Scenario.three_goals 12 0)
       (Js.JStr "guitar") Scenario.fresh
     = (Ok (inl (Scenario.goal 1 "Learn Guitar" true)),
        Io.mkWorld None [Http GetGoals] [] [] []).
Proof.
  apply (proj1 (reminder_goal_resolution Scenario.runtime
           (Scenario.outside Scenario.unavailable Scenario.three_goals 12 0)
           (Js.JStr "guitar") Scenario.fresh
           (Io.mkWorld None [Http GetGoals] [] [] [])
           (Io.mkWorld None [Http GetGoals] [] [] []) Scenario.three_goals));
    reflexivity.
Defined.

(** Without a keyword and with three active goals, CreateLog asks and
    CreateReminder takes the first. *)
Example no_keyword_three_goals :
  (exists ask w',
     DailyLogCreator.resolveGoal Scenario.runtime
       (Scenario.outside Scenario.unavailable Scenario.three_goals 12 0)
       Js.JUndefined Scenario.fresh
     = (Ok (inr ask), w')
     /\ DailyLogCreator.message ask = "Which goal should I log this for?")
  /\ (exists w',
        ReminderCreator.resolveGoal
          (Scenario.outside Scenario.unavailable Scenario.three_goals 12 0)
          Js.JUndefined Scenario.fresh
        = (Ok (inl (Scenario.goal 1 "Learn Guitar" true)), w')).
Proof.
  split; [eexists; eexists; split; reflexivity | eexists; reflexivity].
Qed.

(** With no goal at all a reminder is refused with a message, not an
    exception, after one look at the goals and no log posted. *)
Example reminder_without_goals :
  ReminderCreator.createReminder Scenario.runtime
    (Scenario.outside Scenario.unavailable [] 12 0)
    (ReminderCreator.mkParams (Js.JStr "Call the dentist") Js.JUndefined
       (Js.JStr "2025-12-05T14:00:00Z") Js.JUndefined "jwt")
    Scenario.fresh
  = (Ok ReminderCreator.no_active_goals,
     Io.mkWorld (Some "jwt") [Invoked reminderCreator; Http GetGoals] [] [] []).
Proof. reflexivity. Qed.

(** ** The two phases of [findGoalByKeyword] *)

(** C5, as the code has it, for a keyword and titles of ASCII
    characters.  Over the goals fetched, [findGoalByKeyword] works in two
    phases: the first goal, in list order, whose lower-cased title contains
    the lower-cased, trimmed keyword or is contained in it; and, only when
    there is none, the goal of greatest Jaccard similarity, returned when
    that similarity is strictly above 0.5 and [null] otherwise.  The words
    compared are the pieces between single space characters, so that two
    spaces in a row make an empty word.  Against Learn Guitar, AI Assistant
    Project and Fitness Challenge the keyword AI project finds AI Assistant
    Project. *)
Theorem findGoalByKeyword_two_phases (out : Outside) (keyword : string)
    (w w' : Io.World) (goals : list Goal)
    (fetched : DayTrackerAPI.getGoals out w = (Ok goals, w'))
    (plain_keyword : plain keyword = true)
    (plain_goals : plain_titles goals = true) :
  DayTrackerAPI.findGoalByKeyword out (Js.JStr keyword) w
  = (Ok (Described.twoPhase Described.pieces goals keyword), w')
  /\ DayTrackerAPI.findGoalByKeyword
       (Scenario.outside Scenario.unavailable Scenario.three_goals 12 0)
       (Js.JStr "AI project") Scenario.fresh
     = (Ok (Some (Scenario.goal 2 "AI Assistant Project" true)),
        Io.mkWorld None [Http GetGoals] [] [] []).
Proof.
  split; [| reflexivity].
  unfold DayTrackerAPI.findGoalByKeyword, Io.bind. rewrite fetched.
  destruct goals as [| g rest]; [reflexivity |].
  unfold Io.ret. rewrite matchGoal_twoPhase. reflexivity.
Qed.

(** With two spaces between its words the keyword finds nothing, where
    the words of the two texts would have matched. *)
Lemma double_space_defeats_matching :
  DayTrackerAPI.findGoalByKeyword
    (Scenario.outside Scenario.unavailable Scenario.three_goals 12 0)
    (Js.JStr "AI  project") Scenario.fresh
  = (Ok None, Io.mkWorld None [Http GetGoals] [] [] [])
  /\ Described.twoPhase Described.words Scenario.three_goals "AI  project"
     = Some (Scenario.goal 2 "AI Assistant Project" true)
  /\ DayTrackerAPI.calculateSimilarity "ai  project" "ai assistant project"
     = (2 # 4)%Q
  /\ Described.jaccard Described.words "ai  project" "ai assistant project"
     = (2 # 3)%Q.
Proof. repeat split. Qed.

Lemma findGoalByKeyword_two_phases_witness :
  DayTrackerAPI.findGoalByKeyword
    (Scenario.outside Scenario.unavailable Scenario.three_goals 12 0)
    (Js.JStr "fitness") Scenario.fresh
  = (Ok (Described.twoPhase Described.pieces Scenario.three_goals "fitness"),
     Io.mkWorld None [Http GetGoals] [] [] []).
Proof.
  apply (proj1 (findGoalByKeyword_two_phases
           (Scenario.outside Scenario.unavailable Scenario.three_goals 12 0)
           "fitness" Scenario.fresh (Io.mkWorld None [Http GetGoals] [] [] [])
           Scenario.three_goals eq_refl eq_refl eq_refl)).
Defined.

(* ================================================================== *)
(** * Part III: further properties of the code                         *)
(* ================================================================== *)

(** ** The similarity measure *)

Section SimilarityFacts.

Lemma split_not_empty (sep : ascii) (s : string) : Js.split sep s <> [].
Proof.
  induction s as [| c s IH]; simpl; [discriminate |].
  destruct (Ascii.eqb c sep); [discriminate |].
  destruct (Js.split sep s); discriminate.
Qed.

Lemma Set_of_not_empty (l : list string) : l <> [] -> Js.Set_of l <> [].
Proof.
  destruct l as [| x l]; [congruence |]. intros _ E.
  assert (In x (Js.Set_of (x :: l))) as H by (apply Set_of_In; now left).
  rewrite E in H. exact H.
Qed.

Lemma Zpos_of_nat (d : nat) : d <> 0%nat -> Zpos (Pos.of_nat d) = Z.of_nat d.
Proof.
  intros H. rewrite <- positive_nat_Z, Nat2Pos.id by exact H. reflexivity.
Qed.

Lemma words_size (s : string) :
  List.length (Js.Set_of (Js.split " " s)) <> 0%nat.
Proof.
  intros E. apply length_zero_iff_nil in E.
  exact (Set_of_not_empty _ (split_not_empty _ s) E).
Qed.

Lemma union_size (W1 W2 : list string) :
  W1 <> [] -> List.length (Js.Set_of (W1 ++ W2)) <> 0%nat.
Proof.
  intros H E. apply length_zero_iff_nil in E.
  apply (Set_of_not_empty (W1 ++ W2)); [| exact E].
  destruct W1; [congruence | discriminate].
Qed.

(** X1.  The similarity of two texts lies between 0 and 1. *)
Theorem calculateSimilarity_range (a b : string) :
  (0 <= DayTrackerAPI.calculateSimilarity a b <= 1)%Q.
Proof.
  unfold DayTrackerAPI.calculateSimilarity.
  set (W1 := Js.Set_of (Js.split " " a)).
  set (W2 := Js.Set_of (Js.split " " b)).
  assert (nonempty : W1 <> []).
  { apply Set_of_not_empty, split_not_empty. }
  pose proof (union_size W1 W2 nonempty) as pos.
  assert (le : (List.length (Js.Set_of (filter (Js.has W2) W1))
                <= List.length (Js.Set_of (W1 ++ W2)))%nat).
  { apply NoDup_incl_length; [apply Set_of_NoDup |].
    intros x Hx. rewrite Set_of_In, filter_In in Hx. destruct Hx as [Hx _].
    rewrite Set_of_In. apply in_or_app. now left. }
  unfold Qle. simpl. rewrite (Zpos_of_nat _ pos). lia.
Qed.

(** X2.  The similarity of a text with itself is 1. *)
Theorem calculateSimilarity_self (a : string) :
  (DayTrackerAPI.calculateSimilarity a a == 1)%Q.
Proof.
  unfold DayTrackerAPI.calculateSimilarity.
  set (W := Js.Set_of (Js.split " " a)).
  assert (inter : List.length (Js.Set_of (filter (Js.has W) W)) = List.length W).
  { apply same_members_same_size; [apply Set_of_NoDup | apply Set_of_NoDup |].
    intros x. rewrite Set_of_In, filter_In, has_In. tauto. }
  assert (union : List.length (Js.Set_of (W ++ W)) = List.length W).
  { apply same_members_same_size; [apply Set_of_NoDup | apply Set_of_NoDup |].
    intros x. rewrite Set_of_In, in_app_iff. tauto. }
  rewrite inter, union. unfold Qeq. simpl.
  pose proof (words_size a) as pos. fold W in pos.
  rewrite (Zpos_of_nat _ pos). lia.
Qed.

End SimilarityFacts.

(** ** What the matcher returns *)

Section MatcherFacts.

Lemma includes_empty (s : string) : Js.includes s "" = true.
Proof. destruct s; reflexivity. Qed.

(** X3.  For a keyword and titles of ASCII characters, a goal returned by
    the matcher is one of the goals searched, and it is returned for a
    reason: its lower-cased title contains the lower-cased, trimmed keyword
    or is contained in it, or its similarity with the keyword is above one
    half. *)
Theorem matchGoal_sound (goals : list Goal) (keyword : string) (g : Goal)
    (plain_keyword : plain keyword = true)
    (plain_goals : plain_titles goals = true)
    (found : DayTrackerAPI.matchGoal goals keyword = Some g) :
  In g goals
  /\ (Described.substring_match (Js.trim (Js.toLowerCase keyword))
        (Js.toLowerCase (title g)) = true
      \/ (1 # 2 < DayTrackerAPI.calculateSimilarity
                    (Js.trim (Js.toLowerCase keyword))
                    (Js.toLowerCase (title g)))%Q).
Proof.
  rewrite matchGoal_twoPhase in found. unfold Described.twoPhase in found.
  destruct (find _ goals) as [g1 |] eqn:phase1.
  - injection found as <-. apply find_some in phase1 as [Hin Hm]. auto.
  - destruct (Described.best _ goals) as [b |] eqn:phase2; [| discriminate].
    destruct (Qle_bool _ (1 # 2)) eqn:cmp; simpl in found; [discriminate |].
    injection found as <-.
    apply best_is_greatest in phase2 as [Hin _]. split; [exact Hin |].
    right. rewrite calculateSimilarity_jaccard.
    apply Qnot_le_lt. intros le. apply Qle_bool_iff in le. congruence.
Qed.

(** X4.  For a keyword and titles of ASCII characters: when the
    lower-cased title of some goal contains the lower-cased, trimmed keyword
    or is contained in it, the matcher returns a goal, and one that matches
    the keyword in that way: the similarity of the words plays no part. *)
Theorem matchGoal_substring_hit (goals : list Goal) (keyword : string) (g : Goal)
    (plain_keyword : plain keyword = true)
    (plain_goals : plain_titles goals = true)
    (listed : In g goals)
    (contained : Described.substring_match (Js.trim (Js.toLowerCase keyword))
                   (Js.toLowerCase (title g)) = true) :
  exists g',
    DayTrackerAPI.matchGoal goals keyword = Some g'
    /\ In g' goals
    /\ Described.substring_match (Js.trim (Js.toLowerCase keyword))
         (Js.toLowerCase (title g')) = true.
Proof.
  unfold DayTrackerAPI.matchGoal.
  destruct (find _ goals) as [g' |] eqn:phase1.
  - exists g'. apply find_some in phase1 as [Hin Hm]. auto.
  - exfalso. apply (find_none _ _ phase1) in listed.
    unfold Described.substring_match in contained. simpl in listed.
    rewrite contained in listed. discriminate.
Qed.

(** X5.  A keyword that is empty once trimmed matches the first goal of a
    non-empty list, whatever its title. *)
Theorem matchGoal_blank_keyword (first : Goal) (others : list Goal)
    (keyword : string)
    (blank : Js.trim (Js.toLowerCase keyword) = "") :
  DayTrackerAPI.matchGoal (first :: others) keyword = Some first.
Proof.
  unfold DayTrackerAPI.matchGoal. rewrite blank. simpl.
  rewrite includes_empty. reflexivity.
Qed.

End MatcherFacts.

Lemma matchGoal_sound_witness :
  In (Scenario.goal 3 "Fitness Challenge" true) Scenario.three_goals
  /\ (Described.substring_match (Js.trim (Js.toLowerCase "Fitness"))
        (Js.toLowerCase (title (Scenario.goal 3 "Fitness Challenge" true)))
      = true
      \/ (1 # 2 < DayTrackerAPI.calculateSimilarity
                    (Js.trim (Js.toLowerCase "Fitness"))
                    (Js.toLowerCase
                       (title (Scenario.goal 3 "Fitness Challenge" true))))%Q).
Proof.
  apply (matchGoal_sound Scenario.three_goals "Fitness"); reflexivity.
Defined.

Lemma matchGoal_substring_hit_witness :
  exists g',
    DayTrackerAPI.matchGoal Scenario.three_goals " GUITAR " = Some g'
    /\ In g' Scenario.three_goals
    /\ Described.substring_match (Js.trim (Js.toLowerCase " GUITAR "))
         (Js.toLowerCase (title g')) = true.
Proof.
  apply (matchGoal_substring_hit Scenario.three_goals " GUITAR "
           (Scenario.goal 1 "Learn Guitar" true)).
  - reflexivity.
  - reflexivity.
  - simpl. auto.
  - reflexivity.
Defined.

Lemma matchGoal_blank_keyword_witness :
  DayTrackerAPI.matchGoal
    (Scenario.goal 1 "Learn Guitar" true
       :: [Scenario.goal 2 "AI Assistant Project" true])
    "   "
  = Some (Scenario.goal 1 "Learn Guitar" true).
Proof.
  apply (matchGoal_blank_keyword (Scenario.goal 1 "Learn Guitar" true)
           [Scenario.goal 2 "AI Assistant Project" true] "   ").
  reflexivity.
Defined.

(** ** The score of a classification *)

Section ScoreFacts.
Variable rt : Runtime.
Variable out : Outside.

Import IntentService MessageClassifier.

Lemma clamp_range (x : Js.number) (s : Q) :
  Js.Math_max (Js.Fin 1) (Js.Math_min (Js.Fin 10) x) = Js.Fin s ->
  (1 <= s <= 10)%Q.
Proof.
  destruct x as [| q]; simpl; [discriminate |]. intros [= <-].
  split; [apply Q.le_max_l |].
  apply Q.max_lub; [discriminate | apply Q.le_min_l].
Qed.

Lemma parse_score_range (response : string) (s : Q) :
  score (parseClassificationResponse rt response) = Js.Fin s ->
  (1 <= s <= 10)%Q.
Proof.
  unfold parseClassificationResponse, parse.
  destruct (JSON_parse rt (strip_fences response)) as [parsed |]; simpl.
  - unfold classification_of, get_prop.
    destruct (Js.get parsed "score") as [v |]; simpl.
    + destruct (Js.get parsed "category") as [v' |]; simpl.
      * destruct (Js.get parsed "reasoning"); simpl; [apply clamp_range |].
        intros [= <-]. split; discriminate.
      * intros [= <-]. split; discriminate.
    + intros [= <-]. split; discriminate.
  - intros [= <-]. split; discriminate.
Qed.

(** X6.  Whatever the model answers, a score that [classify] returns as a
    number lies between 1 and 10. *)
Theorem classify_score_range (w w' : Io.World) (r : ClassificationResult)
    (s : Q)
    (classified : classify rt out w = (Ok r, w'))
    (finite : score r = Js.Fin s) :
  (1 <= s <= 10)%Q.
Proof.
  destruct (classify_cases rt out w) as [r0 [w0 [run [E | [response E]]]]];
    rewrite run in classified; injection classified as <- <-; subst r0.
  - injection finite as <-. split; discriminate.
  - exact (parse_score_range response s finite).
Qed.

(** X7.  A response that parses to an object without a score is given the
    score NaN, not a default; with no usable category of its own it is
    filed under low. *)
Theorem score_missing (response : string) (props : list (string * Js.value))
    (parses : JSON_parse rt (strip_fences response) = Some (Js.JObj props))
    (missing : Js.lookup "score" props = Js.JUndefined) :
  score (parseClassificationResponse rt response) = Js.NaN
  /\ (model_category rt response = None ->
      category (parseClassificationResponse rt response) = low).
Proof.
  assert (nan : score (parseClassificationResponse rt response) = Js.NaN).
  { unfold parseClassificationResponse, parse. rewrite parses. simpl.
    rewrite missing. reflexivity. }
  split; [exact nan |].
  intros none.
  pose proof (parseClassificationResponse_category rt response) as H.
  rewrite none in H. rewrite H, nan. reflexivity.
Qed.

End ScoreFacts.

Lemma classify_score_range_witness :
  MessageClassifier.classify Scenario.runtime
    (Scenario.outside (Scenario.says Scenario.fifteen_text) [] 12 0)
    Scenario.fresh
  = (Ok (MessageClassifier.mkResult (Js.Fin 10) high
           (Js.JStr "No reasoning provided")), Scenario.asked)
  /\ (1 <= 10 <= 10)%Q.
Proof.
  split; [reflexivity |].
  apply (classify_score_range Scenario.runtime
           (Scenario.outside (Scenario.says Scenario.fifteen_text) [] 12 0)
           Scenario.fresh Scenario.asked
           (MessageClassifier.mkResult (Js.Fin 10) high
              (Js.JStr "No reasoning provided")) 10);
    reflexivity.
Defined.

Lemma score_missing_witness :
  MessageClassifier.score
    (MessageClassifier.parseClassificationResponse Scenario.runtime
       Scenario.chat_text) = Js.NaN
  /\ (model_category Scenario.runtime Scenario.chat_text = None ->
      MessageClassifier.category
        (MessageClassifier.parseClassificationResponse Scenario.runtime
           Scenario.chat_text) = low).
Proof.
  apply (score_missing Scenario.runtime Scenario.chat_text
           [("intent", Js.JStr "chat"); ("entities", Js.JObj []);
            ("confidence", Js.JNum 1)]);
    reflexivity.
Defined.

(** ** The confidence thresholds *)

Lemma Qle_bool_false (x y : Q) : Qle_bool x y = false <-> (y < x)%Q.
Proof.
  split.
  - intros H. apply Qnot_le_lt. intros le. apply Qle_bool_iff in le. congruence.
  - intros lt. destruct (Qle_bool x y) eqn:E; [| reflexivity].
    apply Qle_bool_iff in E. exfalso. exact (Qlt_not_le _ _ lt E).
Qed.

(** Turns the boolean comparisons of the context into inequalities. *)
Ltac q_compare :=
  repeat match goal with
    | H : Qle_bool _ _ = true |- _ => apply Qle_bool_iff in H
    | H : Qle_bool _ _ = false |- _ => apply Qle_bool_false in H
    | H : negb _ = true |- _ => apply negb_true_iff in H
    | H : negb _ = false |- _ => apply negb_false_iff in H
    | H : _ && _ = true |- _ => apply andb_true_iff in H; destruct H
    end.

Section Thresholds.
Variable rt : Runtime.

Import IntentService IntentPolicy.

(** X8.  With a confirmation threshold no greater than the auto-execute
    threshold, no result is both auto-executed and in need of confirmation,
    and a confidence from the confirmation threshold up to the auto-execute
    threshold is neither.  A threshold that is no number switches its test
    off. *)
Theorem thresholds_policy (auto confirm : Q) (r : IntentAnalysisResult) :
  ((confirm <= auto)%Q ->
     shouldAutoExecute rt (Js.Fin auto) r = true ->
     needsConfirmation rt (Js.Fin confirm) r = false)
  /\ (forall q, toNumber rt (confidence r) = Js.Fin q ->
        (confirm <= q < auto)%Q ->
        shouldAutoExecute rt (Js.Fin auto) r = false
        /\ needsConfirmation rt (Js.Fin confirm) r = false)
  /\ shouldAutoExecute rt Js.NaN r = false
  /\ needsConfirmation rt Js.NaN r = false.
Proof.
  unfold shouldAutoExecute, needsConfirmation, Js.geb, Js.ltb, Js.leb.
  destruct (toNumber rt (confidence r)) as [| c]; simpl.
  - repeat split; intros; try discriminate.
  - repeat split; try reflexivity.
    + intros order yes. q_compare.
      apply andb_false_iff. left. apply negb_false_iff, Qle_bool_iff. lra.
    + injection H as <-. apply Qle_bool_false. lra.
    + injection H as <-. apply andb_false_iff. left.
      apply negb_false_iff, Qle_bool_iff. lra.
Qed.

End Thresholds.

Lemma thresholds_policy_witness :
  IntentPolicy.shouldAutoExecute Scenario.runtime (Js.Fin (9 # 10))
    Scenario.status_result = false
  /\ IntentPolicy.needsConfirmation Scenario.runtime (Js.Fin (7 # 10))
       Scenario.status_result = false.
Proof.
  apply (proj1 (proj2 (thresholds_policy Scenario.runtime (9 # 10) (7 # 10)
                         Scenario.status_result)) (7 # 8)%Q).
  - reflexivity.
  - split; [discriminate | reflexivity].
Defined.

(** ** How often the model is called *)

Section RetryBound.
Variable out : Outside.

Lemma retry_calls (k : nat) (w : Io.World) :
  exists n,
    (1 <= n <= S k)%nat
    /\ snd (Gemini.retry out k w)
       = Io.mkWorld (Io.authToken w) (Io.trace w ++ repeat Generated n)
           (Io.ai_preferences w) (Io.monitored_messages w)
           (Io.message_feedback w).
Proof.
  revert w. induction k as [| k IH]; intros w; simpl;
    unfold Gemini.generateContent, Io.bind, Io.ask, Io.emit, Io.ret, Io.throw;
    simpl.
  - exists 1%nat. split; [lia |].
    destruct (generateContent_result out (Io.trace w)); reflexivity.
  - destruct (generateContent_result out (Io.trace w)) as [text | e].
    + exists 1%nat. split; [lia | reflexivity].
    + destruct (Gemini.transient e).
      * match goal with |- context [Gemini.retry out k ?w1] =>
          destruct (IH w1) as [n [bound E]] end.
        exists (S n). split; [lia |]. rewrite E. simpl.
        rewrite <- app_assoc. reflexivity.
      * exists 1%nat. split; [lia | reflexivity].
Qed.

(** X9.  One call of [generateContentWithRetry] calls the model at least
    once and at most four times, and does nothing else to the world. *)
Theorem generateContentWithRetry_bounded (w : Io.World) :
  exists n,
    (1 <= n <= 4)%nat
    /\ snd (Gemini.generateContentWithRetry out w)
       = Io.mkWorld (Io.authToken w) (Io.trace w ++ repeat Generated n)
           (Io.ai_preferences w) (Io.monitored_messages w)
           (Io.message_feedback w).
Proof. apply (retry_calls Gemini.maxRetries w). Qed.

End RetryBound.

(** ** What a monitoring cycle does to the store *)

Section Keeps.
Context {A : Type} (I : Io.World -> Prop).

Lemma keeps_ret (a : A) : keeps I (Io.ret a).
Proof. intros w H. exact H. Qed.

Lemma keeps_throw (e : Error) : keeps I (@Io.throw A e).
Proof. intros w H. exact H. Qed.

Lemma keeps_lift (x : Exc A) : keeps I (Io.lift x).
Proof. intros w H. exact H. Qed.

Lemma keeps_ask (f : list Event -> A) : keeps I (Io.ask f).
Proof. intros w H. exact H. Qed.

Lemma keeps_read (f : Io.World -> A) : keeps I (Io.read f).
Proof. intros w H. exact H. Qed.

Lemma keeps_bind {B : Type} (c : Io.M B) (k : B -> Io.M A) :
  keeps I c -> (forall b, keeps I (k b)) -> keeps I (Io.bind c k).
Proof.
  intros Hc Hk w H. unfold Io.bind. specialize (Hc w H).
  destruct (c w) as [[b | e] w1]; simpl in *; [apply Hk, Hc | exact Hc].
Qed.

Lemma keeps_try_catch (body : Io.M A) (handler : Error -> Io.M A) :
  keeps I body -> (forall e, keeps I (handler e)) ->
  keeps I (Io.try_catch body handler).
Proof.
  intros Hb Hh w H. unfold Io.try_catch. specialize (Hb w H).
  destruct (body w) as [[a | e] w1]; simpl in *; [exact Hb | apply Hh, Hb].
Qed.

End Keeps.

Lemma keeps_emit (P : list PreferencesRow * list MessageRow * list FeedbackRow -> Prop)
    (ev : Event) :
  keeps (fun w => P (store w)) (Io.emit ev).
Proof. intros w H. exact H. Qed.

Ltac keeps_step :=
  first
    [ assumption
    | match goal with H : _ |- _ => apply H end
    | apply keeps_ret | apply keeps_throw | apply keeps_lift
    | apply keeps_ask | apply keeps_read
    | apply keeps_emit
    | apply keeps_bind; [| intros ?]
    | apply keeps_try_catch; [| intros ?]
    | match goal with
      | |- keeps _ (match ?x with _ => _ end) => destruct x
      end ].

Ltac keeps_all := repeat keeps_step.

Section CycleStore.
Variable rt : Runtime.
Variable out : Outside.

Import MonitoringScheduler.

Lemma retry_keeps_store (P : _ -> Prop) (n : nat) :
  keeps (fun w => P (store w)) (Gemini.retry out n).
Proof. induction n; simpl; unfold Gemini.generateContent; keeps_all. Qed.

(** Classifying reads the store and calls the model; the store stays as
    it is. *)
Lemma classify_store (w : Io.World) :
  store (snd (MessageClassifier.classify rt out w)) = store w.
Proof.
  assert (H : keeps (fun w' => store w' = store w)
                (MessageClassifier.classify rt out)).
  { unfold MessageClassifier.classify, MessageClassifier.getLearningContext,
      Gemini.generateContentWithRetry.
    pose proof (retry_keeps_store (fun s => s = store w)). keeps_all. }
  apply H. reflexivity.
Qed.

Lemma isMessageStored_value (userId : Z) (source : Source) (messageId : string)
    (w : Io.World) :
  isMessageStored userId source messageId w
  = (Ok (existsb (fun m => (msg_user_id m =? userId)%Z
                           && Source_eqb (msg_source m) source
                           && (msg_message_id m =? messageId))
                 (Io.monitored_messages w)), w).
Proof. reflexivity. Qed.

Lemma Source_eqb_eq (a b : Source) : Source_eqb a b = true <-> a = b.
Proof. destruct a, b; simpl; split; congruence. Qed.

Lemma stored_iff_key (userId : Z) (source : Source) (messageId : string)
    (rows : list MessageRow) :
  existsb (fun m => (msg_user_id m =? userId)%Z
                    && Source_eqb (msg_source m) source
                    && (msg_message_id m =? messageId)) rows = true
  <-> In (userId, source, messageId) (map message_key rows).
Proof.
  rewrite existsb_exists, in_map_iff. unfold message_key.
  split; intros [m [H1 H2]]; exists m.
  - apply andb_true_iff in H2 as [H2 H3]. apply andb_true_iff in H2 as [H2 H4].
    apply Z.eqb_eq in H2. apply Source_eqb_eq in H4. apply String.eqb_eq in H3.
    split; [congruence | exact H1].
  - injection H1 as <- <- <-. split; [exact H2 |].
    rewrite Z.eqb_refl, String.eqb_refl.
    destruct (msg_source m); reflexivity.
Qed.

(** What [process] does with one item: nothing when its key is stored,
    one row for the key otherwise.  It never throws. *)
Lemma process_effect (userId : Z) (source : Source) (item : Item) (w : Io.World) :
  exists w',
    process rt out userId source item w = (Ok tt, w')
    /\ Io.ai_preferences w' = Io.ai_preferences w
    /\ Io.message_feedback w' = Io.message_feedback w
    /\ (if existsb (fun m => (msg_user_id m =? userId)%Z
                             && Source_eqb (msg_source m) source
                             && (msg_message_id m =? item_id item))
                   (Io.monitored_messages w)
        then w' = w
        else exists row,
               Io.monitored_messages w' = Io.monitored_messages w ++ [row]
               /\ message_key row = (userId, source, item_id item)).
Proof.
  unfold process, Io.try_catch. unfold Io.bind at 1.
  rewrite isMessageStored_value.
  destruct (existsb _ (Io.monitored_messages w)) eqn:stored.
  - exists w. auto.
  - unfold Io.bind.
    destruct (classify_cases rt out w) as [c [w1 [run _]]].
    pose proof (classify_store w) as same. rewrite run in *. simpl in same.
    injection same as Hp Hm Hf.
    unfold storeMessage, Io.write. simpl.
    eexists. split; [reflexivity |]. simpl.
    repeat split; try assumption.
    eexists. split; [rewrite Hm; reflexivity | reflexivity].
Qed.

Lemma messages_added_refl (userId : Z) (source : Source) (rows : list MessageRow) :
  messages_added userId source rows rows.
Proof. exists []. rewrite app_nil_r. auto. Qed.

Lemma messages_added_trans (userId : Z) (source : Source)
    (r1 r2 r3 : list MessageRow) :
  messages_added userId source r1 r2 -> messages_added userId source r2 r3 ->
  messages_added userId source r1 r3.
Proof.
  intros [a [-> Fa]] [b [-> Fb]]. exists (a ++ b).
  rewrite app_assoc. split; [reflexivity | apply Forall_app; auto].
Qed.

Lemma keys_unique_snoc (rows : list MessageRow) (row : MessageRow) :
  keys_unique rows -> ~ In (message_key row) (map message_key rows) ->
  keys_unique (rows ++ [row]).
Proof.
  unfold keys_unique. intros U fresh. rewrite map_app. simpl.
  apply NoDup_rev in U. rewrite <- (rev_involutive (_ ++ _)).
  apply NoDup_rev. rewrite rev_app_distr. simpl.
  constructor; [rewrite <- in_rev; exact fresh | exact U].
Qed.

Lemma process_step (userId : Z) (source : Source) (item : Item) (w : Io.World) :
  exists w',
    process rt out userId source item w = (Ok tt, w')
    /\ Io.ai_preferences w' = Io.ai_preferences w
    /\ Io.message_feedback w' = Io.message_feedback w
    /\ messages_added userId source (Io.monitored_messages w)
         (Io.monitored_messages w')
    /\ (keys_unique (Io.monitored_messages w) ->
        keys_unique (Io.monitored_messages w')).
Proof.
  destruct (process_effect userId source item w) as [w' [run [Hp [Hf H]]]].
  exists w'. repeat split; try assumption.
  - destruct (existsb _ (Io.monitored_messages w)).
    + subst w'. apply messages_added_refl.
    + destruct H as [row [-> key]]. exists [row]. split; [reflexivity |].
      constructor; [| constructor]. unfold message_key in key.
      injection key as -> -> _. auto.
  - intros U. destruct (existsb _ (Io.monitored_messages w)) eqn:stored.
    + subst w'. exact U.
    + destruct H as [row [-> key]]. apply keys_unique_snoc; [exact U |].
      rewrite key. intros known. apply stored_iff_key in known. congruence.
Qed.

Lemma for_each_process (userId : Z) (source : Source) (items : list Item)
    (w : Io.World) :
  exists w',
    for_each (process rt out userId source) items w = (Ok tt, w')
    /\ Io.ai_preferences w' = Io.ai_preferences w
    /\ Io.message_feedback w' = Io.message_feedback w
    /\ messages_added userId source (Io.monitored_messages w)
         (Io.monitored_messages w')
    /\ (keys_unique (Io.monitored_messages w) ->
        keys_unique (Io.monitored_messages w')).
Proof.
  revert w. induction items as [| item rest IH]; intros w; simpl.
  - exists w. repeat split; auto. apply messages_added_refl.
  - destruct (process_step userId source item w)
      as [w1 [run [Hp [Hf [Ha Hu]]]]].
    destruct (IH w1) as [w2 [run' [Hp' [Hf' [Ha' Hu']]]]].
    exists w2. unfold Io.bind. rewrite run, run'.
    repeat split; try congruence; auto.
    eapply messages_added_trans; eassumption.
Qed.

End CycleStore.

Section CycleFacts.
Variable rt : Runtime.
Variable out : Outside.

Import MonitoringScheduler.

Lemma no_row_iff (userId : Z) (rows : list PreferencesRow) :
  existsb (fun r => (pref_user_id r =? userId)%Z) rows = false
  <-> filter (fun r => (pref_user_id r =? userId)%Z) rows = [].
Proof.
  induction rows as [| r rows IH]; simpl; [tauto |].
  destruct (pref_user_id r =? userId)%Z; simpl; [| exact IH].
  split; discriminate.
Qed.

Lemma fetch_emails_store (userId : Z) (w : Io.World) :
  store (snd (fetchRecentUnreadEmails out userId w)) = store w.
Proof.
  unfold fetchRecentUnreadEmails, Io.bind, Io.ask, Io.emit, Io.lift, Io.ret.
  destruct (fetchRecentUnreadEmails_result out (Io.trace w)); reflexivity.
Qed.

Lemma fetch_mentions_store (userId : Z) (w : Io.World) :
  store (snd (fetchRecentMentions out userId w)) = store w.
Proof.
  unfold fetchRecentMentions, Io.bind, Io.ask, Io.emit, Io.lift, Io.ret.
  destruct (fetchRecentMentions_result out (Io.trace w)); reflexivity.
Qed.

(** One cycle, whatever the source does: it ends normally, leaves the
    feedback alone, adds message rows of the user and the source only, and
    touches the preferences at most by giving the user the default row. *)
Lemma check_store (source : Source) (fetch : Io.M (list Item)) (userId : Z)
    (w : Io.World) :
  (forall w0, store (snd (fetch w0)) = store w0) ->
  exists w',
    check rt out source fetch userId w = (Ok tt, w')
    /\ Io.message_feedback w' = Io.message_feedback w
    /\ messages_added userId source (Io.monitored_messages w)
         (Io.monitored_messages w')
    /\ (keys_unique (Io.monitored_messages w) ->
        keys_unique (Io.monitored_messages w'))
    /\ (Io.ai_preferences w' = Io.ai_preferences w
        \/ Io.ai_preferences w'
           = Io.ai_preferences w ++ [default_preferences out userId])
    /\ (active_now out w userId = true ->
        (exists items, fst (fetch w) = Ok items) ->
        preferences_of userId w = [] ->
        Io.ai_preferences w'
        = Io.ai_preferences w ++ [default_preferences out userId])
    /\ ((active_now out w userId = false \/ exists e, fst (fetch w) = Throw e) ->
        store w' = store w).
Proof.
  intros Hfetch. unfold check, Io.try_catch. unfold Io.bind at 1.
  rewrite isWithinActiveHours_value. fold (active_now out w userId).
  destruct (active_now out w userId) eqn:active; simpl.
  - unfold Io.bind at 1. specialize (Hfetch w).
    destruct (fetch w) as [[items | e] w1]; simpl in Hfetch |- *.
    + injection Hfetch as Hp Hm Hf.
      destruct (for_each_process rt out userId source items w1)
        as [w2 [run [Hp' [Hf' [Ha Hu]]]]].
      unfold Io.bind. rewrite run. unfold updateLastSync, Io.write. simpl.
      eexists. split; [reflexivity |].
      rewrite Hm in Ha, Hu.
      destruct (existsb _ (Io.ai_preferences w2)) eqn:has; simpl.
      * repeat split; try congruence; auto.
        -- left. congruence.
        -- intros _ _ none. exfalso. rewrite Hp', Hp in has.
           unfold preferences_of in none. apply no_row_iff in none. congruence.
        -- intros [[=] | [e [=]]].
      * repeat split; try congruence; auto.
        -- right. rewrite Hp', Hp. reflexivity.
        -- intros _ _ _. rewrite Hp', Hp. reflexivity.
        -- intros [[=] | [e [=]]].
    + injection Hfetch as Hp Hm Hf. unfold Io.ret.
      exists w1. repeat split; auto.
      * rewrite Hm. apply messages_added_refl.
      * rewrite Hm. auto.
      * intros _ [items [=]].
      * intros _. unfold store. congruence.
  - exists w. unfold Io.ret. repeat split; auto.
    + apply messages_added_refl.
    + intros [=].
Qed.

Lemma cycle_store (source : Source) (userId : Z) (w : Io.World) :
  exists w',
    cycle rt out source userId w = (Ok tt, w')
    /\ Io.message_feedback w' = Io.message_feedback w
    /\ messages_added userId source (Io.monitored_messages w)
         (Io.monitored_messages w')
    /\ (keys_unique (Io.monitored_messages w) ->
        keys_unique (Io.monitored_messages w'))
    /\ (Io.ai_preferences w' = Io.ai_preferences w
        \/ Io.ai_preferences w'
           = Io.ai_preferences w ++ [default_preferences out userId]).
Proof.
  destruct source; unfold cycle, checkGmailForUser, checkXForUser.
  - destruct (check_store gmail (fetchRecentUnreadEmails out userId) userId w
                (fetch_emails_store userId))
      as [w' [run [Hf [Ha [Hu [Hp _]]]]]]. eauto 8.
  - destruct (check_store twitter (fetchRecentMentions out userId) userId w
                (fetch_mentions_store userId))
      as [w' [run [Hf [Ha [Hu [Hp _]]]]]]. eauto 8.
Qed.

(** X10.  A monitoring cycle always ends normally, whatever the source and
    the model do.  It leaves the feedback table and every stored message as
    they are and only adds, at the end of the messages table, rows of the
    user and the source it ran for. *)
Theorem cycle_only_adds_messages (source : Source) (userId : Z) (w : Io.World) :
  exists w',
    cycle rt out source userId w = (Ok tt, w')
    /\ Io.message_feedback w' = Io.message_feedback w
    /\ messages_added userId source (Io.monitored_messages w)
         (Io.monitored_messages w').
Proof.
  destruct (cycle_store source userId w) as [w' [run [Hf [Ha _]]]]. eauto.
Qed.

(** X11.  A monitoring cycle never stores a message twice: when no two
    stored messages share user, source and external id before the cycle,
    none do after it, even if the source returns the same item several
    times. *)
Theorem cycle_keeps_keys_unique (source : Source) (userId : Z) (w : Io.World)
    (unique : keys_unique (Io.monitored_messages w)) :
  keys_unique (Io.monitored_messages (snd (cycle rt out source userId w))).
Proof.
  destruct (cycle_store source userId w) as [w' [run [_ [_ [Hu _]]]]].
  rewrite run. apply Hu, unique.
Qed.


Lemma preferences_of_snoc (userId : Z) (w : Io.World) (rows : list PreferencesRow) :
  filter (fun r => (pref_user_id r =? userId)%Z)
         (rows ++ [default_preferences out userId])
  = filter (fun r => (pref_user_id r =? userId)%Z) rows
    ++ [default_preferences out userId].
Proof. rewrite filter_app. simpl. rewrite Z.eqb_refl. reflexivity. Qed.

(** X13.  The first Gmail cycle whose fetch succeeds for a user without a
    preferences row gives the user the row of the schema defaults: after
    it the user has exactly that row, so that from then on the hours 08:00
    to 21:00 decide whether a cycle runs. *)
Theorem first_cycle_creates_preferences (userId : Z) (w : Io.World)
    (emails : list Email)
    (no_row : preferences_of userId w = [])
    (fetched : fetchRecentUnreadEmails_result out (Io.trace w) = Ok emails) :
  preferences_of userId (snd (checkGmailForUser rt out userId w))
  = [default_preferences out userId].
Proof.
  destruct (check_store gmail (fetchRecentUnreadEmails out userId) userId w
              (fetch_emails_store userId))
    as [w' [run [_ [_ [_ [_ [created _]]]]]]].
  unfold checkGmailForUser. rewrite run. simpl.
  unfold preferences_of at 1. rewrite created.
  - rewrite (preferences_of_snoc userId w). unfold preferences_of in no_row.
    rewrite no_row. reflexivity.
  - unfold active_now. rewrite no_row. reflexivity.
  - unfold fetchRecentUnreadEmails, Io.bind, Io.ask, Io.emit, Io.lift, Io.ret.
    rewrite fetched. simpl. eauto.
  - exact no_row.
Qed.

End CycleFacts.

Lemma cycle_keeps_keys_unique_witness :
  keys_unique (Io.monitored_messages Scenario.one_message)
  /\ keys_unique
       (Io.monitored_messages
          (snd (cycle Scenario.runtime Situation.echoing gmail 1
                  Scenario.one_message)))
  /\ map message_key
       (Io.monitored_messages
          (snd (cycle Scenario.runtime Situation.echoing gmail 1
                  Scenario.one_message)))
     = [(1%Z, gmail, "m-1"); (1%Z, gmail, "m-2")].
Proof.
  assert (unique : keys_unique (Io.monitored_messages Scenario.one_message)).
  { repeat constructor. simpl. tauto. }
  split; [exact unique |].
  split; [| vm_compute; reflexivity].
  apply (cycle_keeps_keys_unique Scenario.runtime Situation.echoing gmail 1
           Scenario.one_message unique).
Defined.


Lemma first_cycle_creates_preferences_witness :
  preferences_of 1
    (snd (MonitoringScheduler.checkGmailForUser Scenario.runtime
            (Scenario.outside Scenario.unavailable [] 3 0) 1 Scenario.fresh))
  = [default_preferences (Scenario.outside Scenario.unavailable [] 3 0) 1].
Proof.
  apply (first_cycle_creates_preferences Scenario.runtime
           (Scenario.outside Scenario.unavailable [] 3 0) 1 Scenario.fresh []);
    reflexivity.
Defined.

(** ** The cycle over all users *)

Section AllUsersFacts.
Variable rt : Runtime.
Variable out : Outside.

Import MonitoringScheduler.

Lemma fetches_app (t1 t2 : list Event) :
  fetches (t1 ++ t2) = fetches t1 ++ fetches t2.
Proof.
  induction t1 as [| ev t1 IH]; [reflexivity |].
  destruct ev; simpl; rewrite IH; reflexivity.
Qed.

Lemma generated_no_fetch (evs : list Event) :
  Forall only_generated evs -> fetches evs = [].
Proof.
  induction 1 as [| ev evs H _ IH]; [reflexivity |]. rewrite H. exact IH.
Qed.

Lemma classify_generates :
  appends only_generated (MessageClassifier.classify rt out).
Proof.
  unfold MessageClassifier.classify, MessageClassifier.getLearningContext,
    Gemini.generateContentWithRetry.
  pose proof (retry_generates out). appends_all.
Qed.

Lemma process_generates (userId : Z) (source : Source) (item : Item) :
  appends only_generated (process rt out userId source item).
Proof.
  unfold process, isMessageStored, storeMessage.
  pose proof classify_generates. appends_all.
Qed.

Lemma for_each_generates {A : Type} (body : A -> Io.M unit) (xs : list A) :
  (forall x, appends only_generated (body x)) ->
  appends only_generated (for_each body xs).
Proof. intros H. induction xs; simpl; appends_all. Qed.

Lemma updateLastSync_generates (userId : Z) (source : Source) :
  appends only_generated (updateLastSync out userId source).
Proof.
  unfold updateLastSync. apply appends_write. intros w.
  destruct (existsb _ (Io.ai_preferences w)); reflexivity.
Qed.

Lemma check_fetches (source : Source) (userId : Z) (w : Io.World)
    (items : Exc (list Item)) :
  fetches (Io.trace (snd
    (Io.try_catch
       (items' <- (Io.emit (Fetched source userId) ;;; Io.lift items) ;;
        for_each (process rt out userId source) items' ;;;
        updateLastSync out userId source)
       (fun _ => Io.ret tt) w)))
  = fetches (Io.trace w) ++ [(source, userId)].
Proof.
  unfold Io.try_catch. unfold Io.bind at 1 2. unfold Io.emit, Io.lift.
  destruct items as [found | e]; simpl;
    [| rewrite fetches_app; reflexivity].
  set (w1 := Io.mkWorld _ _ _ _ _).
  assert (rest : appends only_generated
            (for_each (process rt out userId source) found ;;;
             updateLastSync out userId source)).
  { pose proof (for_each_generates (process rt out userId source) found
                  (process_generates userId source)).
    pose proof (updateLastSync_generates userId source). appends_all. }
  destruct (rest w1) as [evs [E F]].
  destruct ((for_each (process rt out userId source) found ;;;
             updateLastSync out userId source) w1) as [[[] | e] w'];
    simpl in E |- *; rewrite E; unfold w1; simpl;
    rewrite !fetches_app, (generated_no_fetch evs F), app_nil_r; reflexivity.
Qed.

(** The fetch a cycle makes or does not make. *)
Lemma cycle_fetches (source : Source) (userId : Z) (w : Io.World) :
  fetches (Io.trace (snd (cycle rt out source userId w)))
  = fetches (Io.trace w)
    ++ (if active_now out w userId then [(source, userId)] else []).
Proof.
  destruct source; unfold cycle, checkGmailForUser, checkXForUser, check;
    unfold Io.try_catch; unfold Io.bind at 1;
    rewrite isWithinActiveHours_value; fold (active_now out w userId);
    destruct (active_now out w userId); simpl;
    try (rewrite app_nil_r; reflexivity).
  - etransitivity;
      [| apply (check_fetches gmail userId w
           (match fetchRecentUnreadEmails_result out (Io.trace w) with
            | Ok emails => Ok (map item_of_email emails)
            | Throw e => Throw e
            end))].
    do 3 apply f_equal.
    unfold Io.try_catch, fetchRecentUnreadEmails, Io.bind, Io.ask, Io.emit,
      Io.lift, Io.ret.
    destruct (fetchRecentUnreadEmails_result out (Io.trace w)); reflexivity.
  - etransitivity;
      [| apply (check_fetches twitter userId w
           (match fetchRecentMentions_result out (Io.trace w) with
            | Ok mentions => Ok (map item_of_mention mentions)
            | Throw e => Throw e
            end))].
    do 3 apply f_equal.
    unfold Io.try_catch, fetchRecentMentions, Io.bind, Io.ask, Io.emit,
      Io.lift, Io.ret.
    destruct (fetchRecentMentions_result out (Io.trace w)); reflexivity.
Qed.

End AllUsersFacts.

Section AllUsersTurns.
Variable rt : Runtime.
Variable turn : Z -> Outside.

Import MonitoringScheduler.

(** The row that the cycle of one user may add decides nothing for
    another user. *)
Lemma active_now_other (out out' : Outside) (userId other : Z)
    (w w' : Io.World) :
  other <> userId ->
  (Io.ai_preferences w' = Io.ai_preferences w
   \/ Io.ai_preferences w'
      = Io.ai_preferences w ++ [default_preferences out userId]) ->
  active_now out' w' other = active_now out' w other.
Proof.
  intros ne [E | E]; unfold active_now, preferences_of; rewrite E;
    [reflexivity |].
  rewrite filter_app. simpl.
  destruct (userId =? other)%Z eqn:same;
    [apply Z.eqb_eq in same; congruence |].
  rewrite app_nil_r. reflexivity.
Qed.

Lemma all_users_fetches (source : Source) (users : list Z) (w : Io.World) :
  NoDup users ->
  exists w',
    for_each (fun u => Io.try_catch (cycle rt (turn u) source u)
                                    (fun _ => Io.ret tt))
             users w = (Ok tt, w')
    /\ fetches (Io.trace w')
       = fetches (Io.trace w)
         ++ map (pair source) (filter (fun u => active_now (turn u) w u) users).
Proof.
  intros distinct. revert w.
  induction distinct as [| u rest fresh distinct IH]; intros w; simpl.
  - exists w. rewrite app_nil_r. auto.
  - destruct (cycle_store rt (turn u) source u w) as [w1 [run [_ [_ [_ Hp]]]]].
    pose proof (cycle_fetches rt (turn u) source u w) as F.
    rewrite run in F. simpl in F.
    destruct (IH w1) as [w2 [run2 F2]].
    exists w2. unfold Io.bind, Io.try_catch. rewrite run.
    split; [exact run2 |].
    rewrite F2, F, <- app_assoc. f_equal.
    assert (same : filter (fun v => active_now (turn v) w1 v) rest
                   = filter (fun v => active_now (turn v) w v) rest).
    { apply filter_ext_in. intros other Hin.
      apply (active_now_other (turn u) (turn other) u); [| exact Hp].
      intros ->. contradiction. }
    rewrite same. destruct (active_now (turn u) w u); reflexivity.
Qed.

(** X14.  When the query for the users fails, the cycle over all users
    passes the error on and has done nothing.  When it gives the users, the
    cycle ends normally and fetches, in the order of the rows, for exactly
    those users for whom the clock reading of their own turn is active in
    the store the cycle started from: a failure for one user, in the fetch
    or in any classification, keeps no other user from being served, and a
    user whose turn comes after the sleep time is skipped although the run
    began before it.  The same holds of the cycle for X. *)
Theorem all_users_are_served (users : list Z) (w : Io.World)
    (distinct : NoDup users) :
  (exists w',
     AllUsers.checkGmailForAllUsers rt turn (Ok users) w = (Ok tt, w')
     /\ fetches (Io.trace w')
        = fetches (Io.trace w)
          ++ map (pair gmail)
               (filter (fun u => active_now (turn u) w u) users))
  /\ (exists w',
        AllUsers.checkXForAllUsers rt turn (Ok users) w = (Ok tt, w')
        /\ fetches (Io.trace w')
           = fetches (Io.trace w)
             ++ map (pair twitter)
                  (filter (fun u => active_now (turn u) w u) users))
  /\ (forall e,
        AllUsers.checkGmailForAllUsers rt turn (Throw e) w = (Throw e, w)
        /\ AllUsers.checkXForAllUsers rt turn (Throw e) w = (Throw e, w)).
Proof.
  split; [apply (all_users_fetches gmail users w distinct) |].
  split; [apply (all_users_fetches twitter users w distinct) |].
  intros e. split; reflexivity.
Qed.

End AllUsersTurns.

Lemma all_users_are_served_witness :
  exists w',
    AllUsers.checkGmailForAllUsers Scenario.runtime Situation.late_run
      (Ok [1%Z; 2%Z]) Situation.two_sleepers = (Ok tt, w')
    /\ fetches (Io.trace w')
       = fetches (Io.trace Situation.two_sleepers)
         ++ map (pair gmail)
              (filter (fun u => active_now (Situation.late_run u)
                                  Situation.two_sleepers u) [1%Z; 2%Z]).
Proof.
  apply (proj1 (all_users_are_served Scenario.runtime Situation.late_run
                  [1%Z; 2%Z] Situation.two_sleepers
                  ltac:(repeat constructor; simpl; intuition discriminate))).
Defined.

(** In the run of 21:00 user 1 is fetched for and user 2, whose turn comes
    a minute later, is not. *)
Example late_turn_is_skipped :
  filter (fun u => active_now (Situation.late_run u) Situation.two_sleepers u)
    [1%Z; 2%Z] = [1%Z].
Proof. reflexivity. Qed.

(** ** The feedback route *)

Section FeedbackFacts.

Import FeedbackRoute.

Lemma update_message_length (s : Js.number) (c : Category) (messageId : Z)
    (rows : list MessageRow) :
  List.length (update_message s c messageId rows) = List.length rows.
Proof. apply length_map. Qed.

Lemma update_message_others (s : Js.number) (c : Category) (messageId : Z)
    (rows : list MessageRow) (m : MessageRow) :
  In m rows -> msg_id m <> messageId ->
  In m (update_message s c messageId rows).
Proof.
  intros Hin ne. unfold update_message. apply in_map_iff. exists m.
  split; [| exact Hin].
  destruct (msg_id m =? messageId)%Z eqn:same; [| reflexivity].
  apply Z.eqb_eq in same. contradiction.
Qed.

(** X15.  A feedback that is recorded concerns a stored message of the
    caller.  It adds one row to the feedback table, holding the score the
    message had before and the corrected one, keeps the number of messages,
    and leaves every message with another id as it was. *)
Theorem feedback_recorded (userId messageId : Z) (body : Validation)
    (w w' : Io.World) (s : Q) (c : Category)
    (recorded : post_feedback userId messageId body w = (Ok (Recorded s c), w')) :
  exists message text,
    body = Valid s text
    /\ find (fun m => (msg_id m =? messageId)%Z) (Io.monitored_messages w)
       = Some message
    /\ msg_user_id message = userId
    /\ Io.message_feedback w'
       = Io.message_feedback w
         ++ [mkFeedbackRow messageId userId (importance_score message)
               (Js.Fin s) text]
    /\ List.length (Io.monitored_messages w')
       = List.length (Io.monitored_messages w)
    /\ forall m, In m (Io.monitored_messages w) -> msg_id m <> messageId ->
                 In m (Io.monitored_messages w').
Proof.
  unfold post_feedback in recorded.
  destruct body as [detail | correctedScore feedbackText];
    [unfold Io.ret in recorded; discriminate |].
  unfold Io.bind, Io.read, Io.write, Io.ret, MessageClassifier.storeFeedback
    in recorded. simpl in recorded.
  destruct (find _ (Io.monitored_messages w)) as [message |] eqn:found;
    [| discriminate].
  destruct (msg_user_id message =? userId)%Z eqn:owner; simpl in recorded;
    [| discriminate].
  injection recorded as <- <- <-.
  exists message, feedbackText. simpl.
  repeat split; auto.
  - apply Z.eqb_eq, owner.
  - apply update_message_length.
  - apply update_message_others.
Qed.

(** What [post_feedback] has done when its response is not the recorded
    one. *)
Lemma post_feedback_refused (userId messageId : Z) (body : Validation)
    (w w' : Io.World) (response : Response) :
  post_feedback userId messageId body w = (Ok response, w') ->
  (forall s c, response <> Recorded s c) ->
  w' = w
  /\ match response with
     | BadRequest detail => body = Invalid detail
     | NotFound =>
         find (fun m => (msg_id m =? messageId)%Z) (Io.monitored_messages w)
         = None
     | Forbidden =>
         exists message,
           find (fun m => (msg_id m =? messageId)%Z) (Io.monitored_messages w)
           = Some message
           /\ msg_user_id message <> userId
     | Recorded _ _ => False
     end.
Proof.
  intros answered refused. unfold post_feedback in answered.
  destruct body as [detail | correctedScore feedbackText].
  - unfold Io.ret in answered. injection answered as <- <-. auto.
  - unfold Io.bind, Io.read, Io.write, Io.ret, MessageClassifier.storeFeedback
      in answered. simpl in answered.
    destruct (find _ (Io.monitored_messages w)) as [message |] eqn:found.
    + destruct (msg_user_id message =? userId)%Z eqn:owner; simpl in answered.
      * injection answered as <- _. exfalso. eapply refused. reflexivity.
      * injection answered as <- <-. split; [reflexivity |].
        exists message. split; [reflexivity |]. apply Z.eqb_neq, owner.
    + injection answered as <- <-. auto.
Qed.

(** X16.  A feedback that the handler answers with 400, 404 or 403 has
    changed nothing, and the answer tells why: the body was invalid, no
    message with the id is stored, or the message is another user's.  An id
    that is no number, and a corrected score that is no whole number for a
    stored message of the caller, are answered with 500, and the store is
    as before. *)
Theorem feedback_refused (userId : Z) (id : option Z) (body : Validation)
    (w : Io.World) :
  (forall response w',
      FeedbackHandler.handle userId id body w
      = (Ok (FeedbackHandler.Responded response), w') ->
      (forall s c, response <> Recorded s c) ->
      w' = w
      /\ match response with
         | BadRequest detail => body = Invalid detail
         | NotFound =>
             exists messageId,
               id = Some messageId
               /\ find (fun m => (msg_id m =? messageId)%Z)
                    (Io.monitored_messages w) = None
         | Forbidden =>
             exists messageId message,
               id = Some messageId
               /\ find (fun m => (msg_id m =? messageId)%Z)
                    (Io.monitored_messages w) = Some message
               /\ msg_user_id message <> userId
         | Recorded _ _ => False
         end)
  /\ (forall s text,
        body = Valid s text -> id = None ->
        FeedbackHandler.handle userId id body w
        = (Ok FeedbackHandler.ServerError, w))
  /\ (forall s text messageId message,
        body = Valid s text -> id = Some messageId ->
        find (fun m => (msg_id m =? messageId)%Z) (Io.monitored_messages w)
        = Some message ->
        msg_user_id message = userId ->
        FeedbackHandler.whole (Js.Fin s) = false ->
        FeedbackHandler.handle userId id body w
        = (Ok FeedbackHandler.ServerError, w)).
Proof.
  split; [| split].
  - intros response w' answered refused.
    unfold FeedbackHandler.handle in answered.
    destruct body as [detail | correctedScore feedbackText].
    + unfold Io.ret in answered. injection answered as <- <-. auto.
    + destruct id as [messageId |]; [| discriminate].
      destruct (FeedbackHandler.int4 messageId); [| discriminate].
      cbn [negb] in answered. unfold Io.bind at 1 in answered.
      unfold Io.read in answered.
      destruct (find _ (Io.monitored_messages w)) as [message |] eqn:found.
      * destruct (msg_user_id message =? userId)%Z eqn:owner;
          cbn [negb] in answered.
        -- destruct (FeedbackHandler.whole (importance_score message)
                     && FeedbackHandler.whole (Js.Fin correctedScore));
             [| unfold Io.ret in answered; discriminate].
           unfold Io.bind, Io.ret in answered.
           destruct (post_feedback userId messageId
                       (Valid correctedScore feedbackText) w)
             as [[response' | e] w1] eqn:run; [| discriminate].
           injection answered as -> ->.
           destruct (post_feedback_refused userId messageId _ w w' response
                       run refused) as [same reason].
           split; [exact same |].
           destruct response; simpl in reason |- *;
             [exact reason
             | exists messageId; auto
             | destruct reason as [m [Hm Ho]]; exists messageId, m; auto
             | exact reason].
        -- unfold Io.ret in answered. injection answered as <- <-.
           split; [reflexivity |]. exists messageId, message.
           repeat split; [exact found | apply Z.eqb_neq, owner].
      * unfold Io.ret in answered. injection answered as <- <-.
        split; [reflexivity |]. exists messageId. auto.
  - intros s text -> ->. reflexivity.
  - intros s text messageId message -> -> found owner fraction.
    unfold FeedbackHandler.handle.
    destruct (FeedbackHandler.int4 messageId); [| reflexivity].
    cbn [negb]. unfold Io.bind at 1. unfold Io.read. rewrite found.
    apply Z.eqb_eq in owner. rewrite owner, fraction, andb_false_r.
    reflexivity.
Qed.

End FeedbackFacts.

Lemma feedback_recorded_witness :
  exists message text,
    FeedbackRoute.Valid 9 None = FeedbackRoute.Valid 9 text
    /\ find (fun m => (msg_id m =? 7)%Z)
         (Io.monitored_messages Scenario.one_message) = Some message
    /\ msg_user_id message = 1%Z
    /\ Io.message_feedback Scenario.after_feedback
       = Io.message_feedback Scenario.one_message
         ++ [mkFeedbackRow 7 1 (importance_score message) (Js.Fin 9) text]
    /\ List.length (Io.monitored_messages Scenario.after_feedback)
       = List.length (Io.monitored_messages Scenario.one_message)
    /\ forall m, In m (Io.monitored_messages Scenario.one_message) ->
                 msg_id m <> 7%Z ->
                 In m (Io.monitored_messages Scenario.after_feedback).
Proof.
  apply (feedback_recorded 1 7 (FeedbackRoute.Valid 9 None)
           Scenario.one_message Scenario.after_feedback 9 high).
  reflexivity.
Defined.

Lemma feedback_refused_witness :
  (Scenario.one_message = Scenario.one_message
   /\ exists messageId message,
        Some 7%Z = Some messageId
        /\ find (fun m => (msg_id m =? messageId)%Z)
             (Io.monitored_messages Scenario.one_message) = Some message
        /\ msg_user_id message <> 2%Z)
  /\ FeedbackHandler.handle 1 (Some 7%Z) (FeedbackRoute.Valid (15 # 2) None)
       Scenario.one_message
     = (Ok FeedbackHandler.ServerError, Scenario.one_message).
Proof.
  split.
  - apply (proj1 (feedback_refused 2 (Some 7%Z) (FeedbackRoute.Valid 9 None)
                    Scenario.one_message)
             FeedbackRoute.Forbidden Scenario.one_message).
    + reflexivity.
    + discriminate.
  - apply (proj2 (proj2 (feedback_refused 1 (Some 7%Z)
                           (FeedbackRoute.Valid (15 # 2) None)
                           Scenario.one_message))
             (15 # 2)%Q None 7%Z
             (mkMessageRow 7 1 gmail "m-1" "boss@co.com" "see me"
                (Js.Fin 4%Q) low));
      reflexivity.
Defined.

(** ** The executors and the tracker *)

Section ExecutorFacts.
Variable rt : Runtime.
Variable out : Outside.

(** X17.  The executors for logs and for goals answer with a result
    whatever the tracker, the clock and their parameters are: an error
    raised on the way is turned into a failure result, never passed on. *)
Theorem executors_always_answer (w : Io.World) :
  (forall params, exists r w',
      DailyLogCreator.createLog rt out params w = (Ok r, w'))
  /\ (forall params, exists r w',
        GoalCreator.createGoal rt out params w = (Ok r, w'))
  /\ (forall goalId activity goodThing note logDate jwtToken, exists r w',
        DailyLogForGoal.createLogForGoal out goalId activity goodThing note
          logDate jwtToken w = (Ok r, w')).
Proof.
  repeat split; intros;
    unfold DailyLogCreator.createLog, GoalCreator.createGoal,
      DailyLogForGoal.createLogForGoal;
    unfold Io.bind at 1; unfold Io.emit; unfold Io.try_catch;
    match goal with |- context [match ?c ?x with _ => _ end] =>
      destruct (c x) as [[a | e] w'] end; unfold Io.ret; eauto.
Qed.

(** X18.  When the tracker turns the goal-creation request down, CreateGoal
    reports a failure whose message carries the tracker's own message, or
    the transport's when the tracker gave none, or a fixed text when
    neither is there; the request was sent once. *)
Theorem createGoal_failure_reported (params : GoalCreator.CreateGoalParams)
    (w : Io.World) (response_message : option string) (message : string)
    (accepted : GoalCreator.duration_rejected rt
                  (GoalCreator.durationDays params) = false)
    (down : forall t d, postGoal_reply out t d = Failed response_message message) :
  exists w' data,
    GoalCreator.createGoal rt out params w
    = (Ok (GoalCreator.mkResult false None
             ("Failed to create goal: "
                ++ DayTrackerAPI.failure_message response_message message
                     "Failed to create goal")), w')
    /\ requests (Io.trace w') = requests (Io.trace w) ++ [PostGoal data].
Proof.
  unfold GoalCreator.createGoal, GoalCreator.getRandomColor,
    DayTrackerAPI.createGoal.
  unfold Io.bind, Io.try_catch, Io.emit, DayTrackerAPI.setAuthToken, Io.write,
    Io.ask, Io.ret. simpl. rewrite accepted.
  destruct (Js.truthy (GoalCreator.color params)); simpl; rewrite down; simpl;
    eexists; eexists; (split; [reflexivity |]); simpl;
    rewrite !requests_app; simpl; rewrite app_nil_r; reflexivity.
Qed.

(** X19.  Without a keyword and with exactly one active goal, CreateLog
    asks nothing: it fetches the goals, posts one log for that goal,
    carrying at most one activity and one good thing, and succeeds with a
    message that names the goal. *)
Theorem createLog_single_active_goal (params : DailyLogCreator.CreateLogParams)
    (w : Io.World) (goals : list Goal) (g : Goal)
    (log : CreateDailyLogData -> DailyLog)
    (no_keyword : Js.truthy (DailyLogCreator.goalKeyword params) = false)
    (tracker : forall t, getGoals_reply out t = Replied goals)
    (single : filter isActive goals = [g])
    (accepts : forall t d, postDailyLog_reply out t d = Replied (log d)) :
  exists w' data,
    DailyLogCreator.createLog rt out params w
    = (Ok (DailyLogCreator.mkResult true (Some (log data)) (Some (title g))
             ("Logged successfully for " ++ dq ++ title g ++ dq ++ "!")
             false None), w')
    /\ requests (Io.trace w')
       = requests (Io.trace w) ++ [GetGoals; PostDailyLog data]
    /\ ld_goalId data = goal_id g
    /\ ld_activities data
       = DailyLogCreator.singleton_if_truthy (DailyLogCreator.activity params)
    /\ ld_goodThings data
       = DailyLogCreator.singleton_if_truthy (DailyLogCreator.goodThing params).
Proof.
  unfold DailyLogCreator.createLog, DailyLogCreator.resolveGoal,
    DayTrackerAPI.getGoals, DayTrackerAPI.createDailyLog.
  rewrite no_keyword.
  unfold Io.bind, Io.try_catch, Io.emit, DayTrackerAPI.setAuthToken, Io.write,
    Io.ask, Io.ret. simpl. rewrite tracker. simpl. rewrite single. simpl.
  rewrite accepts. simpl.
  eexists. eexists. split; [reflexivity |]. simpl.
  rewrite !requests_app. simpl. rewrite ?app_nil_r, <- ?app_assoc. simpl.
  repeat split; reflexivity.
Qed.

(** X20.  [createLogForGoal] posts the log before it fetches the goals:
    when that fetch fails the log has been sent to the tracker all the
    same, and the result is a failure. *)
Theorem createLogForGoal_posts_first (goalId : Z)
    (activity goodThing note logDate : Js.value) (jwtToken : string)
    (w : Io.World) (log : CreateDailyLogData -> DailyLog)
    (response_message : option string) (message : string)
    (accepts : forall t d, postDailyLog_reply out t d = Replied (log d))
    (down : forall t, getGoals_reply out t = Failed response_message message) :
  exists w' data,
    DailyLogForGoal.createLogForGoal out goalId activity goodThing note
      logDate jwtToken w
    = (Ok (DailyLogCreator.mkResult false None None
             ("Failed to create log: "
                ++ DayTrackerAPI.failure_message response_message message
                     "Failed to fetch goals")
             false None), w')
    /\ requests (Io.trace w')
       = requests (Io.trace w) ++ [PostDailyLog data; GetGoals]
    /\ ld_goalId data = goalId.
Proof.
  unfold DailyLogForGoal.createLogForGoal, DayTrackerAPI.getGoals,
    DayTrackerAPI.createDailyLog.
  unfold Io.bind, Io.try_catch, Io.emit, DayTrackerAPI.setAuthToken, Io.write,
    Io.ask, Io.ret. simpl. rewrite accepts. simpl. rewrite down. simpl.
  eexists. eexists. split; [reflexivity |]. simpl.
  rewrite !requests_app. simpl. rewrite ?app_nil_r, <- ?app_assoc. simpl.
  split; reflexivity.
Qed.

End ExecutorFacts.

Lemma createGoal_failure_reported_witness :
  exists w' data,
    GoalCreator.createGoal Scenario.runtime Situation.refusing
      Situation.ninety_days Scenario.fresh
    = (Ok (GoalCreator.mkResult false None
             ("Failed to create goal: "
                ++ DayTrackerAPI.failure_message (Some "Unauthorized")
                     "Request failed with status code 401"
                     "Failed to create goal")), w')
    /\ requests (Io.trace w') = requests (Io.trace Scenario.fresh) ++ [PostGoal data].
Proof.
  apply (createGoal_failure_reported Scenario.runtime Situation.refusing
           Situation.ninety_days Scenario.fresh (Some "Unauthorized")
           "Request failed with status code 401").
  - reflexivity.
  - reflexivity.
Defined.

Lemma createLog_single_active_goal_witness :
  exists w' data,
    DailyLogCreator.createLog Scenario.runtime
      (Scenario.outside Scenario.unavailable [Situation.guitar] 12 0)
      Situation.practiced Scenario.fresh
    = (Ok (DailyLogCreator.mkResult true
             (Some (mkDailyLog 1 (ld_goalId data) "2025-01-01"))
             (Some (title Situation.guitar))
             ("Logged successfully for " ++ dq ++ title Situation.guitar ++ dq
                ++ "!")
             false None), w')
    /\ requests (Io.trace w')
       = requests (Io.trace Scenario.fresh) ++ [GetGoals; PostDailyLog data]
    /\ ld_goalId data = goal_id Situation.guitar
    /\ ld_activities data
       = DailyLogCreator.singleton_if_truthy
           (DailyLogCreator.activity Situation.practiced)
    /\ ld_goodThings data
       = DailyLogCreator.singleton_if_truthy
           (DailyLogCreator.goodThing Situation.practiced).
Proof.
  apply (createLog_single_active_goal Scenario.runtime
           (Scenario.outside Scenario.unavailable [Situation.guitar] 12 0)
           Situation.practiced Scenario.fresh [Situation.guitar]
           Situation.guitar
           (fun d => mkDailyLog 1 (ld_goalId d) "2025-01-01"));
    reflexivity.
Defined.

Lemma createLogForGoal_posts_first_witness :
  exists w' data,
    DailyLogForGoal.createLogForGoal Situation.refusing 5
      (Js.JStr "ran 5 km") Js.JUndefined Js.JUndefined Js.JUndefined "jwt"
      Scenario.fresh
    = (Ok (DailyLogCreator.mkResult false None None
             ("Failed to create log: "
                ++ DayTrackerAPI.failure_message (Some "Unauthorized")
                     "Request failed with status code 401"
                     "Failed to fetch goals")
             false None), w')
    /\ requests (Io.trace w')
       = requests (Io.trace Scenario.fresh) ++ [PostDailyLog data; GetGoals]
    /\ ld_goalId data = 5%Z.
Proof.
  apply (createLogForGoal_posts_first Situation.refusing 5
           (Js.JStr "ran 5 km") Js.JUndefined Js.JUndefined Js.JUndefined "jwt"
           Scenario.fresh
           (fun d => mkDailyLog 1 (ld_goalId d) "2025-01-01")
           (Some "Unauthorized") "Request failed with status code 401");
    reflexivity.
Defined.

(** ** Windows that do not work as the hours read *)

Section Windows.
Variable rt : Runtime.
Variable out : Outside.

Import MonitoringScheduler.

Lemma inactive_cycle_skipped (source : Source) (userId : Z) (w : Io.World) :
  active_now out w userId = false ->
  isWithinActiveHours out userId w = (Ok false, w)
  /\ cycle rt out source userId w = (Ok tt, w).
Proof.
  intros inactive. unfold active_now in inactive.
  split; [rewrite isWithinActiveHours_value, inactive; reflexivity |].
  destruct source; unfold cycle, checkGmailForUser, checkXForUser, check;
    unfold Io.try_catch; unfold Io.bind at 1;
    rewrite isWithinActiveHours_value, inactive; reflexivity.
Qed.

(** X21.  A window that runs over midnight does not work: when the sleep
    time of the row is earlier, as text, than its wake time, no clock
    reading is active and every cycle of the user is skipped. *)
Theorem overnight_window_never_active (source : Source) (userId : Z)
    (w : Io.World) (row : PreferencesRow) (rest : list PreferencesRow)
    (has_row : preferences_of userId w = row :: rest)
    (overnight : String.ltb (sleep_time row) (wake_time row) = true) :
  isWithinActiveHours out userId w = (Ok false, w)
  /\ cycle rt out source userId w = (Ok tt, w).
Proof.
  apply inactive_cycle_skipped. unfold active_now. rewrite has_row.
  destruct (String.leb (wake_time row) (currentTime out)) eqn:woke;
    [| reflexivity].
  destruct (String.leb (currentTime out) (sleep_time row)) eqn:awake;
    [| reflexivity].
  exfalso.
  pose proof (string_leb_trans _ _ _ woke awake) as le.
  apply string_leb_iff in le. apply le.
  unfold String.ltb in overnight. rewrite String.compare_antisym.
  destruct (String.compare (sleep_time row) (wake_time row));
    try discriminate. reflexivity.
Qed.

(** X22.  For a row whose wake and sleep times are written [HH:MM], with
    or without something after the minutes, the comparison of texts is a
    comparison of times: the user is active from the wake time to the sleep
    time, the sleep minute included; the wake minute itself is included
    only when nothing follows the minutes in the stored wake time. *)
Theorem window_in_minutes (userId : Z) (w : Io.World) (row : PreferencesRow)
    (rest : list PreferencesRow) (wh wm sh sm : nat)
    (after_wake after_sleep : string)
    (has_row : preferences_of userId w = row :: rest)
    (wake : wake_time row = (hhmm wh wm ++ after_wake)%string)
    (sleep : sleep_time row = (hhmm sh sm ++ after_sleep)%string)
    (wake_ok : (wh < 24 /\ wm < 60)%nat)
    (sleep_ok : (sh < 24 /\ sm < 60)%nat)
    (clock_ok : (now_hours out < 24 /\ now_minutes out < 60)%nat) :
  isWithinActiveHours out userId w
  = (Ok ((if (after_wake =? "")%string
          then (minute_of_day wh wm
                <=? minute_of_day (now_hours out) (now_minutes out))%nat
          else (minute_of_day wh wm
                <? minute_of_day (now_hours out) (now_minutes out))%nat)
         && (minute_of_day (now_hours out) (now_minutes out)
             <=? minute_of_day sh sm)%nat), w).
Proof.
  exact (isWithinActiveHours_minutes out userId w row rest wh wm sh sm
           after_wake after_sleep has_row wake sleep wake_ok sleep_ok clock_ok).
Qed.

End Windows.

Lemma overnight_window_never_active_witness :
  MonitoringScheduler.isWithinActiveHours
    (Scenario.outside Scenario.unavailable [] 23 30) 1 Situation.night_owl
  = (Ok false, Situation.night_owl)
  /\ cycle Scenario.runtime (Scenario.outside Scenario.unavailable [] 23 30)
       gmail 1 Situation.night_owl
     = (Ok tt, Situation.night_owl).
Proof.
  apply (overnight_window_never_active Scenario.runtime
           (Scenario.outside Scenario.unavailable [] 23 30) gmail 1
           Situation.night_owl (mkPrefs 1 "22:00" "06:00") []);
    reflexivity.
Defined.

Lemma window_in_minutes_witness :
  MonitoringScheduler.isWithinActiveHours
    (Scenario.outside Scenario.unavailable [] 8 0) 1 Scenario.with_hours
  = (Ok ((if (":00" =? "")%string
          then (minute_of_day 8 0 <=? minute_of_day 8 0)%nat
          else (minute_of_day 8 0 <? minute_of_day 8 0)%nat)
         && (minute_of_day 8 0 <=? minute_of_day 21 0)%nat),
     Scenario.with_hours).
Proof.
  apply (window_in_minutes (Scenario.outside Scenario.unavailable [] 8 0) 1
           Scenario.with_hours (mkPrefs 1 "08:00:00" "21:00:00") []
           8 0 21 0 ":00" ":00");
    try reflexivity; simpl; lia.
Defined.

(** ** The preferences routes *)

Section PreferencesFacts.
Variable out : Outside.

Import PreferencesRoute.

Lemma world_eta (w : Io.World) :
  Io.mkWorld (Io.authToken w) (Io.trace w) (Io.ai_preferences w)
    (Io.monitored_messages w) (Io.message_feedback w) = w.
Proof. destruct w; reflexivity. Qed.

Lemma update_preferences_other (userId other : Z) (wake sleep : option string)
    (rows : list PreferencesRow) :
  other <> userId ->
  filter (fun r => (pref_user_id r =? other)%Z)
         (update_preferences out userId wake sleep rows)
  = filter (fun r => (pref_user_id r =? other)%Z) rows.
Proof.
  intros ne. induction rows as [| r rows IH]; [reflexivity |]. simpl.
  destruct (pref_user_id r =? userId)%Z eqn:mine; simpl.
  - apply Z.eqb_eq in mine.
    assert ((pref_user_id r =? other)%Z = false) as -> by (apply Z.eqb_neq; lia).
    exact IH.
  - rewrite IH. reflexivity.
Qed.

Lemma update_preferences_mine (userId : Z) (wake sleep : option string)
    (rows : list PreferencesRow) :
  filter (fun r => (pref_user_id r =? userId)%Z)
         (update_preferences out userId wake sleep rows)
  = map (fun r =>
           mkPrefs (pref_user_id r)
             (match given wake with
              | Some t => time_text out t
              | None => wake_time r
              end)
             (match given sleep with
              | Some t => time_text out t
              | None => sleep_time r
              end))
        (filter (fun r => (pref_user_id r =? userId)%Z) rows).
Proof.
  induction rows as [| r rows IH]; [reflexivity |]. simpl.
  destruct (pref_user_id r =? userId)%Z eqn:mine; simpl; rewrite mine, IH;
    reflexivity.
Qed.

Lemma update_preferences_absent (userId : Z) (wake sleep : option string)
    (rows : list PreferencesRow) :
  filter (fun r => (pref_user_id r =? userId)%Z) rows = [] ->
  update_preferences out userId wake sleep rows = rows.
Proof.
  induction rows as [| r rows IH]; [reflexivity |]. simpl.
  destruct (pref_user_id r =? userId)%Z; [discriminate |].
  intros none. rewrite (IH none). reflexivity.
Qed.

Lemma given_some (t : string) : t <> "" -> given (Some t) = Some t.
Proof.
  intros ne. unfold given. apply String.eqb_neq in ne. rewrite ne. reflexivity.
Qed.

(** X23.  Reading the preferences of a user who has no row is not a mere
    read: it answers with 08:00 and 21:00 and stores the default row.
    Before it every clock reading was active for the user; after it the
    default hours decide, and a second read answers with the times as the
    store writes them. *)
Theorem get_preferences_creates_row (userId : Z) (w : Io.World)
    (no_row : preferences_of userId w = []) :
  exists w',
    get_preferences out userId w = (Ok ("08:00", "21:00"), w')
    /\ preferences_of userId w' = [default_preferences out userId]
    /\ get_preferences out userId w'
       = (Ok (time_text out "08:00", time_text out "21:00"), w')
    /\ active_now out w userId = true
    /\ active_now out w' userId
       = String.leb (time_text out "08:00") (currentTime out)
         && String.leb (currentTime out) (time_text out "21:00").
Proof.
  unfold get_preferences, Io.bind, Io.read, Io.write, Io.ret.
  unfold preferences_of in no_row. simpl. rewrite no_row. simpl.
  eexists. split; [reflexivity |].
  assert (row : preferences_of userId
                  (Io.mkWorld (Io.authToken w) (Io.trace w)
                     (Io.ai_preferences w ++ [default_preferences out userId])
                     (Io.monitored_messages w) (Io.message_feedback w))
                = [default_preferences out userId]).
  { unfold preferences_of. simpl. rewrite filter_app, no_row. simpl.
    rewrite Z.eqb_refl. reflexivity. }
  split; [exact row |]. unfold preferences_of in row. simpl in row.
  split; [unfold default_preferences in row; simpl; rewrite row; reflexivity |].
  split; [unfold active_now, preferences_of; rewrite no_row; reflexivity |].
  unfold active_now, preferences_of. simpl.
  unfold default_preferences in row. rewrite row. reflexivity.
Qed.

(** X24.  Times put for a user who has a row are what a later read
    answers with, as the store writes them, and the rows of every other
    user stay as they were. *)
Theorem put_then_get (userId : Z) (w : Io.World) (row : PreferencesRow)
    (rest : list PreferencesRow) (wake sleep : string)
    (contacts : option (list string))
    (has_row : preferences_of userId w = row :: rest)
    (wake_given : wake <> "") (sleep_given : sleep <> "") :
  exists w',
    put_preferences out userId (Valid (Some wake) (Some sleep) contacts) w
    = (Ok Updated, w')
    /\ get_preferences out userId w'
       = (Ok (time_text out wake, time_text out sleep), w')
    /\ forall other, other <> userId ->
                     preferences_of other w' = preferences_of other w.
Proof.
  unfold put_preferences, Io.bind, Io.write, Io.ret.
  eexists. split; [reflexivity |]. split.
  - unfold get_preferences, Io.bind, Io.read, Io.ret. simpl.
    rewrite update_preferences_mine. unfold preferences_of in has_row.
    rewrite has_row, !given_some by assumption. reflexivity.
  - intros other ne. unfold preferences_of. simpl.
    apply update_preferences_other, ne.
Qed.

(** X25.  Times put for a user who has no row are lost: the route answers
    that the preferences were updated and the store is as before. *)
Theorem put_without_row_is_lost (userId : Z) (w : Io.World)
    (wake sleep : option string) (contacts : option (list string))
    (no_row : preferences_of userId w = []) :
  put_preferences out userId (Valid wake sleep contacts) w = (Ok Updated, w).
Proof.
  unfold put_preferences, Io.bind, Io.write, Io.ret.
  rewrite (update_preferences_absent userId wake sleep _ no_row), world_eta.
  reflexivity.
Qed.

End PreferencesFacts.

Lemma get_preferences_creates_row_witness :
  exists w',
    PreferencesRoute.get_preferences
      (Scenario.outside Scenario.unavailable [] 3 0) 1 Scenario.fresh
    = (Ok ("08:00", "21:00"), w')
    /\ preferences_of 1 w'
       = [default_preferences (Scenario.outside Scenario.unavailable [] 3 0) 1]
    /\ PreferencesRoute.get_preferences
         (Scenario.outside Scenario.unavailable [] 3 0) 1 w'
       = (Ok ("08:00:00", "21:00:00"), w')
    /\ active_now (Scenario.outside Scenario.unavailable [] 3 0)
         Scenario.fresh 1 = true
    /\ active_now (Scenario.outside Scenario.unavailable [] 3 0) w' 1
       = String.leb "08:00:00" "03:00" && String.leb "03:00" "21:00:00".
Proof.
  apply (get_preferences_creates_row
           (Scenario.outside Scenario.unavailable [] 3 0) 1 Scenario.fresh).
  reflexivity.
Defined.

Lemma put_then_get_witness :
  exists w',
    PreferencesRoute.put_preferences
      (Scenario.outside Scenario.unavailable [] 3 0) 1
      (PreferencesRoute.Valid (Some "07:30") (Some "23:00") None)
      Scenario.with_hours
    = (Ok PreferencesRoute.Updated, w')
    /\ PreferencesRoute.get_preferences
         (Scenario.outside Scenario.unavailable [] 3 0) 1 w'
       = (Ok ("07:30:00", "23:00:00"), w')
    /\ forall other, other <> 1%Z ->
                     preferences_of other w'
                     = preferences_of other Scenario.with_hours.
Proof.
  apply (put_then_get (Scenario.outside Scenario.unavailable [] 3 0) 1
           Scenario.with_hours (mkPrefs 1 "08:00:00" "21:00:00") []
           "07:30" "23:00" None);
    [reflexivity | discriminate | discriminate].
Defined.

Lemma put_without_row_is_lost_witness :
  PreferencesRoute.put_preferences
    (Scenario.outside Scenario.unavailable [] 3 0) 1
    (PreferencesRoute.Valid (Some "07:30") (Some "23:00") None) Scenario.fresh
  = (Ok PreferencesRoute.Updated, Scenario.fresh).
Proof.
  apply (put_without_row_is_lost
           (Scenario.outside Scenario.unavailable [] 3 0) 1 Scenario.fresh
           (Some "07:30") (Some "23:00") None).
  reflexivity.
Defined.

(** ** Code fences around the model's answer *)

Lemma trimEnd_last (s : string) (x : ascii) :
  Js.is_space x = false ->
  Js.trimEnd (s ++ String x "") = (s ++ String x "")%string.
Proof.
  intros solid. induction s as [| c s IH]; simpl.
  - rewrite solid. reflexivity.
  - rewrite IH. destruct s; reflexivity.
Qed.

Lemma delete_all_tick_free (p body rest : string) :
  tick_free body = true ->
  Js.delete_all (String "`" p) 0 (body ++ rest)
  = (body ++ Js.delete_all (String "`" p) 0 rest)%string.
Proof.
  intros clean. induction body as [| c body IH]; [reflexivity |].
  simpl in clean. apply andb_prop in clean as [head tail].
  apply negb_true_iff, Ascii.eqb_neq in head.
  change ((String c body ++ rest)%string) with (String c (body ++ rest)).
  cbn [Js.delete_all prefix].
  destruct (ascii_dec "`" c) as [same | _]; [congruence |].
  rewrite (IH tail). reflexivity.
Qed.

Lemma trimStart_tick_free (s : string) :
  tick_free s = true -> tick_free (Js.trimStart s) = true.
Proof.
  induction s as [| c s IH]; [reflexivity |]. intros clean. simpl.
  destruct (Js.is_space c); [| exact clean].
  simpl in clean. apply andb_prop in clean as [_ tail]. exact (IH tail).
Qed.

Lemma trimEnd_head (c : ascii) (s : string) :
  Js.trimEnd (String c s) = ""
  \/ exists t, Js.trimEnd (String c s) = String c t.
Proof.
  simpl. destruct (Js.trimEnd s).
  - destruct (Js.is_space c); [left | right; exists ""]; reflexivity.
  - right. eexists. reflexivity.
Qed.

Lemma trim_no_fence (s : string) :
  tick_free s = true -> Js.startsWith (Js.trim s) "```" = false.
Proof.
  intros clean. apply trimStart_tick_free in clean. unfold Js.trim.
  destruct (Js.trimStart s) as [| c t]; [reflexivity |].
  simpl in clean. apply andb_prop in clean as [head _].
  apply negb_true_iff, Ascii.eqb_neq in head.
  destruct (trimEnd_head c t) as [-> | [t' ->]]; [reflexivity |].
  unfold Js.startsWith. cbn [prefix].
  destruct (ascii_dec "`" c) as [same | _]; [congruence | reflexivity].
Qed.

Lemma prefix_longer (p q s : string) :
  prefix p s = false -> prefix (p ++ q) s = false.
Proof.
  revert s. induction p as [| a p IH]; intros s.
  - destruct s; simpl; discriminate.
  - destruct s as [| b s]; [reflexivity |]. simpl.
  destruct (ascii_dec a b); [apply IH | reflexivity].
Qed.

Lemma prefix_empty (s : string) : prefix "" s = true.
Proof. destruct s; reflexivity. Qed.

Lemma delete_opening_json (rest : string) :
  Js.delete_all "```json" 0 ("```json" ++ Js.newline ++ rest)
  = Js.delete_all "```json" 0 rest.
Proof.
  cbn. rewrite !prefix_empty. cbn. reflexivity.
Qed.

Lemma delete_opening (rest : string) :
  Js.delete_all "```" 0 ("```" ++ Js.newline ++ rest)
  = Js.delete_all "```" 0 rest.
Proof.
  cbn. rewrite !prefix_empty. cbn. reflexivity.
Qed.

(** X26.  A body without backticks that the model wraps in a code
    fence, opened with or without the word json, comes out of the fence
    removal as the body followed by one line feed; a text of ASCII
    characters without backticks is only trimmed. *)
Theorem strip_fences_unwraps (body : string) (clean : tick_free body = true) :
  IntentService.strip_fences
    ("```json" ++ Js.newline ++ body ++ Js.newline ++ "```")
  = (body ++ Js.newline)%string
  /\ IntentService.strip_fences
       ("```" ++ Js.newline ++ body ++ Js.newline ++ "```")
     = (body ++ Js.newline)%string
  /\ (plain body = true -> IntentService.strip_fences body = Js.trim body).
Proof.
  split; [| split].
  - unfold IntentService.strip_fences, Js.trim.
    change (Js.trimStart ("```json" ++ Js.newline ++ body ++ Js.newline ++ "```"))
      with ("```json" ++ Js.newline ++ body ++ Js.newline ++ "```")%string.
    replace ("```json" ++ Js.newline ++ body ++ Js.newline ++ "```")%string
      with (("```json" ++ Js.newline ++ body ++ Js.newline ++ "``") ++ "`")%string
      by (rewrite !string_append_assoc; reflexivity).
    rewrite trimEnd_last by reflexivity.
    rewrite !string_append_assoc.
    change (Js.startsWith
              ("```json" ++ Js.newline ++ body ++ Js.newline ++ "``" ++ "`")
              "```json") with true.
    cbv iota.
    rewrite delete_opening_json, !delete_all_tick_free by assumption.
    reflexivity.
  - unfold IntentService.strip_fences, Js.trim.
    change (Js.trimStart ("```" ++ Js.newline ++ body ++ Js.newline ++ "```"))
      with ("```" ++ Js.newline ++ body ++ Js.newline ++ "```")%string.
    replace ("```" ++ Js.newline ++ body ++ Js.newline ++ "```")%string
      with (("```" ++ Js.newline ++ body ++ Js.newline ++ "``") ++ "`")%string
      by (rewrite !string_append_assoc; reflexivity).
    rewrite trimEnd_last by reflexivity.
    rewrite !string_append_assoc.
    change (Js.startsWith
              ("```" ++ Js.newline ++ body ++ Js.newline ++ "``" ++ "`")
              "```json") with false.
    change (Js.startsWith
              ("```" ++ Js.newline ++ body ++ Js.newline ++ "``" ++ "`")
              "```") with true.
    cbv iota.
    rewrite delete_opening, delete_all_tick_free by assumption.
    reflexivity.
  - intros _. unfold IntentService.strip_fences.
    pose proof (trim_no_fence body clean) as unfenced.
    assert (Js.startsWith (Js.trim body) "```json" = false) as ->
      by (apply (prefix_longer "```" "json"), unfenced).
    rewrite unfenced. reflexivity.
Qed.

Lemma strip_fences_unwraps_witness :
  IntentService.strip_fences
    ("```json" ++ Js.newline ++ Scenario.status_text ++ Js.newline ++ "```")
  = (Scenario.status_text ++ Js.newline)%string
  /\ IntentService.strip_fences
       ("```" ++ Js.newline ++ Scenario.status_text ++ Js.newline ++ "```")
     = (Scenario.status_text ++ Js.newline)%string
  /\ IntentService.strip_fences Scenario.status_text
     = Js.trim Scenario.status_text.
Proof.
  destruct (strip_fences_unwraps Scenario.status_text eq_refl)
    as [json [bare trimmed]].
  split; [exact json | split; [exact bare | exact (trimmed eq_refl)]].
Defined.

(** ** Where the retries stop *)

Section RetryStops.
Variable out : Outside.

Lemma retry_stops (n : nat) :
  forall (k : nat) (w : Io.World) (a : Attempt),
    (n <= k)%nat ->
    (forall i, (i < n)%nat ->
               final (generateContent_result out
                        (Io.trace w ++ repeat Generated i)) = false) ->
    generateContent_result out (Io.trace w ++ repeat Generated n) = a ->
    n = k \/ final a = true ->
    Gemini.retry out k w
    = (outcome a,
       Io.mkWorld (Io.authToken w) (Io.trace w ++ repeat Generated (S n))
         (Io.ai_preferences w) (Io.monitored_messages w)
         (Io.message_feedback w)).
Proof.
  induction n as [| n IH]; intros k w a bound earlier last stop.
  - simpl in last. rewrite app_nil_r in last.
    destruct k as [| k]; simpl;
      unfold Gemini.generateContent, Io.bind, Io.ask, Io.emit, Io.ret, Io.throw;
      simpl; rewrite last; destruct a as [result | error]; try reflexivity.
    destruct stop as [impossible | ends]; [discriminate |].
    simpl in ends. apply negb_true_iff in ends. rewrite ends. reflexivity.
  - destruct k as [| k]; [lia |].
    pose proof (earlier 0%nat ltac:(lia)) as first.
    simpl in first. rewrite app_nil_r in first.
    simpl. unfold Gemini.generateContent, Io.bind, Io.ask, Io.emit, Io.ret.
    simpl. destruct (generateContent_result out (Io.trace w)) as [result | error];
      [discriminate |].
    simpl in first. apply negb_false_iff in first. rewrite first.
    rewrite (IH k _ a).
    + simpl. rewrite <- app_assoc. reflexivity.
    + lia.
    + intros i below. simpl. rewrite <- app_assoc.
      apply (earlier (S i)). lia.
    + simpl. rewrite <- app_assoc. exact last.
    + destruct stop as [same | ends]; [left; lia | right; exact ends].
Qed.

(** X27.  [generateContentWithRetry] stops at the first attempt that is
    an answer or an error other than 429 and 503, and at the fourth
    attempt whatever it is: after [n] transient errors the call hands back
    what attempt [n + 1] gave, an answer returned and an error thrown, and
    the model has been called [n + 1] times. *)
Theorem generateContentWithRetry_stops (n : nat) (w : Io.World) (a : Attempt)
    (bound : (n <= 3)%nat)
    (earlier : forall i, (i < n)%nat ->
                 final (generateContent_result out
                          (Io.trace w ++ repeat Generated i)) = false)
    (last : generateContent_result out (Io.trace w ++ repeat Generated n) = a)
    (stop : n = 3%nat \/ final a = true) :
  Gemini.generateContentWithRetry out w
  = (outcome a,
     Io.mkWorld (Io.authToken w) (Io.trace w ++ repeat Generated (S n))
       (Io.ai_preferences w) (Io.monitored_messages w)
       (Io.message_feedback w)).
Proof.
  apply (retry_stops n Gemini.maxRetries w a bound earlier last stop).
Qed.

End RetryStops.

Lemma generateContentWithRetry_stops_witness :
  Gemini.generateContentWithRetry Situation.recovering Scenario.fresh
  = (Ok (Ok Scenario.status_text),
     Io.mkWorld None [Generated; Generated; Generated] [] [] []).
Proof.
  apply (generateContentWithRetry_stops Situation.recovering 2 Scenario.fresh
           (Scenario.says Scenario.status_text)).
  - lia.
  - intros i below.
    destruct i as [| [| i]]; [reflexivity | reflexivity | lia].
  - reflexivity.
  - right. reflexivity.
Defined.

(** ** The colour of a new goal *)

Section Rounding.

Lemma round_half_even_le (q : Q) :
  (inject_Z (Js.round_half_even q) <= q + (1 # 2))%Q.
Proof.
  unfold Js.round_half_even.
  pose proof (Qfloor_le q) as below.
  destruct (Qcompare_spec (q - inject_Z (Qfloor q)) (1 # 2)) as [same | lt | gt].
  - destruct (Z.even (Qfloor q)); [lra |].
    rewrite inject_Z_plus. change (inject_Z 1) with 1%Q. lra.
  - lra.
  - rewrite inject_Z_plus. change (inject_Z 1) with 1%Q. lra.
Qed.

Lemma round_half_even_nonneg (q : Q) :
  (0 <= q)%Q -> (0 <= Js.round_half_even q)%Z.
Proof.
  intros nonneg. unfold Js.round_half_even.
  assert (0 <= Qfloor q)%Z.
  { change 0%Z with (Qfloor 0). apply Qfloor_resp_le, nonneg. }
  destruct (Qcompare _ _); [destruct (Z.even _) | |]; lia.
Qed.

Lemma pow2_pos (k : Z) : (0 <= k)%Z -> (0 < inject_Z (2 ^ k))%Q.
Proof.
  intros nonneg. change 0%Q with (inject_Z 0). rewrite <- Zlt_Qlt.
  apply Z.pow_pos_nonneg; lia.
Qed.

(** Rounding keeps a number that is not negative so. *)
Lemma round64_nonneg (x : Q) : (0 <= x)%Q -> (0 <= Js.round64 x)%Q.
Proof.
  intros nonneg. unfold Js.round64.
  set (y := (Qabs x * inject_Z (2 ^ 1074))%Q).
  set (k := Z.max 0 (Z.log2 (Qfloor y) - 52)).
  assert (unit : (0 < inject_Z (2 ^ 1074))%Q) by (apply pow2_pos; lia).
  assert (ypos : (0 <= y)%Q).
  { unfold y. apply Qmult_le_0_compat; [apply Qabs_nonneg | lra]. }
  assert (scale : (0 < inject_Z (2 ^ k))%Q) by (apply pow2_pos; lia).
  assert (m : (0 <= Js.round_half_even (y / inject_Z (2 ^ k)))%Z).
  { apply round_half_even_nonneg. apply Qle_shift_div_l; [exact scale | lra]. }
  apply Qle_shift_div_l; [exact unit |]. rewrite Qmult_0_l.
  change 0%Q with (inject_Z 0). rewrite <- Zle_Qle.
  assert (0 <= Z.sgn (Qnum x))%Z.
  { destruct x as [n d]. unfold Qle in nonneg. simpl in *. lia. }
  assert (0 < 2 ^ k)%Z by (apply Z.pow_pos_nonneg; lia).
  nia.
Qed.

(** Below 16 the binary64 numbers are at most 2^-49 apart, so that
    rounding adds at most 2^-50. *)
Lemma round64_upper (x : Q) :
  (0 <= x)%Q -> (x < 16)%Q ->
  (Js.round64 x <= x + (1 # 1125899906842624))%Q.
Proof.
  intros nonneg below. unfold Js.round64.
  set (y := (Qabs x * inject_Z (2 ^ 1074))%Q).
  set (k := Z.max 0 (Z.log2 (Qfloor y) - 52)).
  set (m := Js.round_half_even (y / inject_Z (2 ^ k))).
  assert (unit : (0 < inject_Z (2 ^ 1074))%Q) by (apply pow2_pos; lia).
  assert (scale : (0 < inject_Z (2 ^ k))%Q) by (apply pow2_pos; lia).
  assert (yx : (y == x * inject_Z (2 ^ 1074))%Q).
  { unfold y. rewrite Qabs_pos by exact nonneg. reflexivity. }
  assert (ylt : (y < inject_Z (2 ^ 1078))%Q).
  { rewrite yx. replace (2 ^ 1078)%Z with (16 * 2 ^ 1074)%Z by
      (change 16%Z with (2 ^ 4)%Z; rewrite <- Z.pow_add_r by lia; reflexivity).
    rewrite inject_Z_mult. change (inject_Z 16) with 16%Q.
    apply Qmult_lt_compat_r; assumption. }
  assert (kle : (k <= 1025)%Z).
  { unfold k.
    assert (floor_lt : (Qfloor y < 2 ^ 1078)%Z).
    { rewrite Zlt_Qlt. eapply Qle_lt_trans; [apply Qfloor_le | exact ylt]. }
    destruct (Z.le_gt_cases (Qfloor y) 0) as [small | pos].
    - rewrite Z.log2_nonpos by exact small. lia.
    - apply Z.log2_lt_pow2 in floor_lt; lia. }
  assert (msum : (inject_Z m <= y / inject_Z (2 ^ k) + (1 # 2))%Q)
    by apply round_half_even_le.
  assert (sgn : (Z.sgn (Qnum x) * (m * 2 ^ k) <= m * 2 ^ k)%Z).
  { assert (0 <= m)%Z.
    { apply round_half_even_nonneg. apply Qle_shift_div_l; [exact scale |].
      rewrite Qmult_0_l, yx. apply Qmult_le_0_compat; lra. }
    assert (0 < 2 ^ k)%Z by (apply Z.pow_pos_nonneg; lia).
    pose proof (Z.sgn_spec (Qnum x)). nia. }
  apply Qle_shift_div_r; [exact unit |].
  eapply Qle_trans; [rewrite <- Zle_Qle; exact sgn |].
  rewrite inject_Z_mult.
  assert (half : (inject_Z (2 ^ k) * (1 # 2) <= inject_Z (2 ^ 1024))%Q).
  { assert (le : (inject_Z (2 ^ k) <= inject_Z (2 ^ 1025))%Q).
    { rewrite <- Zle_Qle. apply Z.pow_le_mono_r; lia. }
    replace (2 ^ 1025)%Z with (2 * 2 ^ 1024)%Z in le by
      (rewrite <- Z.pow_succ_r by lia; reflexivity).
    rewrite inject_Z_mult in le. change (inject_Z 2) with 2%Q in le. lra. }
  assert (step : (inject_Z m * inject_Z (2 ^ k)
                  <= y + inject_Z (2 ^ k) * (1 # 2))%Q).
  { eapply Qle_trans;
      [apply Qmult_le_compat_r; [exact msum | apply Qlt_le_weak, scale] |].
    rewrite Qmult_plus_distr_l.
    assert (cancel : (y / inject_Z (2 ^ k) * inject_Z (2 ^ k) == y)%Q).
    { field. intros zero. rewrite zero in scale. discriminate. }
    rewrite cancel. rewrite (Qmult_comm (1 # 2)). apply Qle_refl. }
  eapply Qle_trans; [exact step |].
  rewrite yx, Qmult_plus_distr_l.
  assert (last : ((1 # 1125899906842624) * inject_Z (2 ^ 1074)
                  == inject_Z (2 ^ 1024))%Q).
  { vm_compute. reflexivity. }
  rewrite last. lra.
Qed.

End Rounding.

Section Colours.
Variable out : Outside.

(** X28.  [Math.random()] gives a binary64 number from 0 up to but not
    including 1, that is, at most 1 - 2^-53.  For such a number the rounded
    product with the size of the palette stays below that size, so that the
    index computed by [getRandomColor] is within the palette: the function
    returns one of the ten colours, never undefined. *)
Theorem getRandomColor_in_palette (w : Io.World)
    (double : (0 <= Math_random out (Io.trace w)
               <= 1 - (1 # 9007199254740992))%Q) :
  exists c,
    GoalCreator.getRandomColor out w = (Ok (Js.JStr c), w)
    /\ In c GoalCreator.GOAL_COLORS.
Proof.
  destruct double as [low high].
  unfold GoalCreator.getRandomColor, Io.bind, Io.ask, Io.ret.
  set (r := Math_random out (Io.trace w)) in *.
  change (inject_Z (Z.of_nat (List.length GoalCreator.GOAL_COLORS)))
    with 10%Q.
  set (i := Qfloor (Js.round64 (r * 10))).
  assert (product : (0 <= r * 10)%Q) by lra.
  assert (lower : (0 <= i)%Z).
  { change 0%Z with (Qfloor 0). apply Qfloor_resp_le.
    apply round64_nonneg, product. }
  assert (upper : (i < 10)%Z).
  { rewrite Zlt_Qlt. change (inject_Z 10) with 10%Q.
    apply Qle_lt_trans with (Js.round64 (r * 10)); [apply Qfloor_le |].
    eapply Qle_lt_trans; [apply round64_upper; lra |]. lra. }
  destruct (i <? 0)%Z eqn:negative; [apply Z.ltb_lt in negative; lia |].
  destruct (nth_error GoalCreator.GOAL_COLORS (Z.to_nat i)) as [c |] eqn:at_i.
  - exists c. split; [reflexivity | exact (nth_error_In _ _ at_i)].
  - apply nth_error_None in at_i. simpl in at_i. lia.
Qed.

End Colours.

Lemma getRandomColor_in_palette_witness :
  (exists c,
     GoalCreator.getRandomColor Situation.seven_tenths Scenario.fresh
     = (Ok (Js.JStr c), Scenario.fresh)
     /\ In c GoalCreator.GOAL_COLORS)
  /\ GoalCreator.getRandomColor Situation.seven_tenths Scenario.fresh
     = (Ok (Js.JStr "#85C1E2"), Scenario.fresh).
Proof.
  split; [| vm_compute; reflexivity].
  apply (getRandomColor_in_palette Situation.seven_tenths Scenario.fresh).
  split; [discriminate | vm_compute; discriminate].
Defined.
